(** * xeokit-sdk: batching layer, geometry, quantization codec and oct-encoding

    A shallow embedding of

      - [src/scene/bigModels/batching/batchingLayer.js]
        (class [BatchingLayer] with its draw methods, [quantizePositions],
        [transformAndOctEncodeNormals], [octEncodeVec3], [octDecodeVec2],
        [dot]), and
      - [src/scene/geometry/Geometry.js]
        (class [Geometry]: the constructor, [_buildVBOs], [_buildHash],
        the accessors of positions, normals, UVs and colours, the
        boundary getters and [_setBoundaryDirty]; [getBounds],
        [quantizeVec3], [quantizeVec2], [octEncode], [octEncodeVec3],
        [octDecodeVec2], [dot]),

    together with the properties of section 8 of the specification and
    further properties read off the code.

    JavaScript numbers are rendered twice.  For the layer, and for what
    the quantizers do on an axis of zero extent, they are exact numbers
    extended with the IEEE special values: rationals with [Infinity],
    [-Infinity] and [NaN] (module [JS]); the oct codec, which takes a
    square root, is over the real numbers (module [Oct]).  Neither
    represents rounding or the sign of zero.  Where the result depends on
    rounding - what the quantizers store and decode on an axis of
    positive extent - [getBounds], [quantizeVec3] and [quantizePositions]
    are embedded bit for bit in IEEE 754 binary64, with binary32 for the
    elements of a [Float32Array] (module [IEEE]); the class [Geometry] is
    built on that embedding. *)

From Stdlib Require Import ZArith QArith Qround Qabs Lia Lqa String List.
From Stdlib Require Import Reals Zfloor Lra.
From Stdlib Require Import SpecFloat.
From stdpp Require Import base list.

Local Open Scope Z_scope.

(** ** Loops

    [for (i = lo; i < hi; i += step) body] visits [lo], [lo + step], ...
    while the index is below [hi]. *)

Definition for_range (lo hi step : nat) : list nat :=
  map (fun k => (lo + k * step)%nat)
      (seq 0 (Nat.div (hi - lo + (step - 1)) step)).

Definition for_loop {S : Type} (lo hi step : nat) (body : nat -> S -> S) (s : S) : S :=
  foldl (fun acc i => body i acc) s (for_range lo hi step).

(** ** WebGL primitive types: [gl.POINTS] ... [gl.TRIANGLE_FAN] *)

Inductive GLenum : Type :=
| POINTS | LINES | LINE_LOOP | LINE_STRIP | TRIANGLES | TRIANGLE_STRIP | TRIANGLE_FAN.

(** ** JavaScript numbers and typed-array element conversions *)

Module JS.

(** A number: a finite rational, or one of the three special values. *)
Inductive num : Type :=
| Fin (q : Q)
| PInf
| NInf
| NaN.

Definition is_finite (x : num) : bool :=
  match x with Fin _ => true | _ => false end.

Definition Qsign (q : Q) : comparison := (q ?= 0)%Q.

Definition neg (x : num) : num :=
  match x with
  | Fin q => Fin (- q)%Q
  | PInf => NInf
  | NInf => PInf
  | NaN => NaN
  end.

Definition add (x y : num) : num :=
  match x, y with
  | NaN, _ | _, NaN => NaN
  | Fin a, Fin b => Fin (a + b)%Q
  | PInf, NInf | NInf, PInf => NaN
  | PInf, _ | _, PInf => PInf
  | NInf, _ | _, NInf => NInf
  end.

Definition sub (x y : num) : num := add x (neg y).

(** The infinity of the sign of [c] (a zero stands for [+0]). *)
Definition inf_of (c : comparison) : num :=
  match c with Lt => NInf | _ => PInf end.

Definition flip (c : comparison) : comparison :=
  match c with Lt => Gt | Gt => Lt | Eq => Eq end.

Definition mul (x y : num) : num :=
  match x, y with
  | NaN, _ | _, NaN => NaN
  | Fin a, Fin b => Fin (a * b)%Q
  | Fin a, PInf | PInf, Fin a =>
      match Qsign a with Eq => NaN | c => inf_of c end
  | Fin a, NInf | NInf, Fin a =>
      match Qsign a with Eq => NaN | c => inf_of (flip c) end
  | PInf, PInf | NInf, NInf => PInf
  | PInf, NInf | NInf, PInf => NInf
  end.

(** Division never raises: a zero divisor gives an infinity, or [NaN] for
    [0 / 0]. *)
Definition div (x y : num) : num :=
  match x, y with
  | NaN, _ | _, NaN => NaN
  | Fin a, Fin b =>
      match Qsign b with
      | Eq => match Qsign a with Eq => NaN | c => inf_of c end
      | _ => Fin (a / b)%Q
      end
  | Fin _, (PInf | NInf) => Fin 0
  | (PInf | NInf), (PInf | NInf) => NaN
  | PInf, Fin b => inf_of (Qsign b)
  | NInf, Fin b => inf_of (flip (match Qsign b with Eq => Gt | c => c end))
  end.

(** [x < y]; false as soon as one side is [NaN]. *)
Definition ltb (x y : num) : bool :=
  match x, y with
  | NaN, _ | _, NaN => false
  | Fin a, Fin b => match (a ?= b)%Q with Lt => true | _ => false end
  | NInf, NInf | PInf, _ | _, NInf => false
  | NInf, _ | _, PInf => true
  end.

Definition gtb (x y : num) : bool := ltb y x.

Definition Math_floor (x : num) : num :=
  match x with
  | Fin q => Fin (inject_Z (Qfloor q))
  | other => other
  end.

Definition Math_min (x y : num) : num :=
  match x, y with
  | NaN, _ | _, NaN => NaN
  | _, _ => if ltb y x then y else x
  end.

Definition Math_max (x y : num) : num :=
  match x, y with
  | NaN, _ | _, NaN => NaN
  | _, _ => if ltb x y then y else x
  end.

(** Truncation towards zero, the first step of the integer conversions. *)
Definition Qtrunc (q : Q) : Z :=
  match Qsign q with Lt => Qceiling q | _ => Qfloor q end.

(** Storing into a [Uint16Array] element: [NaN] and the infinities give 0,
    a finite number is truncated and taken modulo 2^16. *)
Definition ToUint16 (x : num) : Z :=
  match x with
  | Fin q => Qtrunc q mod 65536
  | _ => 0
  end.

(** Storing an integer into a [Uint8Array] element. *)
Definition ToUint8 (z : Z) : Z := z mod 256.

(** Reading an array element as a number; a missing element is
    [undefined], which arithmetic turns into [NaN]. *)
Definition getnum (a : list num) (i : nat) : num := default NaN (a !! i).

Definition of_Z (z : Z) : num := Fin (inject_Z z).

End JS.

Import JS.

(** ** The 4x4 matrix helpers the quantizers call

    [math.js] is not among the sources.  Matrices are flat arrays of 16
    numbers in column-major order, as WebGL takes them. *)

Module Mat.

(** Modelled from the spec: [math.identityMat4], missing from the sources;
    the identity transform. *)
Definition identityMat4 : list num :=
  map of_Z [1; 0; 0; 0;  0; 1; 0; 0;  0; 0; 1; 0;  0; 0; 0; 1].

(** Modelled from the spec: [math.translationMat4v (v, dest)], missing from
    the sources; makes [dest] the "translate" factor of the decode matrix
    by writing the vector into its fourth column. *)
Definition translationMat4v (v dest : list num) : list num :=
  <[14%nat := getnum v 2]> (<[13%nat := getnum v 1]> (<[12%nat := getnum v 0]> dest)).

(** Modelled from the spec: [math.scalingMat4v (v, dest)], missing from the
    sources; makes [dest] the "scale" factor of the decode matrix by
    writing the vector onto its diagonal. *)
Definition scalingMat4v (v dest : list num) : list num :=
  <[10%nat := getnum v 2]> (<[5%nat := getnum v 1]> (<[0%nat := getnum v 0]> dest)).

(** Modelled from the spec: [math.mulMat4 (a, b, dest)], missing from the
    sources; the matrix product [a * b] ("translate x scale"). *)
Definition mulMat4 (a b : list num) : list num :=
  map (fun j =>
         let row := (j mod 4)%nat in
         let col := (j / 4)%nat in
         add (add (add (mul (getnum a row) (getnum b (col * 4)))
                       (mul (getnum a (4 + row)) (getnum b (col * 4 + 1))))
                  (mul (getnum a (8 + row)) (getnum b (col * 4 + 2))))
             (mul (getnum a (12 + row)) (getnum b (col * 4 + 3))))
      (seq 0 16).

End Mat.

(** ** Geometry.js: bounds and position quantization *)

Module Geometry.

(** [getBounds (array, stride)].  [min] and [max] are [Float32Array]s;
    [Number.MAX_VALUE] is beyond the single-precision range, so the
    initial elements are stored as [Infinity] and [-Infinity]. *)
Definition getBounds (array : list num) (stride : nat) : list num * list num :=
  let min0 := replicate stride PInf in
  let max0 := replicate stride NInf in
  for_loop 0 (length array) stride
    (fun i mm =>
       for_loop 0 stride 1
         (fun j '(mn, mx) =>
            (<[j := Math_min (getnum mn j) (getnum array (i + j))]> mn,
             <[j := Math_max (getnum mx j) (getnum array (i + j))]> mx))
         mm)
    (min0, max0).

(** The [multiplier] array of [quantizeVec3]. *)
Definition multiplier (min max : list num) : list num :=
  [ div (of_Z 65535) (sub (getnum max 0) (getnum min 0));
    div (of_Z 65535) (sub (getnum max 1) (getnum min 1));
    div (of_Z 65535) (sub (getnum max 2) (getnum min 2)) ].

(** The result of [quantizeVec3], [{compressed, decode}]. *)
Record Compressed : Type := mkCompressed {
  compressed : list Z;     (* Uint16Array *)
  decode : list num        (* 4x4 decode matrix *)
}.

Definition quantizeVec3 (array min max : list num) : Compressed :=
  let quantized0 := replicate (length array) 0 in
  let m := multiplier min max in
  let quantized :=
    for_loop 0 (length array) 3
      (fun i quantized =>
         let quantized :=
           <[i := ToUint16 (Math_floor (mul (sub (getnum array i) (getnum min 0)) (getnum m 0)))]> quantized in
         let quantized :=
           <[(i + 1)%nat := ToUint16 (Math_floor (mul (sub (getnum array (i + 1)) (getnum min 1)) (getnum m 1)))]> quantized in
         <[(i + 2)%nat := ToUint16 (Math_floor (mul (sub (getnum array (i + 2)) (getnum min 2)) (getnum m 2)))]> quantized)
      quantized0 in
  let translate := Mat.translationMat4v min Mat.identityMat4 in
  let scale :=
    Mat.scalingMat4v
      [ div (sub (getnum max 0) (getnum min 0)) (of_Z 65535);
        div (sub (getnum max 1) (getnum min 1)) (of_Z 65535);
        div (sub (getnum max 2) (getnum min 2)) (of_Z 65535) ]
      Mat.identityMat4 in
  let decodeMat := Mat.mulMat4 translate scale in
  mkCompressed quantized decodeMat.

(** The [switch (cfg.primitive)] of the constructor: the WebGL enum, the
    name kept in [state.primitiveName], and the messages passed to
    [this.error] (inherited from [Component], which logs them).  Note
    that the [default] branch keeps the given name. *)
Definition init_primitive (cfg_primitive : option string) : GLenum * string * list string :=
  let name :=
    match cfg_primitive with
    | None | Some EmptyString => "triangles"%string
    | Some name => name
    end in
  if String.eqb name "points" then (POINTS, name, [])
  else if String.eqb name "lines" then (LINES, name, [])
  else if String.eqb name "line-loop" then (LINE_LOOP, name, [])
  else if String.eqb name "line-strip" then (LINE_STRIP, name, [])
  else if String.eqb name "triangles" then (TRIANGLES, name, [])
  else if String.eqb name "triangle-strip" then (TRIANGLE_STRIP, name, [])
  else if String.eqb name "triangle-fan" then (TRIANGLE_FAN, name, [])
  else (TRIANGLES, name,
        [("Unsupported value for 'primitive': '" ++ name ++
          "' - supported values are 'points', 'lines', 'line-loop', 'line-strip', 'triangles', " ++
          "'triangle-strip' and 'triangle-fan'. Defaulting to 'triangles'.")%string]).

End Geometry.

(** ** batchingLayer.js: position quantization *)

Module BatchingQuantize.

Definition maxInt : Z := 65525.

(** The three multipliers [xMultiplier], [yMultiplier], [zMultiplier]. *)
Definition multipliers (aabb : list num) : list num :=
  let xmin := getnum aabb 0 in
  let ymin := getnum aabb 1 in
  let zmin := getnum aabb 2 in
  let xwid := sub (getnum aabb 3) xmin in
  let ywid := sub (getnum aabb 4) ymin in
  let zwid := sub (getnum aabb 5) zmin in
  [ div (of_Z maxInt) xwid; div (of_Z maxInt) ywid; div (of_Z maxInt) zwid ].

(** [quantizePositions (positions, lenPositions, aabb, quantizedPositions,
    positionsDecodeMatrix)] writes the first [lenPositions] elements of
    [quantizedPositions] and the decode matrix; both are returned.

    Modelled from the spec: the arena class that allocates
    [quantizedPositions] is missing from the sources; it is the
    "fixed-precision integer array" of section 4.1 with range [0, 65535],
    an array of unsigned 16-bit elements as in [Geometry.quantizeVec3]. *)
Definition quantizePositions (positions : list num) (lenPositions : nat)
    (aabb : list num) (quantizedPositions : list Z) : list Z * list num :=
  let xmin := getnum aabb 0 in
  let ymin := getnum aabb 1 in
  let zmin := getnum aabb 2 in
  let xwid := sub (getnum aabb 3) xmin in
  let ywid := sub (getnum aabb 4) ymin in
  let zwid := sub (getnum aabb 5) zmin in
  let xMultiplier := div (of_Z maxInt) xwid in
  let yMultiplier := div (of_Z maxInt) ywid in
  let zMultiplier := div (of_Z maxInt) zwid in
  let quantized :=
    for_loop 0 lenPositions 3
      (fun i quantizedPositions =>
         let quantizedPositions :=
           <[i := ToUint16 (Math_floor (mul (sub (getnum positions i) xmin) xMultiplier))]> quantizedPositions in
         let quantizedPositions :=
           <[(i + 1)%nat := ToUint16 (Math_floor (mul (sub (getnum positions (i + 1)) ymin) yMultiplier))]> quantizedPositions in
         <[(i + 2)%nat := ToUint16 (Math_floor (mul (sub (getnum positions (i + 2)) zmin) zMultiplier))]> quantizedPositions)
      quantizedPositions in
  let translate := Mat.translationMat4v aabb Mat.identityMat4 in
  let scale :=
    Mat.scalingMat4v
      [ div xwid (of_Z maxInt); div ywid (of_Z maxInt); div zwid (of_Z maxInt) ]
      Mat.identityMat4 in
  (quantized, Mat.mulMat4 translate scale).

End BatchingQuantize.

(** ** The quantizers in IEEE 754 arithmetic

    The engine computes in binary64 and keeps the elements of a
    [Float32Array] in binary32.  [SpecFloat] of the standard library
    gives both formats, with signed zeros, infinities, [NaN] and
    rounding to nearest, ties to even.  Here the two quantizers and
    [getBounds] are embedded once more, bit for bit: every operation
    rounds to binary64, every store into a [Float32Array] rounds to
    binary32. *)

Module IEEE.

(** A JavaScript number. *)
Definition double : Type := spec_float.

Definition NaN : double := S754_nan.

Definition add (x y : double) : double := SFadd 53 1024 x y.
Definition sub (x y : double) : double := SFsub 53 1024 x y.
Definition mul (x y : double) : double := SFmul 53 1024 x y.
Definition div (x y : double) : double := SFdiv 53 1024 x y.
Definition neg (x : double) : double := SFopp x.
Definition ltb (x y : double) : bool := SFltb x y.

(** An integer literal. *)
Definition of_Z (z : Z) : double := binary_normalize 53 1024 z 0 false.

(** A decimal literal [n / 10^k], written as the quotient [n / d]: both
    are exact and the division rounds to the nearest number, as the
    parser does. *)
Definition decimal (n d : Z) : double := div (of_Z n) (of_Z d).

(** [Number.MAX_VALUE], (2^53 - 1) * 2^971. *)
Definition MAX_VALUE : double := S754_finite false (2 ^ 53 - 1) 971.

(** Storing into a [Float32Array] element and reading it back: the
    number is rounded to binary32 (beyond its range, to an infinity),
    and what is read is that binary32 value as a number. *)
Definition fround (x : double) : double :=
  match x with
  | S754_finite s m e =>
      match binary_normalize 24 128 (cond_Zopp s (Zpos m)) e s with
      | S754_finite s' m' e' => binary_normalize 53 1024 (cond_Zopp s' (Zpos m')) e' s'
      | other => other
      end
  | other => other
  end.

Definition is_finite (x : double) : bool :=
  match x with S754_zero _ | S754_finite _ _ _ => true | _ => false end.

Definition is_negative_zero (x : double) : bool :=
  match x with S754_zero true => true | _ => false end.

(** [Math.min] and [Math.max]: [NaN] as soon as one argument is, and
    [-0] below [+0]. *)
Definition Math_min (x y : double) : double :=
  match SFcompare x y with
  | None => NaN
  | Some Lt => x
  | Some Gt => y
  | Some Eq => if is_negative_zero y then y else x
  end.

Definition Math_max (x y : double) : double :=
  match SFcompare x y with
  | None => NaN
  | Some Lt => y
  | Some Gt => x
  | Some Eq => if is_negative_zero x then y else x
  end.

(** The greatest integer not above [(-1)^s * m * 2^e]. *)
Definition floor_of (s : bool) (m : positive) (e : Z) : Z :=
  match e with
  | Zneg p => Z.shiftr (cond_Zopp s (Zpos m)) (Zpos p)
  | _ => Z.shiftl (cond_Zopp s (Zpos m)) e
  end.

Definition Math_floor (x : double) : double :=
  match x with
  | S754_finite s m e => binary_normalize 53 1024 (floor_of s m e) 0 s
  | other => other
  end.

(** Storing into a [Uint16Array] element: [NaN], the zeros and the
    infinities give 0, a finite number is truncated towards zero and
    taken modulo 2^16. *)
Definition ToUint16 (x : double) : Z :=
  match x with
  | S754_finite s m e => cond_Zopp s (floor_of false m e) mod 65536
  | _ => 0
  end.

(** Reading an array element; a missing element is [undefined], which
    arithmetic turns into [NaN]. *)
Definition getnum (a : list double) (i : nat) : double := default NaN (a !! i).

(** The rational a finite number stands for. *)
Definition to_Q (x : double) : option Q :=
  match x with
  | S754_zero _ => Some 0%Q
  | S754_finite s m e =>
      Some (match e with
            | Zneg p => cond_Zopp s (Zpos m) # (2 ^ p)
            | _ => inject_Z (cond_Zopp s (Zpos m) * 2 ^ e)
            end)
  | _ => None
  end.

(** *** The matrix helpers of [math.js]

    Modelled from the spec: [math.js] is not among the sources.  Its
    vectors and matrices are taken to be [Float32Array]s, as
    [Geometry.js] documents for the boxes [math.AABB3] makes and as
    [get positions] allocates the array it decompresses into; the
    arithmetic on their elements is that of numbers. *)
Module Mat.

(** Modelled from the spec: [math.identityMat4], missing from the sources. *)
Definition identityMat4 : list double :=
  map of_Z [1; 0; 0; 0;  0; 1; 0; 0;  0; 0; 1; 0;  0; 0; 0; 1].

(** Modelled from the spec: [math.translationMat4v (v, dest)], missing from
    the sources; the "translate" factor of the decode matrix. *)
Definition translationMat4v (v dest : list double) : list double :=
  <[14%nat := fround (getnum v 2)]>
    (<[13%nat := fround (getnum v 1)]> (<[12%nat := fround (getnum v 0)]> dest)).

(** Modelled from the spec: [math.scalingMat4v (v, dest)], missing from the
    sources; the "scale" factor of the decode matrix. *)
Definition scalingMat4v (v dest : list double) : list double :=
  <[10%nat := fround (getnum v 2)]>
    (<[5%nat := fround (getnum v 1)]> (<[0%nat := fround (getnum v 0)]> dest)).

(** Modelled from the spec: [math.mulMat4 (a, b, dest)], missing from the
    sources; the matrix product [a * b] ("translate x scale"). *)
Definition mulMat4 (a b : list double) : list double :=
  map (fun j =>
         let row := (j mod 4)%nat in
         let col := (j / 4)%nat in
         fround
           (add (add (add (mul (getnum a row) (getnum b (col * 4)))
                          (mul (getnum a (4 + row)) (getnum b (col * 4 + 1))))
                     (mul (getnum a (8 + row)) (getnum b (col * 4 + 2))))
                (mul (getnum a (12 + row)) (getnum b (col * 4 + 3)))))
      (seq 0 16).

(** Modelled from the spec: applying a decode matrix to one quantized
    vertex ("decode * quantized"), missing from the sources. *)
Definition decodeVertex (m : list double) (x y z : Z) : list double :=
  map (fun row =>
         fround
           (add (add (add (mul (getnum m row) (of_Z x))
                          (mul (getnum m (4 + row)) (of_Z y)))
                     (mul (getnum m (8 + row)) (of_Z z)))
                (getnum m (12 + row))))
      (seq 0 3).

(** Modelled from the spec: [math.decompressPositions], missing from the
    sources; decodes a flat array of quantized positions vertex by
    vertex. *)
Fixpoint decompressPositions (m : list double) (qs : list Z) : list double :=
  match qs with
  | x :: y :: z :: rest => decodeVertex m x y z ++ decompressPositions m rest
  | _ => []
  end.

End Mat.

(** *** Geometry.js *)
Module Geometry.

(** [getBounds (array, stride)]: [min] and [max] are [Float32Array]s, so
    each assignment to an element rounds to binary32. *)
Definition getBounds (array : list double) (stride : nat) : list double * list double :=
  let min0 := replicate stride (fround MAX_VALUE) in
  let max0 := replicate stride (fround (neg MAX_VALUE)) in
  for_loop 0 (length array) stride
    (fun i mm =>
       for_loop 0 stride 1
         (fun j '(mn, mx) =>
            (<[j := fround (Math_min (getnum mn j) (getnum array (i + j)))]> mn,
             <[j := fround (Math_max (getnum mx j) (getnum array (i + j)))]> mx))
         mm)
    (min0, max0).

(** The [multiplier] of [quantizeVec3], a [Float32Array]. *)
Definition multiplier (min max : list double) : list double :=
  [ fround (div (of_Z 65535) (sub (getnum max 0) (getnum min 0)));
    fround (div (of_Z 65535) (sub (getnum max 1) (getnum min 1)));
    fround (div (of_Z 65535) (sub (getnum max 2) (getnum min 2))) ].

(** The result of [quantizeVec3], [{compressed, decode}]. *)
Record Compressed : Type := mkCompressed {
  compressed : list Z;        (* Uint16Array *)
  decode : list double        (* 4x4 decode matrix *)
}.

Definition quantizeVec3 (array min max : list double) : Compressed :=
  let quantized0 := replicate (length array) 0 in
  let m := multiplier min max in
  let quantized :=
    for_loop 0 (length array) 3
      (fun i quantized =>
         let quantized :=
           <[i := ToUint16 (Math_floor (mul (sub (getnum array i) (getnum min 0)) (getnum m 0)))]> quantized in
         let quantized :=
           <[(i + 1)%nat := ToUint16 (Math_floor (mul (sub (getnum array (i + 1)) (getnum min 1)) (getnum m 1)))]> quantized in
         <[(i + 2)%nat := ToUint16 (Math_floor (mul (sub (getnum array (i + 2)) (getnum min 2)) (getnum m 2)))]> quantized)
      quantized0 in
  let translate := Mat.translationMat4v min Mat.identityMat4 in
  let scale :=
    Mat.scalingMat4v
      [ div (sub (getnum max 0) (getnum min 0)) (of_Z 65535);
        div (sub (getnum max 1) (getnum min 1)) (of_Z 65535);
        div (sub (getnum max 2) (getnum min 2)) (of_Z 65535) ]
      Mat.identityMat4 in
  let decodeMat := Mat.mulMat4 translate scale in
  mkCompressed quantized decodeMat.

End Geometry.

(** *** batchingLayer.js *)
Module BatchingQuantize.

Definition maxInt : Z := 65525.

(** [quantizePositions]; the multipliers are plain numbers here.

    Modelled from the spec: the arena class that allocates
    [quantizedPositions] is missing from the sources; it is the
    "fixed-precision integer array" of section 4.1 with range [0, 65535],
    an array of unsigned 16-bit elements as in [Geometry.quantizeVec3]. *)
Definition quantizePositions (positions : list double) (lenPositions : nat)
    (aabb : list double) (quantizedPositions : list Z) : list Z * list double :=
  let xmin := getnum aabb 0 in
  let ymin := getnum aabb 1 in
  let zmin := getnum aabb 2 in
  let xwid := sub (getnum aabb 3) xmin in
  let ywid := sub (getnum aabb 4) ymin in
  let zwid := sub (getnum aabb 5) zmin in
  let xMultiplier := div (of_Z maxInt) xwid in
  let yMultiplier := div (of_Z maxInt) ywid in
  let zMultiplier := div (of_Z maxInt) zwid in
  let quantized :=
    for_loop 0 lenPositions 3
      (fun i quantizedPositions =>
         let quantizedPositions :=
           <[i := ToUint16 (Math_floor (mul (sub (getnum positions i) xmin) xMultiplier))]> quantizedPositions in
         let quantizedPositions :=
           <[(i + 1)%nat := ToUint16 (Math_floor (mul (sub (getnum positions (i + 1)) ymin) yMultiplier))]> quantizedPositions in
         <[(i + 2)%nat := ToUint16 (Math_floor (mul (sub (getnum positions (i + 2)) zmin) zMultiplier))]> quantizedPositions)
      quantizedPositions in
  let translate := Mat.translationMat4v aabb Mat.identityMat4 in
  let scale :=
    Mat.scalingMat4v
      [ div xwid (of_Z maxInt); div ywid (of_Z maxInt); div zwid (of_Z maxInt) ]
      Mat.identityMat4 in
  (quantized, Mat.mulMat4 translate scale).

End BatchingQuantize.

End IEEE.

(** ** Exceptions and the state of the batching module *)

Module Layer.

(** What a [throw] carries: the thrown string of [throw "..."], or an
    error object raised by the runtime. *)
Inductive Thrown : Type :=
| ThrowString (s : string)
| TypeError (s : string)
| RangeError (s : string).

Inductive Completion (A : Type) : Type :=
| Normal (a : A)
| Abrupt (e : Thrown).
Arguments Normal {A} a.
Arguments Abrupt {A} e.

(** The bit masks of [renderFlags.js], which is not among the sources:
    they are taken as given. *)
Record RenderFlags : Type := mkRenderFlags {
  VISIBLE : Z;
  GHOSTED : Z;
  HIGHLIGHTED : Z;
  SELECTED : Z;
  CLIPPABLE : Z;
  EDGES : Z
}.

(** A vertex or index buffer on the GPU ([ArrayBuf]): its contents and
    the constructor's [numItems] and [itemSize]. *)
Record ArrayBuf : Type := mkArrayBuf {
  ab_data : list Z;
  numItems : nat;
  itemSize : nat
}.

(** Modelled from the spec: [ArrayBuf.setData (data, offset)]
    ([webgl/ArrayBuf.js] is missing from the sources), the "partial buffer
    update (no full re-upload, no reallocation)" of section 4.3: [data]
    overwrites the elements from [offset] on; the buffer keeps its size, so
    what would fall beyond its end is dropped. *)
Definition ArrayBuf_setData (buf : ArrayBuf) (data : list Z) (offset : nat) : ArrayBuf :=
  mkArrayBuf (list_inserts offset data (ab_data buf)) (numItems buf) (itemSize buf).

(** The [RenderState] held in [this._state].  The encoded normals are
    produced by [transformAndOctEncodeNormals] (module [Oct], over the
    reals); the layer keeps their count, which is all its own methods
    depend on. *)
Record RenderState : Type := mkRenderState {
  primitiveName : string;
  primitive : GLenum;
  positionsBuf : option ArrayBuf;
  normalsBuf : option nat;
  colorsBuf : option ArrayBuf;
  flagsBuf : option ArrayBuf;
  pickColorsBuf : option ArrayBuf;
  indicesBuf : option ArrayBuf;
  edgeIndicesBuf : option ArrayBuf;
  positionsDecodeMatrix : list num
}.

(** The arena [cfg.buffer].  Its class is missing from the sources; the
    fields are those the layer reads and writes.  The typed arrays have a
    fixed length: an element write beyond it is ignored.

    Modelled from the spec: the element types, from section 3: [colors],
    [flags] and [pickColors] are "stride-4 unsigned byte" arrays. *)
Record BatchingBuffer : Type := mkBatchingBuffer {
  maxVerts : nat;
  positions : list num;
  quantizedPositions : list Z;
  colors : list Z;
  flags : list Z;
  pickColors : list Z;
  indices : list Z;
  edgeIndices : list Z;
  lenPositions : nat;
  lenNormals : nat;
  lenColors : nat;
  lenFlags : nat;
  lenPickColors : nat;
  lenIndices : nat;
  lenEdgeIndices : nat
}.

Record BatchingLayer : Type := mkBatchingLayer {
  _state : RenderState;
  numObjects : nat;
  numVisibleObjects : nat;
  numTransparentObjects : nat;
  numGhostedObjects : nat;
  numSelectedObjects : nat;
  numHighlightedObjects : nat;
  numEdgesObjects : nat;
  _aabb : list num;
  _portions : list nat;
  _finalized : bool;
  _buffer : bool            (* false once [this._buffer = null] *)
}.

(** Which layer the module-level [currentBatchingLayer] points to. *)
Inductive LayerRef : Type := ThisLayer | OtherLayer.

(** One layer, the arena it was given, and the module-level variables
    [currentBatchingLayer] and [uint8Vec4Temp]. *)
Record World : Type := mkWorld {
  layer : BatchingLayer;
  arena : BatchingBuffer;
  currentBatchingLayer : option LayerRef;
  uint8Vec4Temp : list Z
}.

(** [new Uint8Array ((bigIndicesSupported ? 5000000 : 65530) * 4)]. *)
Definition uint8Vec4Temp_length (bigIndicesSupported : bool) : nat :=
  Z.to_nat ((if bigIndicesSupported then 5000000 else 65530) * 4).

(** A computation on the module state that may throw; a throw keeps the
    writes made before it. *)
Definition M (A : Type) : Type := World -> Completion A * World.

Definition ret {A} (a : A) : M A := fun w => (Normal a, w).
Definition throw {A} (e : Thrown) : M A := fun w => (Abrupt e, w).
Definition bind {A B} (m : M A) (k : A -> M B) : M B :=
  fun w => match m w with
           | (Normal a, w') => k a w'
           | (Abrupt e, w') => (Abrupt e, w')
           end.
Definition get : M World := fun w => (Normal w, w).
Definition put (w : World) : M unit := fun _ => (Normal tt, w).

Declare Scope js_scope.
Delimit Scope js_scope with js.
Notation "x <- m ;; k" := (bind m (fun x => k))
  (at level 100, m at next level, right associativity) : js_scope.
Notation "m ;;; k" := (bind m (fun _ => k))
  (at level 100, right associativity) : js_scope.

(** Field updates. *)
Definition set_layer (l : BatchingLayer) (w : World) : World :=
  mkWorld l (arena w) (currentBatchingLayer w) (uint8Vec4Temp w).
Definition set_arena (b : BatchingBuffer) (w : World) : World :=
  mkWorld (layer w) b (currentBatchingLayer w) (uint8Vec4Temp w).
Definition set_currentBatchingLayer (c : option LayerRef) (w : World) : World :=
  mkWorld (layer w) (arena w) c (uint8Vec4Temp w).
Definition set_uint8Vec4Temp (t : list Z) (w : World) : World :=
  mkWorld (layer w) (arena w) (currentBatchingLayer w) t.

(** *** The geometry helpers of [math.js] that [createPortion] calls *)

(** Modelled from the spec: [math.collapseAABB3], missing from the sources;
    the empty box, the unit of the union of section 3. *)
Definition collapseAABB3 : list num := [PInf; PInf; PInf; NInf; NInf; NInf].

(** Modelled from the spec: [math.expandAABB3Point3 (aabb, p)], missing
    from the sources; grows the box [xmin, ymin, zmin, xmax, ymax, zmax] to
    contain the point. *)
Definition expandAABB3Point3 (aabb p : list num) : list num :=
  for_loop 0 3 1
    (fun k aabb =>
       let aabb := if gtb (getnum aabb k) (getnum p k) then <[k := getnum p k]> aabb else aabb in
       if ltb (getnum aabb (3 + k)) (getnum p k) then <[(3 + k)%nat := getnum p k]> aabb else aabb)
    aabb.

(** Modelled from the spec: [math.transformPoint4 (m, p, dest)], missing
    from the sources; "transforms incoming positions by transform", the
    product of the matrix with the column [p]. *)
Definition transformPoint4 (m p : list num) : list num :=
  map (fun row =>
         add (add (add (mul (getnum m row) (getnum p 0))
                       (mul (getnum m (4 + row)) (getnum p 1)))
                  (mul (getnum m (8 + row)) (getnum p 2)))
             (mul (getnum m (12 + row)) (getnum p 3)))
      (seq 0 4).

(** [target.set (source, offset)] on typed arrays: a [RangeError] when the
    source does not fit. *)
Definition TypedArray_set {A} (target source : list A) (offset : nat) : option (list A) :=
  if (offset + length source <=? length target)%nat
  then Some (list_inserts offset source target)
  else None.

(** *** The class [BatchingLayer] *)

Section BatchingLayerClass.

(** [RENDER_FLAGS], imported from [renderFlags.js], and
    [WEBGL_INFO.SUPPORTED_EXTENSIONS["OES_element_index_uint"]]. *)
Variable RENDER_FLAGS : RenderFlags.
Variable bigIndicesSupported : bool.

(** [!!(flags & mask) ? 255 : 0]. *)
Definition flag_byte (flags mask : Z) : Z :=
  if Z.land flags mask =? 0 then 0 else 255.

(** The [switch (primitiveName)] of the constructor: the WebGL enum and
    the name kept in the render state.  The [default] branch throws; the
    two assignments that follow the [throw] are never reached. *)
Definition constructor_primitive (primitiveName : string) : Completion (GLenum * string) :=
  if String.eqb primitiveName "points" then Normal (POINTS, primitiveName)
  else if String.eqb primitiveName "lines" then Normal (LINES, primitiveName)
  else if String.eqb primitiveName "line-loop" then Normal (LINE_LOOP, primitiveName)
  else if String.eqb primitiveName "line-strip" then Normal (LINE_STRIP, primitiveName)
  else if String.eqb primitiveName "triangles" then Normal (TRIANGLES, primitiveName)
  else if String.eqb primitiveName "triangle-strip" then Normal (TRIANGLE_STRIP, primitiveName)
  else if String.eqb primitiveName "triangle-fan" then Normal (TRIANGLE_FAN, primitiveName)
  else Abrupt (ThrowString
         ("Unsupported value for 'primitive': '" ++ primitiveName ++
          "' - supported values are 'points', 'lines', 'line-loop', 'line-strip', 'triangles', 'triangle-strip' and 'triangle-fan'. Defaulting to 'triangles'.")).

(** [cfg.primitive || "triangles"]: a missing or empty name is falsy. *)
Definition primitive_or_default (cfg_primitive : option string) : string :=
  match cfg_primitive with
  | None | Some EmptyString => "triangles"
  | Some name => name
  end.

(** [new BatchingLayer (model, cfg)].  The renderers fetched by
    [compileShaders] are outside the embedding. *)
Definition constructor (cfg_primitive : option string) : Completion BatchingLayer :=
  match constructor_primitive (primitive_or_default cfg_primitive) with
  | Abrupt e => Abrupt e
  | Normal (primitive, primitiveName) =>
      Normal (mkBatchingLayer
                (mkRenderState primitiveName primitive
                   None None None None None None None Mat.identityMat4)
                0 0 0 0 0 0 0
                collapseAABB3 [] false true)
  end.

(** [canCreatePortion (lenPositions)].  With [_finalized] false, the
    returned expression [(!this._finalized && a + b) < c] is [a + b < c]. *)
Definition canCreatePortion (lenPositions' : nat) : M bool :=
  (w <- get ;;
   if _finalized (layer w) then throw (ThrowString "Already finalized")
   else ret (lenPositions (arena w) + lenPositions' <? maxVerts (arena w) * 3)%nat)%js.

(** The check on [currentBatchingLayer] at the head of [createPortion]. *)
Definition claim_writer : M unit :=
  (w <- get ;;
   match currentBatchingLayer w with
   | Some ThisLayer => ret tt
   | Some OtherLayer => throw (ThrowString "Already packing another BatchingLayer")
   | None => put (set_currentBatchingLayer (Some ThisLayer) w)
   end)%js.

(** Arguments of [createPortion]; an absent optional argument is [None].
    [positions] holds whole vertices, so that [positions.length / 3] is
    the integer [numVerts]. *)
Record PortionCfg : Type := mkPortionCfg {
  cfg_positions : list num;
  cfg_normals : option (list num);
  cfg_indices : option (list Z);
  cfg_edgeIndices : option (list Z);
  cfg_flags : option Z;
  cfg_color : option (list Z);
  cfg_matrix : option (list num);
  cfg_aabb : list num;
  cfg_pickColor : list Z
}.

(** The "Positions" block: copy, transform, grow the two boxes. *)
Definition append_positions (c : PortionCfg) (b : BatchingBuffer) (layer_aabb : list num)
  : option (list num * list num * list num) :=
  match TypedArray_set (positions b) (cfg_positions c) (lenPositions b) with
  | None => None
  | Some positions0 =>
      Some
        (for_loop (lenPositions b) (lenPositions b + length (cfg_positions c)) 3
           (fun i '(ps, aabb, laabb) =>
              let tempVec3a := [getnum ps i; getnum ps (i + 1); getnum ps (i + 2); of_Z 1] in
              match cfg_matrix c with
              | Some matrix =>
                  let tempVec3b := transformPoint4 matrix tempVec3a in
                  (<[(i + 2)%nat := getnum tempVec3b 2]>
                     (<[(i + 1)%nat := getnum tempVec3b 1]>
                        (<[i := getnum tempVec3b 0]> ps)),
                   expandAABB3Point3 aabb tempVec3b,
                   expandAABB3Point3 laabb tempVec3b)
              | None =>
                  (ps, expandAABB3Point3 aabb tempVec3a, expandAABB3Point3 laabb tempVec3a)
              end)
           (positions0, cfg_aabb c, layer_aabb))
  end.

(** A loop that writes the same four bytes at every fourth index. *)
Definition fill_vec4 (lo hi : nat) (v0 v1 v2 v3 : Z) (a : list Z) : list Z :=
  for_loop lo hi 4
    (fun i a =>
       <[(i + 3)%nat := ToUint8 v3]>
         (<[(i + 2)%nat := ToUint8 v2]>
            (<[(i + 1)%nat := ToUint8 v1]>
               (<[i := ToUint8 v0]> a))))
    a.

(** [color[k]] stored into a byte; a missing component is [undefined]
    and is stored as 0. *)
Definition color_byte (color : list Z) (k : nat) : Z := default 0 (color !! k).

(** [a < 255] for [a = color[3]]; false for a missing component. *)
Definition is_transparent (color : list Z) : bool :=
  match color !! 3%nat with Some a => a <? 255 | None => false end.

(** Modelled from the spec: the element type of the arena's index arrays
    (the arena class is missing from the sources), "unsigned 16- or 32-bit
    (selected by hardware capability)". *)
Definition ToIndex (z : Z) : Z :=
  z mod (if bigIndicesSupported then 2 ^ 32 else 2 ^ 16).

(** The loops over [indices] and [edgeIndices]. *)
Definition append_indices (src : list Z) (vertsIndex len : nat) (dst : list Z) : list Z :=
  for_loop 0 (length src) 1
    (fun i dst => <[(len + i)%nat := ToIndex (default 0 (src !! i) + Z.of_nat vertsIndex)]> dst)
    dst.

Definition bump (b : bool) (n : nat) : nat := if b then S n else n.

(** [createPortion (positions, normals, indices, edgeIndices, flags, color,
    matrix, aabb, pickColor)]; returns the portion ID and the grown [aabb].
    The second guard repeats the test of the first. *)
Definition createPortion (c : PortionCfg) : M (nat * list num) :=
  (w <- get ;;
   (if _finalized (layer w) then throw (ThrowString "Already finalized") else ret tt) ;;;
   (if _finalized (layer w)
    then throw (ThrowString "BatchingLayer full - check first with canCreatePortion()")
    else ret tt) ;;;
   claim_writer ;;;
   w <- get ;;
   let buffer := arena w in
   let L := layer w in
   let positionsIndex := lenPositions buffer in
   let vertsIndex := (positionsIndex / 3)%nat in
   let numVerts := (length (cfg_positions c) / 3)%nat in
   let lenPositions' := length (cfg_positions c) in
   match append_positions c buffer (_aabb L) with
   | None => throw (RangeError "offset is out of bounds")
   | Some (positions', aabb', layer_aabb') =>
       (* normals *)
       let lenNormals' :=
         match cfg_normals c with
         | Some normals => (lenNormals buffer + length normals)%nat
         | None => lenNormals buffer
         end in
       (* flags *)
       let visible := flag_byte (default 0 (cfg_flags c)) (VISIBLE RENDER_FLAGS) in
       let ghosted := flag_byte (default 0 (cfg_flags c)) (GHOSTED RENDER_FLAGS) in
       let highlighted := flag_byte (default 0 (cfg_flags c)) (HIGHLIGHTED RENDER_FLAGS) in
       let selected := flag_byte (default 0 (cfg_flags c)) (SELECTED RENDER_FLAGS) in
       let clippable := flag_byte (default 0 (cfg_flags c)) (CLIPPABLE RENDER_FLAGS) in
       let edges := flag_byte (default 0 (cfg_flags c)) (EDGES RENDER_FLAGS) in
       let has_flags := match cfg_flags c with Some _ => true | None => false end in
       let flags' :=
         if has_flags
         then fill_vec4 (lenFlags buffer) (lenFlags buffer + numVerts * 4)
                visible ghosted highlighted clippable (flags buffer)
         else flags buffer in
       let lenFlags' := if has_flags then (lenFlags buffer + numVerts * 4)%nat else lenFlags buffer in
       (* color *)
       let colors' :=
         match cfg_color c with
         | Some color =>
             fill_vec4 (lenColors buffer) (lenColors buffer + numVerts * 4)
               (color_byte color 0) (color_byte color 1) (color_byte color 2) (color_byte color 3)
               (colors buffer)
         | None => colors buffer
         end in
       let lenColors' :=
         match cfg_color c with
         | Some _ => (lenColors buffer + numVerts * 4)%nat
         | None => lenColors buffer
         end in
       let transparent :=
         match cfg_color c with Some color => is_transparent color | None => false end in
       (* indices, edge indices *)
       let indices' :=
         match cfg_indices c with
         | Some indices0 => append_indices indices0 vertsIndex (lenIndices buffer) (indices buffer)
         | None => indices buffer
         end in
       let lenIndices' :=
         match cfg_indices c with
         | Some indices0 => (lenIndices buffer + length indices0)%nat
         | None => lenIndices buffer
         end in
       let edgeIndices' :=
         match cfg_edgeIndices c with
         | Some edgeIndices0 =>
             append_indices edgeIndices0 vertsIndex (lenEdgeIndices buffer) (edgeIndices buffer)
         | None => edgeIndices buffer
         end in
       let lenEdgeIndices' :=
         match cfg_edgeIndices c with
         | Some edgeIndices0 => (lenEdgeIndices buffer + length edgeIndices0)%nat
         | None => lenEdgeIndices buffer
         end in
       (* pick colors *)
       let pickColors' :=
         fill_vec4 (lenPickColors buffer) (lenPickColors buffer + numVerts * 4)
           (color_byte (cfg_pickColor c) 0) (color_byte (cfg_pickColor c) 1)
           (color_byte (cfg_pickColor c) 2) (color_byte (cfg_pickColor c) 3)
           (pickColors buffer) in
       let lenPickColors' := (lenPickColors buffer + numVerts * 4)%nat in
       let portionId := (length (_portions L) / 2)%nat in
       let buffer' :=
         mkBatchingBuffer (maxVerts buffer) positions' (quantizedPositions buffer)
           colors' flags' pickColors' indices' edgeIndices'
           (positionsIndex + lenPositions')%nat lenNormals' lenColors' lenFlags'
           lenPickColors' lenIndices' lenEdgeIndices' in
       let L' :=
         mkBatchingLayer (_state L)
           (S (numObjects L))
           (bump (has_flags && negb (visible =? 0)) (numVisibleObjects L))
           (bump transparent (numTransparentObjects L))
           (bump (has_flags && negb (ghosted =? 0)) (numGhostedObjects L))
           (bump (has_flags && negb (selected =? 0)) (numSelectedObjects L))
           (bump (has_flags && negb (highlighted =? 0)) (numHighlightedObjects L))
           (bump (has_flags && negb (edges =? 0)) (numEdgesObjects L))
           layer_aabb'
           (_portions L ++ [vertsIndex; numVerts])
           (_finalized L) (_buffer L) in
       put (set_arena buffer' (set_layer L' w)) ;;;
       ret (portionId, aabb')
   end)%js.

(** [new ArrayBuf (gl, type, data.slice (0, len), len, itemSize, ...)]. *)
Definition new_ArrayBuf (data : list Z) (len itemSize' : nat) : ArrayBuf :=
  mkArrayBuf (take len data) len itemSize'.

(** The [if (len > 0) state.xBuf = new ArrayBuf (...)] statements. *)
Definition upload (old : option ArrayBuf) (data : list Z) (len itemSize' : nat) : option ArrayBuf :=
  if (0 <? len)%nat then Some (new_ArrayBuf data len itemSize') else old.

(** [finalize ()].  On a finalized layer the guard evaluates
    [this.error ("Already finalized")]; the class declares no method
    [error] and extends no class, so the call raises a [TypeError] and the
    [return] after it is not reached. *)
Definition finalize : M unit :=
  (w <- get ;;
   if _finalized (layer w) then throw (TypeError "this.error is not a function")
   else
     let L := layer w in
     let state := _state L in
     let buffer := arena w in
     let result :=
       BatchingQuantize.quantizePositions (positions buffer) (lenPositions buffer)
         (_aabb L) (quantizedPositions buffer) in
     let quantized := fst result in
     let decodeMatrix := snd result in
     let state' :=
       mkRenderState (primitiveName state) (primitive state)
         (upload (positionsBuf state) quantized (lenPositions buffer) 3)
         (if (0 <? lenNormals buffer)%nat then Some (lenNormals buffer) else normalsBuf state)
         (upload (colorsBuf state) (colors buffer) (lenColors buffer) 4)
         (upload (flagsBuf state) (flags buffer) (lenFlags buffer) 4)
         (upload (pickColorsBuf state) (pickColors buffer) (lenPickColors buffer) 4)
         (upload (indicesBuf state) (indices buffer) (lenIndices buffer) 1)
         (upload (edgeIndicesBuf state) (edgeIndices buffer) (lenEdgeIndices buffer) 1)
         decodeMatrix in
     let buffer' :=
       mkBatchingBuffer (maxVerts buffer) (positions buffer) quantized
         (colors buffer) (flags buffer) (pickColors buffer) (indices buffer) (edgeIndices buffer)
         0 0 0 0 0 0 0 in
     let L' :=
       mkBatchingLayer state' (numObjects L) (numVisibleObjects L) (numTransparentObjects L)
         (numGhostedObjects L) (numSelectedObjects L) (numHighlightedObjects L)
         (numEdgesObjects L) (_aabb L) (_portions L) true false in
     put (mkWorld L' buffer' None (uint8Vec4Temp w)))%js.

(** [this._portions[portionId * 2]] and [this._portions[portionId * 2 + 1]].
    For an unknown [portionId] both are [undefined], the lengths computed
    from them are [NaN], no loop iteration runs and the slice is empty;
    the pair (0, 0) stands for that case. *)
Definition portion (L : BatchingLayer) (portionId : nat) : nat * nat :=
  match _portions L !! (portionId * 2)%nat, _portions L !! (portionId * 2 + 1)%nat with
  | Some vertexBase, Some numVerts => (vertexBase, numVerts)
  | _, _ => (0%nat, 0%nat)
  end.

(** Replacing one buffer of the render state. *)
Definition set_pickColorsBuf (b : ArrayBuf) (L : BatchingLayer) : BatchingLayer :=
  let s := _state L in
  mkBatchingLayer
    (mkRenderState (primitiveName s) (primitive s) (positionsBuf s) (normalsBuf s)
       (colorsBuf s) (flagsBuf s) (Some b) (indicesBuf s) (edgeIndicesBuf s)
       (positionsDecodeMatrix s))
    (numObjects L) (numVisibleObjects L) (numTransparentObjects L) (numGhostedObjects L)
    (numSelectedObjects L) (numHighlightedObjects L) (numEdgesObjects L)
    (_aabb L) (_portions L) (_finalized L) (_buffer L).

Definition set_flagsBuf (b : ArrayBuf) (L : BatchingLayer) : BatchingLayer :=
  let s := _state L in
  mkBatchingLayer
    (mkRenderState (primitiveName s) (primitive s) (positionsBuf s) (normalsBuf s)
       (colorsBuf s) (Some b) (pickColorsBuf s) (indicesBuf s) (edgeIndicesBuf s)
       (positionsDecodeMatrix s))
    (numObjects L) (numVisibleObjects L) (numTransparentObjects L) (numGhostedObjects L)
    (numSelectedObjects L) (numHighlightedObjects L) (numEdgesObjects L)
    (_aabb L) (_portions L) (_finalized L) (_buffer L).

Definition set_colorsBuf (b : ArrayBuf) (L : BatchingLayer) : BatchingLayer :=
  let s := _state L in
  mkBatchingLayer
    (mkRenderState (primitiveName s) (primitive s) (positionsBuf s) (normalsBuf s)
       (Some b) (flagsBuf s) (pickColorsBuf s) (indicesBuf s) (edgeIndicesBuf s)
       (positionsDecodeMatrix s))
    (numObjects L) (numVisibleObjects L) (numTransparentObjects L) (numGhostedObjects L)
    (numSelectedObjects L) (numHighlightedObjects L) (numEdgesObjects L)
    (_aabb L) (_portions L) (_finalized L) (_buffer L).

Definition not_finalized_guard : M unit :=
  (w <- get ;;
   if _finalized (layer w) then ret tt else throw (ThrowString "Not finalized"))%js.

(** The scratch contents after the loop of [setPickID]. *)
Definition setPickID_scratch (numVerts : nat) (pickId : Z) (temp : list Z) : list Z :=
  for_loop 0 (numVerts * 2) 2 (fun i temp => <[i := ToUint8 pickId]> temp) temp.

Definition setPickID (portionId : nat) (pickId : Z) : M unit :=
  (not_finalized_guard ;;;
   w <- get ;;
   let '(vertexBase, numVerts) := portion (layer w) portionId in
   let firstFlag := (vertexBase * 4)%nat in
   let lenPickColors' := (numVerts * 2)%nat in
   let temp := setPickID_scratch numVerts pickId (uint8Vec4Temp w) in
   put (set_uint8Vec4Temp temp w) ;;;
   match pickColorsBuf (_state (layer w)) with
   | None => throw (TypeError "Cannot read properties of undefined (reading 'setData')")
   | Some buf =>
       put (set_layer
              (set_pickColorsBuf (ArrayBuf_setData buf (take lenPickColors' temp) firstFlag) (layer w))
              (set_uint8Vec4Temp temp w))
   end)%js.

(** The scratch contents after the loop of [setFlags]. *)
Definition setFlags_scratch (numVerts : nat) (flags' : Z) (temp : list Z) : list Z :=
  fill_vec4 0 (numVerts * 4)
    (flag_byte flags' (VISIBLE RENDER_FLAGS))
    (flag_byte flags' (GHOSTED RENDER_FLAGS))
    (flag_byte flags' (HIGHLIGHTED RENDER_FLAGS))
    (flag_byte flags' (CLIPPABLE RENDER_FLAGS))
    temp.

Definition setFlags (portionId : nat) (flags' : Z) : M unit :=
  (not_finalized_guard ;;;
   w <- get ;;
   let '(vertexBase, numVerts) := portion (layer w) portionId in
   let firstFlag := (vertexBase * 4)%nat in
   let lenFlags' := (numVerts * 4)%nat in
   let temp := setFlags_scratch numVerts flags' (uint8Vec4Temp w) in
   put (set_uint8Vec4Temp temp w) ;;;
   match flagsBuf (_state (layer w)) with
   | None => throw (TypeError "Cannot read properties of null (reading 'setData')")
   | Some buf =>
       put (set_layer
              (set_flagsBuf (ArrayBuf_setData buf (take lenFlags' temp) firstFlag) (layer w))
              (set_uint8Vec4Temp temp w))
   end)%js.

(** The scratch contents after the loop of [setColor]. *)
Definition setColor_scratch (numVerts : nat) (color : list Z) (temp : list Z) : list Z :=
  fill_vec4 0 (numVerts * 4)
    (color_byte color 0) (color_byte color 1) (color_byte color 2) (color_byte color 3)
    temp.

Definition setColor (portionId : nat) (color : list Z) : M unit :=
  (not_finalized_guard ;;;
   w <- get ;;
   let '(vertexBase, numVerts) := portion (layer w) portionId in
   let firstColor := (vertexBase * 4)%nat in
   let lenColors' := (numVerts * 4)%nat in
   let temp := setColor_scratch numVerts color (uint8Vec4Temp w) in
   put (set_uint8Vec4Temp temp w) ;;;
   match colorsBuf (_state (layer w)) with
   | None => throw (TypeError "Cannot read properties of undefined (reading 'setData')")
   | Some buf =>
       put (set_layer
              (set_colorsBuf (ArrayBuf_setData buf (take lenColors' temp) firstColor) (layer w))
              (set_uint8Vec4Temp temp w))
   end)%js.

End BatchingLayerClass.

End Layer.

(** ** Oct-encoding of normals

    [octEncodeVec3], [octDecodeVec2] and [dot] are the same in both
    files, up to how the vector is passed; they are stated here over the
    real numbers, because decoding takes a square root.  For the zero
    vector JavaScript computes [0 / 0 = NaN], which an [Int8Array] stores
    as 0; the real-number division gives [0 / 0 = 0] and the same bytes. *)

Module Oct.

Local Open Scope R_scope.

(** The strings ["floor"] and ["ceil"] that select [Math.floor] or
    [Math.ceil] in [Math[xfunc]]. *)
Inductive Rounding : Type := floor | ceil.

Definition Math_round (f : Rounding) (x : R) : Z :=
  match f with floor => Zfloor x | ceil => Zceil x end.

(** Storing an integer into an [Int8Array] element. *)
Definition ToInt8 (z : Z) : Z := ((z + 128) mod 256 - 128)%Z.

(** [x >= 0 ? 1 : -1] and [x < 0 ? -1 : 0]. *)
Definition sign_of (x : R) : R := if Rge_dec x 0 then 1 else -1.
Definition bias_of (x : R) : R := if Rlt_dec x 0 then -1 else 0.

Definition vec3 : Type := R * R * R.

(** Oct-encode a single normal vector in 2 bytes. *)
Definition octEncodeVec3 (p : vec3) (xfunc yfunc : Rounding) : Z * Z :=
  let '(p0, p1, p2) := p in
  let x := p0 / (Rabs p0 + Rabs p1 + Rabs p2) in
  let y := p1 / (Rabs p0 + Rabs p1 + Rabs p2) in
  let '(x, y) :=
    if Rlt_dec p2 0
    then
      let tempx := (1 - Rabs y) * sign_of x in
      let tempy := (1 - Rabs x) * sign_of y in
      (tempx, tempy)
    else (x, y) in
  (ToInt8 (Math_round xfunc (x * 127.5 + bias_of x)),
   ToInt8 (Math_round yfunc (y * 127.5 + bias_of y))).

(** Decode an oct-encoded normal.  In the fold of the lower hemisphere
    the second assignment reads the [x] that the first has just
    overwritten. *)
Definition octDecodeVec2 (oct : Z * Z) : vec3 :=
  let x := IZR (fst oct) in
  let y := IZR (snd oct) in
  let x := x / (if Rlt_dec x 0 then 127 else 128) in
  let y := y / (if Rlt_dec y 0 then 127 else 128) in
  let z := 1 - Rabs x - Rabs y in
  let '(x, y) :=
    if Rlt_dec z 0
    then
      let x := (1 - Rabs y) * sign_of x in
      let y := (1 - Rabs x) * sign_of y in
      (x, y)
    else (x, y) in
  let length := sqrt (x * x + y * y + z * z) in
  (x / length, y / length, z / length).

(** Dot product of a normal against a candidate decoding. *)
Definition dot (p v : vec3) : R :=
  let '(p0, p1, p2) := p in
  let '(v0, v1, v2) := v in
  p0 * v0 + p1 * v1 + p2 * v2.

(** The four encodings that are tried, in the order of the source. *)
Definition candidates (n : vec3) : list (Z * Z) :=
  [ octEncodeVec3 n floor floor; octEncodeVec3 n ceil floor;
    octEncodeVec3 n floor ceil; octEncodeVec3 n ceil ceil ].

(** One [if (currentCos > bestCos) { best = oct; bestCos = currentCos; }]
    step, on the pair [(best, bestCos)]. *)
Definition consider (n : vec3) (st : (Z * Z) * R) (oct : Z * Z) : (Z * Z) * R :=
  let dec := octDecodeVec2 oct in
  let currentCos := dot n dec in
  if Rgt_dec currentCos (snd st) then (oct, currentCos) else st.

(** The body of the loop of [octEncode] and of
    [transformAndOctEncodeNormals] for one normal: test the combinations
    of ceil and floor, return [best]. *)
Definition octEncode_best (n : vec3) : Z * Z :=
  let oct := octEncodeVec3 n floor floor in
  let dec := octDecodeVec2 oct in
  let st := (oct, dot n dec) in
  let st := consider n st (octEncodeVec3 n ceil floor) in
  let st := consider n st (octEncodeVec3 n floor ceil) in
  let st := consider n st (octEncodeVec3 n ceil ceil) in
  fst st.

(** The normal stored at [array[i]], [array[i + 1]], [array[i + 2]]. *)
Definition normal_at (array : list R) (i : nat) : vec3 :=
  (nth i array 0, nth (i + 1) array 0, nth (i + 2) array 0).

(** [Geometry.js]: [octEncode (array)], for an array of whole normals.
    The third element of each triplet of [encoded] keeps its initial 0. *)
Definition octEncode (array : list R) : list Z :=
  for_loop 0 (length array) 3
    (fun i encoded =>
       let best := octEncode_best (normal_at array i) in
       <[(i + 1)%nat := snd best]> (<[i := fst best]> encoded))
    (replicate (length array) 0%Z).

Section TransformAndEncode.

(** [math.transformVec3] and [math.normalizeVec3], from [math.js], which
    is not among the sources: taken as given. *)
Variable transformVec3 : list R -> vec3 -> vec3.
Variable normalizeVec3 : vec3 -> vec3.

(** [batchingLayer.js]: [transformAndOctEncodeNormals]; returns the new
    contents of [compressedNormals] and the new [lenCompressedNormals]. *)
Definition transformAndOctEncodeNormals (modelNormalMatrix : list R) (normals : list R)
    (lenNormals : nat) (compressedNormals : list Z) (lenCompressedNormals : nat)
  : list Z * nat :=
  (for_loop 0 lenNormals 3
     (fun i compressedNormals =>
        let localNormal := normal_at normals i in
        let worldNormal := normalizeVec3 (transformVec3 modelNormalMatrix localNormal) in
        let best := octEncode_best worldNormal in
        <[(lenCompressedNormals + i + 2)%nat := 0%Z]>
          (<[(lenCompressedNormals + i + 1)%nat := snd best]>
             (<[(lenCompressedNormals + i)%nat := fst best]> compressedNormals)))
     compressedNormals,
   (lenCompressedNormals + lenNormals)%nat).

End TransformAndEncode.

End Oct.

(** ** Observations on a layer, and the states a layer can be in *)

Module Observe.

Import Layer.

(** Element [i] of a GPU buffer, if the buffer exists and is that long. *)
Definition buf_byte (b : option ArrayBuf) (i : nat) : option Z :=
  match b with Some buf => ab_data buf !! i | None => None end.

(** The flag bytes of the layer as they currently stand: in the arena
    while the layer is being built, on the GPU once it is finalized. *)
Definition current_flags (w : World) : list Z :=
  if _finalized (layer w)
  then match flagsBuf (_state (layer w)) with Some buf => ab_data buf | None => [] end
  else flags (arena w).

Definition current_colors (w : World) : list Z :=
  if _finalized (layer w)
  then match colorsBuf (_state (layer w)) with Some buf => ab_data buf | None => [] end
  else colors (arena w).

(** Byte [k] of the first vertex of a portion; every vertex of a portion
    carries the same four bytes. *)
Definition portion_byte (bytes : list Z) (w : World) (portionId k : nat) : Z :=
  default 0 (bytes !! (fst (portion (layer w) portionId) * 4 + k)%nat).

(** How many of the [n] first naturals satisfy [f]. *)
Fixpoint count_upto (f : nat -> bool) (n : nat) : nat :=
  match n with
  | O => O
  | S m => ((if f m then 1 else 0) + count_upto f m)%nat
  end.

(** The number of portions whose current state is visible (flag byte 0),
    ghosted (byte 1), highlighted (byte 2), or transparent (alpha below
    255), obtained by summing over the portions. *)
Definition count_flag (w : World) (k : nat) : nat :=
  count_upto (fun portionId => negb (portion_byte (current_flags w) w portionId k =? 0))
             (numObjects (layer w)).

Definition count_transparent (w : World) : nat :=
  count_upto (fun portionId => portion_byte (current_colors w) w portionId 3 <? 255)
             (numObjects (layer w)).

(** The primitive names that the constructors' [switch] statements list. *)
Definition supported_primitives : list string :=
  [ "points"; "lines"; "line-loop"; "line-strip"; "triangles"; "triangle-strip";
    "triangle-fan" ]%string.

(** The six counters that decide which render passes run, in the order visible,
    ghosted, highlighted, selected, edges, transparent. *)
Definition counters (L : BatchingLayer) : list nat :=
  [ numVisibleObjects L; numGhostedObjects L; numHighlightedObjects L;
    numSelectedObjects L; numEdgesObjects L; numTransparentObjects L ].

(** The entry of [_portions] for a portion that exists. *)
Definition portion_of (L : BatchingLayer) (portionId : nat) : option (nat * nat) :=
  match _portions L !! (portionId * 2)%nat, _portions L !! (portionId * 2 + 1)%nat with
  | Some vertexBase, Some numVerts => Some (vertexBase, numVerts)
  | _, _ => None
  end.

(** The byte sub-range of a portion in a stride-4 buffer. *)
Definition in_range (vertexBase numVerts i : nat) : Prop :=
  (vertexBase * 4 <= i < (vertexBase + numVerts) * 4)%nat.

(** The colour and flag bytes of [w'] agree with those of [w] at every
    index that satisfies [P]. *)
Definition same_bytes (P : nat -> Prop) (w w' : World) : Prop :=
  forall i, P i ->
    buf_byte (colorsBuf (_state (layer w'))) i = buf_byte (colorsBuf (_state (layer w))) i /\
    buf_byte (flagsBuf (_state (layer w'))) i = buf_byte (flagsBuf (_state (layer w))) i.

Section Reachable.

Variable RENDER_FLAGS : RenderFlags.
Variable bigIndicesSupported : bool.

(** The worlds a layer goes through: it is constructed over some arena,
    and then its methods are called, whether they return or throw. *)
Inductive reachable : World -> Prop :=
| reach_new cfg_primitive L buffer current temp :
    constructor cfg_primitive = Normal L ->
    reachable (mkWorld L buffer current temp)
| reach_createPortion w c :
    reachable w -> reachable (snd (createPortion RENDER_FLAGS bigIndicesSupported c w))
| reach_finalize w :
    reachable w -> reachable (snd (finalize w))
| reach_setFlags w portionId flags' :
    reachable w -> reachable (snd (setFlags RENDER_FLAGS portionId flags' w))
| reach_setColor w portionId color :
    reachable w -> reachable (snd (setColor portionId color w))
| reach_setPickID w portionId pickId :
    reachable w -> reachable (snd (setPickID portionId pickId w)).

(** The worlds of a layer on which [finalize ()] has been called, whatever
    is called on it afterwards. *)
Inductive finalize_called : World -> Prop :=
| called_finalize w :
    finalize_called (snd (finalize w))
| called_canCreatePortion w n :
    finalize_called w -> finalize_called (snd (canCreatePortion n w))
| called_createPortion w c :
    finalize_called w ->
    finalize_called (snd (createPortion RENDER_FLAGS bigIndicesSupported c w))
| called_setFlags w portionId flags' :
    finalize_called w -> finalize_called (snd (setFlags RENDER_FLAGS portionId flags' w))
| called_setColor w portionId color :
    finalize_called w -> finalize_called (snd (setColor portionId color w))
| called_setPickID w portionId pickId :
    finalize_called w -> finalize_called (snd (setPickID portionId pickId w)).

End Reachable.

(** Portions lie one after the other: a later portion starts at or after
    the end of every earlier one. *)
Definition portions_ordered (L : BatchingLayer) : Prop :=
  forall a b va na vb nb,
    (a < b)%nat ->
    portion_of L a = Some (va, na) ->
    portion_of L b = Some (vb, nb) ->
    (va + na <= vb)%nat.

(** While the layer is being built, every portion ends at or before the
    vertex count of the arena. *)
Definition portions_below (w : World) : Prop :=
  forall a va na,
    portion_of (layer w) a = Some (va, na) ->
    _finalized (layer w) = false ->
    ((va + na) * 3 <= lenPositions (arena w))%nat.

(** What every reachable world satisfies: whole pairs in [_portions],
    kept in order and below the arena's vertex count. *)
Definition layer_inv (w : World) : Prop :=
  Nat.Even (length (_portions (layer w))) /\ portions_ordered (layer w) /\ portions_below w.

End Observe.

(** ** Concrete inputs *)

Module Scenario.

Import Layer Observe.

(** A table of flag masks with one bit each. *)
Definition sample_RENDER_FLAGS : RenderFlags := mkRenderFlags 1 2 4 8 16 32.

(** An arena for [n] vertices, as created empty. *)
Definition new_arena (n : nat) : BatchingBuffer :=
  mkBatchingBuffer n
    (replicate (n * 3) (of_Z 0)) (replicate (n * 3) 0)
    (replicate (n * 4) 0) (replicate (n * 4) 0) (replicate (n * 4) 0)
    (replicate (n * 3) 0) (replicate (n * 6) 0)
    0 0 0 0 0 0 0.

(** The layer [new BatchingLayer (model, {buffer: buffer})]. *)
Definition new_layer : BatchingLayer :=
  mkBatchingLayer
    (mkRenderState "triangles" TRIANGLES None None None None None None None Mat.identityMat4)
    0 0 0 0 0 0 0 collapseAABB3 [] false true.

(** The module as loaded without 32-bit indices, with a new layer over a
    new arena. *)
Definition new_world (n : nat) : World :=
  mkWorld new_layer (new_arena n) None (replicate (uint8Vec4Temp_length false) 0).

(** A triangle with the given flags, colour and pick colour. *)
Definition triangle (flags' : Z) (color pickColor : list Z) : PortionCfg :=
  mkPortionCfg (map of_Z [0; 0; 0;  1; 0; 0;  0; 1; 0]) None (Some [0; 1; 2]) None
    (Some flags') (Some color) None collapseAABB3 pickColor.

(** Two vertices, for an arena of two. *)
Definition segment : PortionCfg :=
  mkPortionCfg (map of_Z [0; 0; 0;  1; 0; 0]) None None None
    (Some 1) (Some [255; 0; 0; 255]) None collapseAABB3 [1; 0; 0; 0].

(** One invisible red triangle, then [finalize ()]. *)
Definition world_one_hidden (rf : RenderFlags) : World :=
  snd (finalize
         (snd (createPortion rf false (triangle 0 [255; 0; 0; 255] [1; 0; 0; 0]) (new_world 3)))).

(** Two visible triangles, red and green, then [finalize ()]: the
    end-to-end scenario of section 8. *)
Definition world_two (rf : RenderFlags) : World :=
  snd (finalize
         (snd (createPortion rf false (triangle (VISIBLE rf) [0; 255; 0; 255] [2; 0; 0; 0])
                 (snd (createPortion rf false (triangle (VISIBLE rf) [255; 0; 0; 255] [1; 0; 0; 0])
                         (new_world 6)))))).

(** Positions inside the box [0, 65525] x [0, 1] x [0, 1]. *)
Definition wide_positions : list IEEE.double :=
  [ IEEE.decimal 9999 10000; IEEE.of_Z 0; IEEE.of_Z 0;
    IEEE.of_Z 0; IEEE.of_Z 0; IEEE.of_Z 0;
    IEEE.of_Z 65525; IEEE.of_Z 1; IEEE.of_Z 1 ].
Definition wide_aabb : list IEEE.double := map IEEE.of_Z [0; 0; 0; 65525; 1; 1].

(** The triangle of the documentation of [Geometry],
    [positions: [0.0, 0.9, 0.0, -0.9, -0.9, 0.0, 0.9, -0.9, 0.0]], given
    as an array of numbers. *)
Definition documented_triangle : list IEEE.double :=
  [ IEEE.of_Z 0; IEEE.decimal 9 10; IEEE.of_Z 0;
    IEEE.neg (IEEE.decimal 9 10); IEEE.neg (IEEE.decimal 9 10); IEEE.of_Z 0;
    IEEE.decimal 9 10; IEEE.neg (IEEE.decimal 9 10); IEEE.of_Z 0 ].

(** A triangle in the plane [z = 0]. *)
Definition flat_positions : list num := map of_Z [0; 0; 0;  1; 2; 0;  4; 1; 0].

(** The normal that points straight down. *)
Definition down : Oct.vec3 := (0, 0, -1)%R.

End Scenario.

(** ** The draw methods of the layer, and the layout of the arena *)

Module Passes.

Import Layer.

(** The render passes of [renderPasses.js], which is not among the
    sources: they are taken as names. *)
Inductive RenderPass : Type :=
| PASS_OPAQUE | PASS_TRANSPARENT | PASS_GHOSTED | PASS_HIGHLIGHTED | PASS_SELECTED.

(** Which of the four renderer fields of the layer a draw method uses. *)
Inductive RendererField : Type :=
| DrawRenderer | FillRenderer | EdgesRenderer | PickRenderer.

(** Whether each of [_drawRenderer], [_fillRenderer], [_edgesRenderer] and
    [_pickRenderer] holds a renderer ([get] returns [null] when the
    shader does not compile). *)
Record Renderers : Type := mkRenderers {
  _drawRenderer : bool;
  _fillRenderer : bool;
  _edgesRenderer : bool;
  _pickRenderer : bool
}.

(** A call [renderer.drawLayer (frameCtx, this, pass)]; the pick renderer
    takes no pass. *)
Definition DrawCall : Type := RendererField * option RenderPass.

Definition drawLayer (present : bool) (f : RendererField) (p : option RenderPass)
  : option DrawCall :=
  if present then Some (f, p) else None.

Section DrawMethods.

Variable L : BatchingLayer.
Variable R : Renderers.

Definition drawNormalFillOpaque : option DrawCall :=
  if (numVisibleObjects L =? 0)%nat || (numTransparentObjects L =? numObjects L)%nat
     || (numGhostedObjects L =? numObjects L)%nat
  then None
  else drawLayer (_drawRenderer R) DrawRenderer (Some PASS_OPAQUE).

Definition drawNormalEdgesOpaque : option DrawCall :=
  if (numEdgesObjects L =? 0)%nat then None
  else drawLayer (_edgesRenderer R) EdgesRenderer (Some PASS_OPAQUE).

Definition drawNormalFillTransparent : option DrawCall :=
  if (numVisibleObjects L =? 0)%nat || (numTransparentObjects L =? 0)%nat
     || (numGhostedObjects L =? numObjects L)%nat
  then None
  else drawLayer (_drawRenderer R) DrawRenderer (Some PASS_TRANSPARENT).

Definition drawNormalTransparentEdges : option DrawCall :=
  if (numEdgesObjects L =? 0)%nat || (numTransparentObjects L =? 0)%nat then None
  else drawLayer (_edgesRenderer R) EdgesRenderer (Some PASS_TRANSPARENT).

Definition drawGhostedFillOpaque : option DrawCall :=
  if (numVisibleObjects L =? 0)%nat || (numGhostedObjects L =? 0)%nat then None
  else drawLayer (_fillRenderer R) FillRenderer (Some PASS_GHOSTED).

Definition drawGhostedEdgesOpaque : option DrawCall :=
  if (numVisibleObjects L =? 0)%nat || (numGhostedObjects L =? 0)%nat then None
  else drawLayer (_edgesRenderer R) EdgesRenderer (Some PASS_GHOSTED).

Definition drawGhostedFillTransparent : option DrawCall :=
  if (numVisibleObjects L =? 0)%nat || (numGhostedObjects L =? 0)%nat then None
  else drawLayer (_fillRenderer R) FillRenderer (Some PASS_GHOSTED).

Definition drawGhostedEdgesTransparent : option DrawCall :=
  if (numVisibleObjects L =? 0)%nat || (numGhostedObjects L =? 0)%nat then None
  else drawLayer (_edgesRenderer R) EdgesRenderer (Some PASS_GHOSTED).

Definition drawHighlightedFillOpaque : option DrawCall :=
  if (numVisibleObjects L =? 0)%nat || (numHighlightedObjects L =? 0)%nat then None
  else drawLayer (_fillRenderer R) FillRenderer (Some PASS_HIGHLIGHTED).

Definition drawHighlightedEdgesOpaque : option DrawCall :=
  if (numVisibleObjects L =? 0)%nat || (numHighlightedObjects L =? 0)%nat then None
  else drawLayer (_edgesRenderer R) EdgesRenderer (Some PASS_HIGHLIGHTED).

Definition drawHighlightedFillTransparent : option DrawCall :=
  if (numVisibleObjects L =? 0)%nat || (numHighlightedObjects L =? 0)%nat then None
  else drawLayer (_fillRenderer R) FillRenderer (Some PASS_HIGHLIGHTED).

Definition drawHighlightedEdgesTransparent : option DrawCall :=
  if (numVisibleObjects L =? 0)%nat || (numHighlightedObjects L =? 0)%nat then None
  else drawLayer (_edgesRenderer R) EdgesRenderer (Some PASS_HIGHLIGHTED).

Definition drawSelectedFillOpaque : option DrawCall :=
  if (numVisibleObjects L =? 0)%nat || (numSelectedObjects L =? 0)%nat then None
  else drawLayer (_fillRenderer R) FillRenderer (Some PASS_SELECTED).

Definition drawSelectedEdgesOpaque : option DrawCall :=
  if (numVisibleObjects L =? 0)%nat || (numSelectedObjects L =? 0)%nat then None
  else drawLayer (_edgesRenderer R) EdgesRenderer (Some PASS_SELECTED).

Definition drawSelectedFillTransparent : option DrawCall :=
  if (numVisibleObjects L =? 0)%nat || (numSelectedObjects L =? 0)%nat then None
  else drawLayer (_fillRenderer R) FillRenderer (Some PASS_SELECTED).

Definition drawSelectedEdgesTransparent : option DrawCall :=
  if (numVisibleObjects L =? 0)%nat || (numSelectedObjects L =? 0)%nat then None
  else drawLayer (_edgesRenderer R) EdgesRenderer (Some PASS_SELECTED).

Definition drawPickMesh : option DrawCall :=
  if (numVisibleObjects L =? 0)%nat then None
  else drawLayer (_pickRenderer R) PickRenderer None.

(** The seventeen draw methods, in the order of the source. *)
Definition draw_methods : list (option DrawCall) :=
  [ drawNormalFillOpaque; drawNormalEdgesOpaque; drawNormalFillTransparent;
    drawNormalTransparentEdges;
    drawGhostedFillOpaque; drawGhostedEdgesOpaque; drawGhostedFillTransparent;
    drawGhostedEdgesTransparent;
    drawHighlightedFillOpaque; drawHighlightedEdgesOpaque; drawHighlightedFillTransparent;
    drawHighlightedEdgesTransparent;
    drawSelectedFillOpaque; drawSelectedEdgesOpaque; drawSelectedFillTransparent;
    drawSelectedEdgesTransparent;
    drawPickMesh ].

End DrawMethods.

End Passes.

Module Layout.

Import Layer.

(** The byte arrays of the arena are in step with its positions: whole
    vertices so far, and four colour, flag and pick-colour bytes for each
    of them.  This is what makes [vertexBase * 4] the offset of a
    portion's bytes. *)
Definition in_step (b : BatchingBuffer) : Prop :=
  (lenPositions b mod 3 = 0)%nat /\
  lenColors b = (lenPositions b / 3 * 4)%nat /\
  lenFlags b = (lenPositions b / 3 * 4)%nat /\
  lenPickColors b = (lenPositions b / 3 * 4)%nat.

(** The three byte arrays can take [n] more vertices. *)
Definition has_room (b : BatchingBuffer) (n : nat) : Prop :=
  (lenColors b + n * 4 <= length (colors b))%nat /\
  (lenFlags b + n * 4 <= length (flags b))%nat /\
  (lenPickColors b + n * 4 <= length (pickColors b))%nat.

End Layout.

(** ** [destroy ()] of the layer *)

Module Teardown.

Import Layer Passes.


Definition truthy {A : Type} (o : option A) : bool :=
  match o with Some _ => true | None => false end.


End Teardown.

(** ** Geometry.js: the class [Geometry]

    The constructor, [_buildVBOs], [_buildHash], the accessors of
    [positions], [normals], [uv] and [colors], the getters of [aabb] and
    [obb] and [_setBoundaryDirty].  What the class calls on objects whose
    classes are not among the sources ([Component], [ArrayBuf],
    [SceneVertexBufs]) is recorded in a trace; the helpers of [math.js]
    are parameters. *)

Module GeometryClass.

(** The typed arrays that hold positions, colours and UVs. *)
Inductive TypedArray : Type :=
| Float32Array (a : list IEEE.double)
| Uint16Array (a : list Z).

Definition TypedArray_length (t : TypedArray) : nat :=
  match t with Float32Array a => length a | Uint16Array a => length a end.

(** What is copied into a typed array: numbers (the elements of a plain
    array or of a [Float32Array]), or the elements of the [Uint16Array]
    that a quantizer made. *)
Inductive ArrayLike : Type :=
| Numbers (a : list IEEE.double)
| Quantized (a : list Z).

Definition source_of (t : TypedArray) : ArrayLike :=
  match t with Float32Array a => Numbers a | Uint16Array a => Quantized a end.

(** [new Float32Array (source)]: every number is rounded to binary32. *)
Definition new_Float32Array (source : list IEEE.double) : TypedArray :=
  Float32Array (map IEEE.fround source).

(** [target.set (source)] for a source as long as the target: every
    element is converted to the element type of the target. *)
Definition TypedArray_set_all (target : TypedArray) (source : ArrayLike) : TypedArray :=
  match target, source with
  | Float32Array _, Numbers s => Float32Array (map IEEE.fround s)
  | Float32Array _, Quantized s => Float32Array (map (fun z => IEEE.fround (IEEE.of_Z z)) s)
  | Uint16Array _, Numbers s => Uint16Array (map IEEE.ToUint16 s)
  | Uint16Array _, Quantized s => Uint16Array s
  end.

(** Normals: oct-encoded into an [Int8Array], or kept as numbers.  They
    are over the real numbers, as the oct codec of module [Oct] is. *)
Inductive NormalsArray : Type :=
| Int8Normals (a : list Z)
| Float32Normals (a : list R).

Definition NormalsArray_length (t : NormalsArray) : nat :=
  match t with Int8Normals a => length a | Float32Normals a => length a end.

(** [normals.set (newNormals)] for new normals as many as the old: an
    [Int8Array] truncates each number and wraps it. *)
Definition NormalsArray_set_all (target : NormalsArray) (source : list R) : NormalsArray :=
  match target with
  | Float32Normals _ => Float32Normals source
  | Int8Normals _ =>
      Int8Normals (map (fun x => Oct.ToInt8 (if Rle_dec 0 x then Zfloor x else Zceil x)) source)
  end.

(** The indices given to the constructor: a [Uint32Array], a
    [Uint16Array], or a plain array. *)
Inductive IndexSource : Type :=
| FromUint32Array (a : list Z)
| FromUint16Array (a : list Z)
| FromArray (a : list Z).

(** The values of the properties of the objects that the quantizers
    return, and such an object as the list of its properties. *)
Inductive JSValue : Type :=
| VArray (t : TypedArray)
| VMatrix (m : list IEEE.double).

Definition JSObject : Type := list (string * JSValue).

(** [obj.name]: the value of the property, [undefined] when the object
    has no property of that name. *)
Fixpoint prop (obj : JSObject) (name : string) : option JSValue :=
  match obj with
  | [] => None
  | (k, v) :: rest => if String.eqb k name then Some v else prop rest name
  end.

Definition as_array (v : option JSValue) : option TypedArray :=
  match v with Some (VArray t) => Some t | _ => None end.

Definition as_matrix (v : option JSValue) : option (list IEEE.double) :=
  match v with Some (VMatrix m) => Some m | _ => None end.

(** Calls on objects whose classes are not among the sources. *)
Inductive Effect : Type :=
| Error (msg : string)                       (* this.error (msg) *)
| NewArrayBuf (buf : string)                 (* state.<buf> = new ArrayBuf (...) *)
| SetData (buf : string) (data : TypedArray) (* state.<buf>.setData (data) *)
| SetNormalsData (data : NormalsArray)       (* state.normalsBuf.setData (normals) *)
| SceneVertexBufs (method : string)          (* this._sceneVertexBufs.<method> (state) *)
| Fire (event : string)                      (* this.fire (event) *)
| GlRedraw.                                  (* this.glRedraw () *)

(** [state.primitive] as ["/" + state.primitive + ";"] prints it: the
    decimal of the WebGL constant ([gl.POINTS] is 0, ..., [gl.TRIANGLE_FAN]
    is 6, as the WebGL specification fixes them). *)
Definition GLenum_to_string (g : GLenum) : string :=
  match g with
  | POINTS => "0" | LINES => "1" | LINE_LOOP => "2" | LINE_STRIP => "3"
  | TRIANGLES => "4" | TRIANGLE_STRIP => "5" | TRIANGLE_FAN => "6"
  end.

(** [this._state]. *)
Record State : Type := mkState {
  combineGeometry : bool;
  compressGeometry : bool;
  autoVertexNormals : bool;
  primitive : option GLenum;
  primitiveName : option string;
  positions : option TypedArray;
  normals : option NormalsArray;
  colors : option TypedArray;
  uv : option TypedArray;
  indices : option (list Z);
  positionsDecodeMatrix : option (list IEEE.double);
  uvDecodeMatrix : option (list IEEE.double);
  positionsBuf : bool;          (* whether [state.positionsBuf] is set *)
  normalsBuf : bool;
  colorsBuf : bool;
  uvBuf : bool;
  indicesBuf : bool;
  hash : string
}.

(** The geometry: its state, the private fields that the embedded
    methods use, the module-level [tempAABB], and the trace of its calls,
    the most recent last. *)
Record Geometry : Type := mkGeometry {
  _state : State;
  _decompressedPositions : option (list IEEE.double);
  _boundaryDirty : bool;
  _aabb : option (list IEEE.double);
  _aabbDirty : bool;
  _obb : option (list IEEE.double);
  _obbDirty : bool;
  tempAABB : list IEEE.double;          (* the module's scratch box *)
  trace : list Effect
}.

(** The [cfg] object; [compressGeometry], [combineGeometry] and
    [autoVertexNormals] as [!!cfg.x] gives them.  The arrays of positions,
    colours and UVs are given by their elements: what
    [cfg.x.constructor === Float32Array ? cfg.x : new Float32Array (cfg.x)]
    keeps is in both cases these elements in binary32, which a
    [Float32Array] holds already. *)
Record Cfg : Type := mkCfg {
  cfg_combineGeometry : bool;
  cfg_compressGeometry : bool;
  cfg_autoVertexNormals : bool;
  cfg_primitive : option string;
  cfg_positions : option (list IEEE.double);
  cfg_colors : option (list IEEE.double);
  cfg_uv : option (list IEEE.double);
  cfg_normals : option (list R);
  cfg_indices : option IndexSource
}.

(** Field updates. *)
Definition set_state (s : State) (g : Geometry) : Geometry :=
  mkGeometry s (_decompressedPositions g) (_boundaryDirty g) (_aabb g) (_aabbDirty g)
    (_obb g) (_obbDirty g) (tempAABB g) (trace g).

Definition log (e : Effect) (g : Geometry) : Geometry :=
  mkGeometry (_state g) (_decompressedPositions g) (_boundaryDirty g) (_aabb g) (_aabbDirty g)
    (_obb g) (_obbDirty g) (tempAABB g) (trace g ++ [e]).

Definition set_positions_field (ps : option TypedArray) (m : option (list IEEE.double)) (s : State)
  : State :=
  mkState (combineGeometry s) (compressGeometry s) (autoVertexNormals s) (primitive s)
    (primitiveName s) ps (normals s) (colors s) (uv s) (indices s) m (uvDecodeMatrix s)
    (positionsBuf s) (normalsBuf s) (colorsBuf s) (uvBuf s) (indicesBuf s) (hash s).

Definition set_normals_field (n : option NormalsArray) (s : State) : State :=
  mkState (combineGeometry s) (compressGeometry s) (autoVertexNormals s) (primitive s)
    (primitiveName s) (positions s) n (colors s) (uv s) (indices s)
    (positionsDecodeMatrix s) (uvDecodeMatrix s)
    (positionsBuf s) (normalsBuf s) (colorsBuf s) (uvBuf s) (indicesBuf s) (hash s).

Definition set_colors_field (c : option TypedArray) (s : State) : State :=
  mkState (combineGeometry s) (compressGeometry s) (autoVertexNormals s) (primitive s)
    (primitiveName s) (positions s) (normals s) c (uv s) (indices s)
    (positionsDecodeMatrix s) (uvDecodeMatrix s)
    (positionsBuf s) (normalsBuf s) (colorsBuf s) (uvBuf s) (indicesBuf s) (hash s).

Definition set_uv_field (u : option TypedArray) (m : option (list IEEE.double)) (s : State) : State :=
  mkState (combineGeometry s) (compressGeometry s) (autoVertexNormals s) (primitive s)
    (primitiveName s) (positions s) (normals s) (colors s) u (indices s)
    (positionsDecodeMatrix s) m
    (positionsBuf s) (normalsBuf s) (colorsBuf s) (uvBuf s) (indicesBuf s) (hash s).

Definition set_indices_field (i : option (list Z)) (s : State) : State :=
  mkState (combineGeometry s) (compressGeometry s) (autoVertexNormals s) (primitive s)
    (primitiveName s) (positions s) (normals s) (colors s) (uv s) i
    (positionsDecodeMatrix s) (uvDecodeMatrix s)
    (positionsBuf s) (normalsBuf s) (colorsBuf s) (uvBuf s) (indicesBuf s) (hash s).

Definition set_bufs (p n c u i : bool) (s : State) : State :=
  mkState (combineGeometry s) (compressGeometry s) (autoVertexNormals s) (primitive s)
    (primitiveName s) (positions s) (normals s) (colors s) (uv s) (indices s)
    (positionsDecodeMatrix s) (uvDecodeMatrix s) p n c u i (hash s).

Definition set_hash (h : string) (s : State) : State :=
  mkState (combineGeometry s) (compressGeometry s) (autoVertexNormals s) (primitive s)
    (primitiveName s) (positions s) (normals s) (colors s) (uv s) (indices s)
    (positionsDecodeMatrix s) (uvDecodeMatrix s)
    (positionsBuf s) (normalsBuf s) (colorsBuf s) (uvBuf s) (indicesBuf s) h.

(** [state.positionsBuf = new ArrayBuf (...)] and the like: the buffer
    is made and kept in the state. *)
Definition set_positionsBuf (s : State) : State :=
  set_bufs true (normalsBuf s) (colorsBuf s) (uvBuf s) (indicesBuf s) s.
Definition set_normalsBuf (s : State) : State :=
  set_bufs (positionsBuf s) true (colorsBuf s) (uvBuf s) (indicesBuf s) s.
Definition set_colorsBuf (s : State) : State :=
  set_bufs (positionsBuf s) (normalsBuf s) true (uvBuf s) (indicesBuf s) s.
Definition set_uvBuf (s : State) : State :=
  set_bufs (positionsBuf s) (normalsBuf s) (colorsBuf s) true (indicesBuf s) s.
Definition set_indicesBuf (s : State) : State :=
  set_bufs (positionsBuf s) (normalsBuf s) (colorsBuf s) (uvBuf s) true s.

Definition new_ArrayBuf (buf : string) (set : State -> State) (g : Geometry) : Geometry :=
  log (NewArrayBuf buf) (set_state (set (_state g)) g).

(** [if (b) f ()]. *)
Definition when (b : bool) (f : Geometry -> Geometry) (g : Geometry) : Geometry :=
  if b then f g else g.

Definition truthy {A : Type} (o : option A) : bool :=
  match o with Some _ => true | None => false end.

(** The fields that only the boundary getters, the positions getter and
    [_setBoundaryDirty] write. *)
Definition private_fields (g : Geometry)
  : option (list IEEE.double) * bool * option (list IEEE.double) * bool * option (list IEEE.double) * bool * list IEEE.double :=
  (_decompressedPositions g, _boundaryDirty g, _aabb g, _aabbDirty g, _obb g, _obbDirty g,
   tempAABB g).

(** No "boundary" event has been fired. *)
Definition quiet (g : Geometry) : Prop := ~ In (Fire "boundary") (trace g).

(** The private fields are [x], and no "boundary" event has been fired. *)
Definition undisturbed
    (x : option (list IEEE.double) * bool * option (list IEEE.double) * bool * option (list IEEE.double) * bool * list IEEE.double)
    (g : Geometry) : Prop :=
  private_fields g = x /\ quiet g.

(** The box has been computed and is cached, and the boundary is still
    marked as it was by the constructor; no "boundary" event has been
    fired. *)
Definition frozen (box : list IEEE.double) (g : Geometry) : Prop :=
  _boundaryDirty g = true /\ _aabbDirty g = false /\ _aabb g = Some box /\ quiet g.

(** [cfg] with the property [uv] removed. *)
Definition without_uv (cfg : Cfg) : Cfg :=
  mkCfg (cfg_combineGeometry cfg) (cfg_compressGeometry cfg) (cfg_autoVertexNormals cfg)
    (cfg_primitive cfg) (cfg_positions cfg) (cfg_colors cfg) None (cfg_normals cfg)
    (cfg_indices cfg).

(** [g] with another [state.uvDecodeMatrix]. *)
Definition with_uvDecodeMatrix (m : option (list IEEE.double)) (g : Geometry) : Geometry :=
  set_state (set_uv_field (uv (_state g)) m (_state g)) g.

Section Methods.

(** [WEBGL_INFO.SUPPORTED_EXTENSIONS["OES_element_index_uint"]]. *)
Variable bigIndicesSupported : bool.

(** From [math.js], which is not among the sources, each returning what
    it writes into its destination: the 3x3 matrix helpers of
    [quantizeVec2]; [math.decompressPositions (positions, decodeMatrix,
    dest)]; [math.AABB3 ()] and [math.positions3ToAABB3 (positions, aabb,
    decodeMatrix)]; [math.OBB3 ()] and [math.AABB3ToOBB3 (aabb, obb)]. *)
Variable identityMat3 : list IEEE.double.
Variable translationMat3v : list IEEE.double -> list IEEE.double -> list IEEE.double.
Variable scalingMat3v : list IEEE.double -> list IEEE.double -> list IEEE.double.
Variable mulMat3 : list IEEE.double -> list IEEE.double -> list IEEE.double.
Variable decompressPositions : TypedArray -> option (list IEEE.double) -> list IEEE.double.
Variable AABB3 : list IEEE.double.
Variable positions3ToAABB3 : option TypedArray -> list IEEE.double -> option (list IEEE.double) -> list IEEE.double.
Variable OBB3 : list IEEE.double.
Variable AABB3ToOBB3 : list IEEE.double -> list IEEE.double -> list IEEE.double.

(** [quantizeVec2 (array, min, max)]; the object it returns has the
    properties [quantized] and [decode]. *)
Definition quantizeVec2 (array min max : list IEEE.double) : JSObject :=
  let quantized0 := replicate (length array) 0 in
  let multiplier :=
    [ IEEE.fround (IEEE.div (IEEE.of_Z 65535) (IEEE.sub (IEEE.getnum max 0) (IEEE.getnum min 0)));
      IEEE.fround (IEEE.div (IEEE.of_Z 65535) (IEEE.sub (IEEE.getnum max 1) (IEEE.getnum min 1))) ] in
  let quantized :=
    for_loop 0 (length array) 2
      (fun i quantized =>
         let quantized :=
           <[i := IEEE.ToUint16
                    (IEEE.Math_floor
                       (IEEE.mul (IEEE.sub (IEEE.getnum array i) (IEEE.getnum min 0))
                                 (IEEE.getnum multiplier 0)))]> quantized in
         <[(i + 1)%nat := IEEE.ToUint16
                            (IEEE.Math_floor
                               (IEEE.mul (IEEE.sub (IEEE.getnum array (i + 1)) (IEEE.getnum min 1))
                                         (IEEE.getnum multiplier 1)))]> quantized)
      quantized0 in
  let translate := translationMat3v min identityMat3 in
  let scale :=
    scalingMat3v
      [ IEEE.div (IEEE.sub (IEEE.getnum max 0) (IEEE.getnum min 0)) (IEEE.of_Z 65535);
        IEEE.div (IEEE.sub (IEEE.getnum max 1) (IEEE.getnum min 1)) (IEEE.of_Z 65535) ]
      identityMat3 in
  let decodeMat := mulMat3 translate scale in
  [ ("quantized"%string, VArray (Uint16Array quantized));
    ("decode"%string, VMatrix decodeMat) ].

(** The object that [quantizeVec3] returns, with the properties
    [compressed] and [decode]. *)
Definition quantizeVec3 (array min max : list IEEE.double) : JSObject :=
  let r := IEEE.Geometry.quantizeVec3 array min max in
  [ ("compressed"%string, VArray (Uint16Array (IEEE.Geometry.compressed r)));
    ("decode"%string, VMatrix (IEEE.Geometry.decode r)) ].

(** [_buildHash ()]: the parts pushed onto [hash], joined. *)
Definition _buildHash (g : Geometry) : Geometry :=
  let state := _state g in
  let hash :=
    ("/g" ++
     ("/" ++ match primitive state with Some p => GLenum_to_string p | None => "null" end ++ ";") ++
     (if truthy (positions state) then "p" else "") ++
     (if truthy (colors state) then "c" else "") ++
     (if truthy (normals state) || autoVertexNormals state then "n" else "") ++
     (if truthy (uv state) then "u" else "") ++
     (if compressGeometry state then "cp" else "") ++
     ";")%string in
  set_state (set_hash hash state) g.

(** [_buildVBOs ()]. *)
Definition _buildVBOs (g : Geometry) : Geometry :=
  let state := _state g in
  let g :=
    when (truthy (indices state))
      (new_ArrayBuf "indicesBuf" set_indicesBuf)
      g in
  if combineGeometry state then g
  else
    let g :=
      when (truthy (positions state))
        (new_ArrayBuf "positionsBuf" set_positionsBuf)
        g in
    let g :=
      when (truthy (normals state))
        (new_ArrayBuf "normalsBuf" set_normalsBuf)
        g in
    let g :=
      when (truthy (colors state))
        (new_ArrayBuf "colorsBuf" set_colorsBuf)
        g in
    when (truthy (uv state))
      (new_ArrayBuf "uvBuf" set_uvBuf)
      g.

(** The geometry as the constructor has it before it looks at [cfg]'s
    primitive and attributes. *)
Definition new_Geometry (cfg : Cfg) : Geometry :=
  mkGeometry
    (mkState (cfg_combineGeometry cfg) (cfg_compressGeometry cfg) (cfg_autoVertexNormals cfg)
       None None None None None None None None None false false false false false "")
    None true None true None true AABB3 [].

(** The end of the constructor, from [if (state.indices)] on. *)
Definition constructor_tail (g : Geometry) : Geometry :=
  let g :=
    when (truthy (indices (_state g)))
      (new_ArrayBuf "indicesBuf" set_indicesBuf)
      g in
  let g := _buildHash g in
  let g := when (combineGeometry (_state g)) (log (SceneVertexBufs "addGeometry")) g in
  let g := _buildVBOs g in
  log (Fire "created") g.

(** The stages of the constructor, in the order of the source: the
    primitive type, ... *)
Definition init_primitive (cfg : Cfg) (g : Geometry) : Geometry :=
  let '(prim, name, errors) := Geometry.init_primitive (cfg_primitive cfg) in
  let g := fold_left (fun g msg => log (Error msg) g) errors g in
  let s := _state g in
  set_state
    (mkState (combineGeometry s) (compressGeometry s) (autoVertexNormals s) (Some prim)
       (Some name) (positions s) (normals s) (colors s) (uv s) (indices s)
       (positionsDecodeMatrix s) (uvDecodeMatrix s)
       (positionsBuf s) (normalsBuf s) (colorsBuf s) (uvBuf s) (indicesBuf s) (hash s))
    g.

(** ... [if (cfg.positions)], ... *)
Definition init_positions (cfg : Cfg) (g : Geometry) : Geometry :=
  match cfg_positions cfg with
  | Some ps =>
      if compressGeometry (_state g)
      then
        let bounds := IEEE.Geometry.getBounds ps 3 in
        let compressed := quantizeVec3 ps (fst bounds) (snd bounds) in
        set_state (set_positions_field (as_array (prop compressed "compressed"))
                     (as_matrix (prop compressed "decode")) (_state g)) g
      else
        set_state (set_positions_field (Some (new_Float32Array ps))
                     (positionsDecodeMatrix (_state g)) (_state g)) g
  | None => g
  end.

(** ... [if (cfg.colors)], ... *)
Definition init_colors (cfg : Cfg) (g : Geometry) : Geometry :=
  match cfg_colors cfg with
  | Some cs => set_state (set_colors_field (Some (new_Float32Array cs)) (_state g)) g
  | None => g
  end.

(** ... [if (cfg.uv)], ... *)
Definition init_uv (cfg : Cfg) (g : Geometry) : Geometry :=
  match cfg_uv cfg with
  | Some uvs =>
      if compressGeometry (_state g)
      then
        let bounds := IEEE.Geometry.getBounds uvs 2 in
        let compressed := quantizeVec2 uvs (fst bounds) (snd bounds) in
        set_state (set_uv_field (as_array (prop compressed "compressed"))
                     (as_matrix (prop compressed "decode")) (_state g)) g
      else
        set_state (set_uv_field (Some (new_Float32Array uvs)) (uvDecodeMatrix (_state g))
                     (_state g)) g
  | None => g
  end.

(** ... [if (cfg.normals)], ... *)
Definition init_normals (cfg : Cfg) (g : Geometry) : Geometry :=
  match cfg_normals cfg with
  | Some ns =>
      set_state
        (set_normals_field
           (Some (if compressGeometry (_state g) then Int8Normals (Oct.octEncode ns)
                  else Float32Normals ns))
           (_state g)) g
  | None => g
  end.

(** ... and [if (cfg.indices)] with all that follows it.  When the
    indices are a [Uint32Array] that the WebGL implementation does not
    support, the constructor returns early. *)
Definition init_indices (cfg : Cfg) (g : Geometry) : Geometry :=
  match cfg_indices cfg with
  | Some (FromUint32Array a) =>
      if negb bigIndicesSupported
      then log (Error "This WebGL implementation does not support Uint32Array") g
      else constructor_tail (set_state (set_indices_field (Some a) (_state g)) g)
  | Some (FromUint16Array a) =>
      constructor_tail (set_state (set_indices_field (Some a) (_state g)) g)
  | Some (FromArray a) =>
      constructor_tail
        (set_state
           (set_indices_field
              (Some (map (fun z => z mod (if bigIndicesSupported then 2 ^ 32 else 2 ^ 16)) a))
              (_state g)) g)
  | None => constructor_tail g
  end.

(** [new Geometry (owner, cfg)].  The memory statistics are outside the
    embedding. *)
Definition constructor (cfg : Cfg) : Geometry :=
  init_indices cfg
    (init_normals cfg
       (init_uv cfg
          (init_colors cfg
             (init_positions cfg
                (init_primitive cfg (new_Geometry cfg)))))).

(** [_setBoundaryDirty ()]. *)
Definition _setBoundaryDirty (g : Geometry) : Geometry :=
  if _boundaryDirty g then g
  else
    log (Fire "boundary")
      (mkGeometry (_state g) (_decompressedPositions g) true (_aabb g) true (_obb g) true
         (tempAABB g) (trace g)).

(** [get positions ()]: the value returned, and the geometry afterwards,
    with the cache [_decompressedPositions] filled. *)
Definition get_positions (g : Geometry) : option TypedArray * Geometry :=
  match positions (_state g) with
  | None => (None, g)
  | Some ps =>
      if negb (compressGeometry (_state g)) then (Some ps, g)
      else
        match _decompressedPositions g with
        | Some d => (Some (Float32Array d), g)
        | None =>
            let d := decompressPositions ps (positionsDecodeMatrix (_state g)) in
            (Some (Float32Array d),
             mkGeometry (_state g) (Some d) (_boundaryDirty g) (_aabb g) (_aabbDirty g)
               (_obb g) (_obbDirty g) (tempAABB g) (trace g))
        end
  end.

(** [set positions (newPositions)]. *)
Definition set_positions (newPositions : list IEEE.double) (g : Geometry) : Geometry :=
  let state := _state g in
  match positions state with
  | None => log (Error "can't update geometry positions - geometry has no positions") g
  | Some ps =>
      if negb (TypedArray_length ps =? length newPositions)%nat
      then log (Error "can't update geometry positions - new positions are wrong length") g
      else
        let '(source, matrix) :=
          if compressGeometry state
          then
            let bounds := IEEE.Geometry.getBounds newPositions 3 in
            let compressed := quantizeVec3 newPositions (fst bounds) (snd bounds) in
            (option_map source_of (as_array (prop compressed "compressed")),
             as_matrix (prop compressed "decode"))
          else (Some (Numbers newPositions), positionsDecodeMatrix state) in
        let ps' := match source with Some src => TypedArray_set_all ps src | None => ps end in
        let g := set_state (set_positions_field (Some ps') matrix state) g in
        let g := when (positionsBuf state) (log (SetData "positionsBuf" ps')) g in
        let g := when (combineGeometry state) (log (SceneVertexBufs "setPositions")) g in
        let g := _setBoundaryDirty g in
        log GlRedraw g
  end.

(** [set normals (newNormals)]. *)
Definition set_normals (newNormals : list R) (g : Geometry) : Geometry :=
  let state := _state g in
  if compressGeometry state
  then log (Error "can't update geometry normals - quantized geometry is immutable") g
  else
    match normals state with
    | None => log (Error "can't update geometry normals - geometry has no normals") g
    | Some n =>
        if negb (NormalsArray_length n =? length newNormals)%nat
        then log (Error "can't update geometry normals - new normals are wrong length") g
        else
          let n' := NormalsArray_set_all n newNormals in
          let g := set_state (set_normals_field (Some n') state) g in
          let g := when (normalsBuf state) (log (SetNormalsData n')) g in
          let g := when (combineGeometry state) (log (SceneVertexBufs "setNormals")) g in
          log GlRedraw g
    end.

(** [set uv (newUV)]. *)
Definition set_uv (newUV : list IEEE.double) (g : Geometry) : Geometry :=
  let state := _state g in
  if compressGeometry state
  then log (Error "can't update geometry UVs - quantized geometry is immutable") g
  else
    match uv state with
    | None => log (Error "can't update geometry UVs - geometry has no UVs") g
    | Some u =>
        if negb (TypedArray_length u =? length newUV)%nat
        then log (Error "can't update geometry UVs - new UVs are wrong length") g
        else
          let u' := TypedArray_set_all u (Numbers newUV) in
          let g := set_state (set_uv_field (Some u') (uvDecodeMatrix state) state) g in
          let g := when (uvBuf state) (log (SetData "uvBuf" u')) g in
          let g := when (combineGeometry state) (log (SceneVertexBufs "setUVs")) g in
          log GlRedraw g
    end.

(** [get colors ()]. *)
Definition get_colors (g : Geometry) : option TypedArray := colors (_state g).

(** [set colors (newColors)]. *)
Definition set_colors (newColors : list IEEE.double) (g : Geometry) : Geometry :=
  let state := _state g in
  if compressGeometry state
  then log (Error "can't update geometry colors - quantized geometry is immutable") g
  else
    match colors state with
    | None => log (Error "can't update geometry colors - geometry has no colors") g
    | Some cs =>
        if negb (TypedArray_length cs =? length newColors)%nat
        then log (Error "can't update geometry colors - new colors are wrong length") g
        else
          let cs' := TypedArray_set_all cs (Numbers newColors) in
          let g := set_state (set_colors_field (Some cs') state) g in
          let g := when (colorsBuf state) (log (SetData "colorsBuf" cs')) g in
          let g := when (combineGeometry state) (log (SceneVertexBufs "setColors")) g in
          log GlRedraw g
    end.

(** [get aabb ()]: the value returned and the geometry afterwards. *)
Definition get_aabb (g : Geometry) : option (list IEEE.double) * Geometry :=
  if _aabbDirty g
  then
    let aabb0 := match _aabb g with Some a => a | None => AABB3 end in
    let aabb := positions3ToAABB3 (positions (_state g)) aabb0
                  (positionsDecodeMatrix (_state g)) in
    (Some aabb,
     mkGeometry (_state g) (_decompressedPositions g) (_boundaryDirty g) (Some aabb) false
       (_obb g) (_obbDirty g) (tempAABB g) (trace g))
  else (_aabb g, g).

(** [get obb ()]. *)
Definition get_obb (g : Geometry) : option (list IEEE.double) * Geometry :=
  if _obbDirty g
  then
    let obb0 := match _obb g with Some o => o | None => OBB3 end in
    let tempAABB' := positions3ToAABB3 (positions (_state g)) (tempAABB g)
                       (positionsDecodeMatrix (_state g)) in
    let obb := AABB3ToOBB3 tempAABB' obb0 in
    (Some obb,
     mkGeometry (_state g) (_decompressedPositions g) (_boundaryDirty g) (_aabb g)
       (_aabbDirty g) (Some obb) false tempAABB' (trace g))
  else (_obb g, g).

(** The calls that the embedding covers, and what each leaves of the
    geometry. *)
Inductive Call : Type :=
| GetPositions
| SetPositions (newPositions : list IEEE.double)
| SetNormals (newNormals : list R)
| SetUV (newUV : list IEEE.double)
| SetColors (newColors : list IEEE.double)
| GetAabb
| GetObb
| SetBoundaryDirty.

Definition call (g : Geometry) (c : Call) : Geometry :=
  match c with
  | GetPositions => snd (get_positions g)
  | SetPositions p => set_positions p g
  | SetNormals n => set_normals n g
  | SetUV u => set_uv u g
  | SetColors cs => set_colors cs g
  | GetAabb => snd (get_aabb g)
  | GetObb => snd (get_obb g)
  | SetBoundaryDirty => _setBoundaryDirty g
  end.

End Methods.

End GeometryClass.

(** * Properties *)

Import Layer Observe Scenario.

(** ** Loops *)

(** The indices that [for_loop] visits are those of the JavaScript loop:
    [lo], [lo + step], ... below [hi]. *)
Lemma for_range_spec (lo hi step i : nat) :
  (0 < step)%nat ->
  In i (for_range lo hi step) <->
  (lo <= i < hi)%nat /\ ((i - lo) mod step = 0)%nat.
Proof.
  intros Hs. unfold for_range. rewrite in_map_iff. split.
  - intros (k & <- & Hk). apply in_seq in Hk.
    assert (Hlt : (k * step < hi - lo)%nat).
    { destruct Hk as [_ Hk]. rewrite Nat.add_0_l in Hk.
      destruct (Nat.lt_ge_cases (k * step) (hi - lo)) as [H|H]; [exact H|exfalso].
      apply (Nat.lt_irrefl k). eapply Nat.lt_le_trans; [exact Hk|].
      transitivity ((k * step + (step - 1)) / step)%nat.
      - apply Nat.Div0.div_le_mono. lia.
      - rewrite Nat.div_add_l by lia. rewrite Nat.div_small by lia. lia. }
    split; [lia|].
    replace (lo + k * step - lo)%nat with (k * step)%nat by lia.
    apply Nat.Div0.mod_mul.
  - intros [[Hlo Hhi] Hm].
    exists ((i - lo) / step)%nat.
    pose proof (Nat.div_mod_eq (i - lo) step) as E. rewrite Hm in E.
    split; [nia|].
    apply in_seq. split; [lia|]. rewrite Nat.add_0_l.
    apply Nat.Div0.div_lt_upper_bound.
    pose proof (Nat.div_mod_eq (hi - lo + (step - 1)) step) as E2.
    pose proof (Nat.mod_upper_bound (hi - lo + (step - 1)) step ltac:(lia)) as U.
    nia.
Qed.

(** ** Loops that write one block per iteration *)

Lemma foldl_map_ix {S A B : Type} (f : S -> B -> S) (g : A -> B) (l : list A) (s : S) :
  foldl f s (map g l) = foldl (fun acc k => f acc (g k)) s l.
Proof. revert s. induction l as [|x l IH]; intros s; simpl; [reflexivity|apply IH]. Qed.

Lemma for_loop_as_blocks {A : Type} (lo hi d : nat) (body : nat -> list A -> list A)
    (blk : nat -> list A) (l : list A) :
  (forall k acc, body (lo + k * d)%nat acc = list_inserts (lo + k * d) (blk k) acc) ->
  for_loop lo hi d body l
  = foldl (fun acc k => list_inserts (lo + k * d) (blk k) acc) l
      (seq 0 ((hi - lo + (d - 1)) / d)).
Proof.
  intros Hb. unfold for_loop, for_range. rewrite foldl_map_ix.
  generalize (seq 0 ((hi - lo + (d - 1)) / d)). intros ks. revert l.
  induction ks as [|k ks IH]; intros l; simpl; [reflexivity|].
  rewrite Hb. apply IH.
Qed.

Lemma blocks_length {A : Type} (lo d c : nat) (blk : nat -> list A) (l : list A) :
  length (foldl (fun acc k => list_inserts (lo + k * d) (blk k) acc) l (seq 0 c)) = length l.
Proof.
  induction c as [|c IH]; [reflexivity|].
  rewrite seq_S, foldl_app. simpl. rewrite length_inserts. exact IH.
Qed.

Lemma blocks_lookup {A : Type} (lo d c : nat) (blk : nat -> list A) (l : list A) (j : nat) :
  (0 < d)%nat ->
  (forall k, length (blk k) = d) ->
  foldl (fun acc k => list_inserts (lo + k * d) (blk k) acc) l (seq 0 c) !! j
  = if decide (lo <= j < lo + c * d /\ j < length l)%nat
    then blk ((j - lo) / d)%nat !! ((j - lo) mod d)%nat
    else l !! j.
Proof.
  intros Hd Hlen. induction c as [|c IH].
  - simpl. destruct (decide _) as [H|H]; [lia|reflexivity].
  - rewrite seq_S, foldl_app. simpl.
    pose proof (blocks_length lo d c blk l) as Hacc.
    destruct (decide (lo <= j < lo + (d + c * d) /\ j < length l)%nat) as [H|H].
    + destruct (Nat.lt_ge_cases j (lo + c * d)) as [Hlt|Hge].
      * rewrite list_lookup_inserts_lt by lia. rewrite IH.
        destruct (decide _); [reflexivity|lia].
      * rewrite list_lookup_inserts by (rewrite ?Hlen, ?Hacc; lia).
        assert (Hq : ((j - lo) / d = c)%nat).
        { symmetry. apply (Nat.div_unique (j - lo) d c (j - lo - c * d)); nia. }
        assert (Hr : ((j - lo) mod d = j - (lo + c * d))%nat).
        { symmetry. apply (Nat.mod_unique (j - lo) d c (j - (lo + c * d))); nia. }
        rewrite Hq, Hr. reflexivity.
    + destruct (Nat.lt_ge_cases j (length l)) as [Hj|Hj].
      * destruct (Nat.lt_ge_cases j (lo + c * d)) as [Hlt|Hge].
        -- rewrite list_lookup_inserts_lt by lia. rewrite IH.
           destruct (decide _); [lia|reflexivity].
        -- rewrite list_lookup_inserts_ge by (rewrite Hlen; lia). rewrite IH.
           destruct (decide _); [lia|reflexivity].
      * rewrite lookup_ge_None_2 by (rewrite length_inserts, Hacc; lia).
        symmetry. apply lookup_ge_None_2. lia.
Qed.

Lemma inserts3 {A : Type} (i : nat) (a b c : A) (l : list A) :
  <[(i + 2)%nat := c]> (<[(i + 1)%nat := b]> (<[i := a]> l)) = list_inserts i [a; b; c] l.
Proof.
  simpl. replace (i + 1)%nat with (S i) by lia. replace (i + 2)%nat with (S (S i)) by lia.
  rewrite (list_insert_insert_ne _ (S i) i) by lia.
  rewrite (list_insert_insert_ne _ (S (S i)) i) by lia.
  rewrite (list_insert_insert_ne _ (S (S i)) (S i)) by lia.
  reflexivity.
Qed.

(** ** The state machine of the layer *)

Lemma finalize_sets_finalized (w : World) :
  _finalized (layer (snd (finalize w))) = true.
Proof.
  unfold finalize, bind, get, throw, put; simpl.
  destruct (_finalized (layer w)) eqn:E; simpl; [exact E|reflexivity].
Qed.

(** A finalized layer stays finalized. *)
Lemma createPortion_finalized (rf : RenderFlags) (big : bool) (c : PortionCfg) (w : World) :
  _finalized (layer w) = true ->
  createPortion rf big c w = (Abrupt (ThrowString "Already finalized"), w).
Proof.
  intros H. unfold createPortion, bind, get, throw, ret; simpl. rewrite H. reflexivity.
Qed.

Lemma setters_keep_finalized (rf : RenderFlags) (w : World) (a : nat) (f : Z) (color : list Z) :
  _finalized (layer (snd (setFlags rf a f w))) = _finalized (layer w) /\
  _finalized (layer (snd (setColor a color w))) = _finalized (layer w) /\
  _finalized (layer (snd (setPickID a f w))) = _finalized (layer w).
Proof.
  repeat split;
    unfold setFlags, setColor, setPickID, not_finalized_guard, bind, get, throw, put, ret; simpl;
    destruct (_finalized (layer w)) eqn:F; simpl; try exact F;
    destruct (portion (layer w) a) as [vb n]; simpl.
  - destruct (flagsBuf (_state (layer w))); simpl; exact F.
  - destruct (colorsBuf (_state (layer w))); simpl; exact F.
  - destruct (pickColorsBuf (_state (layer w))); simpl; exact F.
Qed.

Lemma finalize_called_finalized (rf : RenderFlags) (big : bool) (w : World) :
  finalize_called rf big w -> _finalized (layer w) = true.
Proof.
  induction 1 as [w|w n _ IH|w c _ IH|w a f _ IH|w a col _ IH|w a k _ IH].
  - apply finalize_sets_finalized.
  - unfold canCreatePortion, bind, get, throw, ret; simpl. rewrite IH. exact IH.
  - rewrite createPortion_finalized by exact IH. exact IH.
  - destruct (setters_keep_finalized rf w a f []) as (H & _ & _). rewrite H. exact IH.
  - destruct (setters_keep_finalized rf w a 0 col) as (_ & H & _). rewrite H. exact IH.
  - destruct (setters_keep_finalized rf w a k []) as (_ & _ & H). rewrite H. exact IH.
Qed.

(** C10: once [finalize ()] has been called on a layer, whatever has been
    called on it since, [canCreatePortion] returns no boolean: for every
    requested length it throws "Already finalized" and leaves the state
    as it is. *)
Theorem canCreatePortion_throws_after_finalize (rf : RenderFlags) (big : bool)
    (w : World) (lenPositions' : nat) :
  finalize_called rf big w ->
  canCreatePortion lenPositions' w = (Abrupt (ThrowString "Already finalized"), w).
Proof.
  intros H. apply finalize_called_finalized in H.
  unfold canCreatePortion, bind, get, throw; simpl. rewrite H. reflexivity.
Qed.

Lemma canCreatePortion_throws_after_finalize_witness :
  let w := snd (setColor 0 [0; 0; 255; 255] (world_two sample_RENDER_FLAGS)) in
  canCreatePortion 3 w = (Abrupt (ThrowString "Already finalized"), w).
Proof.
  apply (canCreatePortion_throws_after_finalize sample_RENDER_FLAGS false).
  apply called_setColor. unfold world_two. apply called_finalize.
Defined.

(** C4: on a layer that is already finalized, [finalize ()] fails and
    changes nothing: neither the uploaded buffers nor any other part of
    the state.  The failure is the [TypeError] raised by the call of the
    missing method [this.error], so the text "Already finalized" is not
    what the caller receives. *)
Theorem finalize_twice_fails_unchanged (w : World) :
  _finalized (layer w) = true ->
  finalize w = (Abrupt (TypeError "this.error is not a function"), w).
Proof.
  intros H. unfold finalize, bind, get, throw; simpl. rewrite H. reflexivity.
Qed.

Lemma finalize_twice_fails_unchanged_witness :
  _finalized (layer (world_two sample_RENDER_FLAGS)) = true /\
  finalize (world_two sample_RENDER_FLAGS) = (Abrupt (TypeError "this.error is not a function"), (world_two sample_RENDER_FLAGS)).
Proof.
  assert (H : _finalized (layer (world_two sample_RENDER_FLAGS)) = true) by (vm_compute; reflexivity).
  split; [exact H | exact (finalize_twice_fails_unchanged (world_two sample_RENDER_FLAGS) H)].
Defined.

(** The first [finalize ()] of a layer does return. *)
Lemma finalize_first_returns (w : World) :
  _finalized (layer w) = false -> fst (finalize w) = Normal tt.
Proof.
  intros H. unfold finalize, bind, get, throw, put; simpl. rewrite H. reflexivity.
Qed.

(** A portion that exists is the one the setters read. *)
Lemma portion_of_portion (L : BatchingLayer) (a va na : nat) :
  portion_of L a = Some (va, na) -> portion L a = (va, na).
Proof.
  unfold portion_of, portion.
  destruct (_portions L !! (a * 2)%nat), (_portions L !! (a * 2 + 1)%nat); congruence.
Qed.

(** ** Construction with an unknown primitive *)

(** C9: for the batching layer the claim fails.  A primitive name outside
    the supported list makes the constructor throw; no layer is built and
    no default is substituted. *)
Theorem constructor_throws_on_unknown_primitive (name : string) :
  name <> ""%string ->
  ~ In name supported_primitives ->
  constructor (Some name)
  = Abrupt (ThrowString
      ("Unsupported value for 'primitive': '" ++ name ++
       "' - supported values are 'points', 'lines', 'line-loop', 'line-strip', 'triangles', 'triangle-strip' and 'triangle-fan'. Defaulting to 'triangles'.")).
Proof.
  intros Hne Hin. unfold constructor, primitive_or_default.
  destruct name as [|c name']; [congruence|].
  set (n := String c name') in *.
  unfold constructor_primitive.
  repeat match goal with
  | |- context [String.eqb n ?s] =>
      destruct (String.eqb_spec n s) as [E|_];
        [exfalso; apply Hin; rewrite E; simpl; tauto|]
  end.
  reflexivity.
Qed.

Lemma constructor_throws_on_unknown_primitive_witness :
  exists msg, constructor (Some "quads"%string) = Abrupt (ThrowString msg).
Proof.
  eexists.
  apply (constructor_throws_on_unknown_primitive "quads").
  - discriminate.
  - simpl. intros H. repeat (destruct H as [H|H]; [discriminate H|]). exact H.
Defined.

(** The switch of [Geometry] does continue with [gl.TRIANGLES] and one
    logged message, although it keeps the unknown name. *)
Lemma Geometry_init_primitive_unknown (name : string) :
  name <> ""%string ->
  ~ In name supported_primitives ->
  exists msg, Geometry.init_primitive (Some name) = (TRIANGLES, name, [msg]).
Proof.
  intros Hne Hin. unfold Geometry.init_primitive.
  destruct name as [|c name']; [congruence|].
  set (n := String c name') in *.
  repeat match goal with
  | |- context [String.eqb n ?s] =>
      destruct (String.eqb_spec n s) as [E|_];
        [exfalso; apply Hin; rewrite E; simpl; tauto|]
  end.
  eexists. reflexivity.
Qed.

(** ** Capacity *)

(** [createPortion] returns whenever the layer is not finalized, no other
    layer is being packed and the positions fit into the typed array;
    what [canCreatePortion] would answer plays no part. *)
Lemma createPortion_returns (rf : RenderFlags) (big : bool) (c : PortionCfg) (w : World) :
  _finalized (layer w) = false ->
  currentBatchingLayer w <> Some OtherLayer ->
  (lenPositions (arena w) + length (cfg_positions c) <= length (positions (arena w)))%nat ->
  exists aabb,
    fst (createPortion rf big c w) = Normal ((length (_portions (layer w)) / 2)%nat, aabb).
Proof.
  intros HF Hc Hfit.
  unfold createPortion, claim_writer, bind, get, throw, put, ret; simpl.
  rewrite HF; simpl.
  assert (Happ : exists r, append_positions c (arena w) (_aabb (layer w)) = Some r).
  { unfold append_positions, TypedArray_set.
    destruct (Nat.leb_spec (lenPositions (arena w) + length (cfg_positions c))
                           (length (positions (arena w)))) as [_|H]; [|lia].
    eexists. reflexivity. }
  destruct Happ as [[[ps ab] lab] Happ].
  destruct (currentBatchingLayer w) as [[|]|]; simpl; try congruence;
    rewrite Happ; simpl; eexists; reflexivity.
Qed.

(** What [createPortion] leaves in [lenPositions] when it returns. *)
Lemma createPortion_lenPositions (rf : RenderFlags) (big : bool) (c : PortionCfg) (w : World)
    (r : nat * list num) :
  fst (createPortion rf big c w) = Normal r ->
  lenPositions (arena (snd (createPortion rf big c w)))
  = (lenPositions (arena w) + length (cfg_positions c))%nat.
Proof.
  unfold createPortion, claim_writer, bind, get, throw, put, ret; simpl.
  destruct (_finalized (layer w)); simpl; [discriminate|].
  destruct (currentBatchingLayer w) as [[|]|]; simpl; try discriminate;
    destruct (append_positions c (arena w) (_aabb (layer w))) as [[[ps ab] lab]|]; simpl;
    try discriminate; reflexivity.
Qed.

(** C2: the claim fails.  Whenever the positions of a new portion fill an
    arena exactly, up to [maxVerts * 3] components, [canCreatePortion]
    returns [false] for their number, and [createPortion] nevertheless
    returns a portion ID and leaves the arena full. *)
Theorem createPortion_accepts_after_refusal (rf : RenderFlags) (big : bool)
    (c : PortionCfg) (w : World) :
  _finalized (layer w) = false ->
  currentBatchingLayer w <> Some OtherLayer ->
  length (positions (arena w)) = (maxVerts (arena w) * 3)%nat ->
  (lenPositions (arena w) + length (cfg_positions c) = maxVerts (arena w) * 3)%nat ->
  fst (canCreatePortion (length (cfg_positions c)) w) = Normal false /\
  (exists aabb,
     fst (createPortion rf big c w) = Normal ((length (_portions (layer w)) / 2)%nat, aabb)) /\
  lenPositions (arena (snd (createPortion rf big c w))) = (maxVerts (arena w) * 3)%nat.
Proof.
  intros HF Hc Hsize Hfull.
  destruct (createPortion_returns rf big c w HF Hc ltac:(lia)) as [aabb Hret].
  split; [|split].
  - unfold canCreatePortion, bind, get, throw, ret; simpl. rewrite HF.
    simpl. f_equal. apply Nat.ltb_ge. lia.
  - exists aabb. exact Hret.
  - rewrite (createPortion_lenPositions rf big c w _ Hret). exact Hfull.
Qed.

Lemma createPortion_accepts_after_refusal_witness :
  fst (canCreatePortion 6 (new_world 2)) = Normal false /\
  (exists aabb,
     fst (createPortion sample_RENDER_FLAGS false segment (new_world 2)) = Normal (0%nat, aabb)) /\
  lenPositions (arena (snd (createPortion sample_RENDER_FLAGS false segment (new_world 2))))
  = 6%nat.
Proof.
  apply (createPortion_accepts_after_refusal sample_RENDER_FLAGS false segment (new_world 2)).
  - reflexivity.
  - discriminate.
  - reflexivity.
  - reflexivity.
Defined.



(** Positions that do not fit into the typed array are stopped by the
    [RangeError] of [positions.set], after [currentBatchingLayer] has been
    claimed; this is the only bound that [createPortion] observes. *)
Lemma createPortion_overflow (rf : RenderFlags) (big : bool) (c : PortionCfg) (w : World) :
  _finalized (layer w) = false ->
  currentBatchingLayer w = None ->
  (length (positions (arena w)) < lenPositions (arena w) + length (cfg_positions c))%nat ->
  createPortion rf big c w
  = (Abrupt (RangeError "offset is out of bounds"),
     set_currentBatchingLayer (Some ThisLayer) w).
Proof.
  intros HF Hc Hfit.
  unfold createPortion, claim_writer, bind, get, throw, put, ret; simpl.
  rewrite HF, Hc; simpl.
  unfold append_positions, TypedArray_set.
  destruct (Nat.leb_spec (lenPositions (arena w) + length (cfg_positions c))
                         (length (positions (arena w)))) as [H|_]; [lia|].
  reflexivity.
Qed.

(** ** Counters *)

(** [createPortion], when it returns, counts the new portion in every
    category whose flag it has just written. *)
Lemma createPortion_counts (rf : RenderFlags) (big : bool) (c : PortionCfg) (w : World)
    (r : nat * list num) (f : Z) :
  fst (createPortion rf big c w) = Normal r ->
  cfg_flags c = Some f ->
  let L := layer w in
  let L' := layer (snd (createPortion rf big c w)) in
  numVisibleObjects L' = bump (negb (Z.land f (VISIBLE rf) =? 0)) (numVisibleObjects L) /\
  numGhostedObjects L' = bump (negb (Z.land f (GHOSTED rf) =? 0)) (numGhostedObjects L) /\
  numHighlightedObjects L' = bump (negb (Z.land f (HIGHLIGHTED rf) =? 0)) (numHighlightedObjects L) /\
  numSelectedObjects L' = bump (negb (Z.land f (SELECTED rf) =? 0)) (numSelectedObjects L) /\
  numEdgesObjects L' = bump (negb (Z.land f (EDGES rf) =? 0)) (numEdgesObjects L) /\
  numObjects L' = S (numObjects L).
Proof.
  intros Hr Hf. revert Hr.
  unfold createPortion, claim_writer, bind, get, throw, put, ret; simpl.
  destruct (_finalized (layer w)); simpl; [discriminate|].
  assert (Hb : forall m, negb (flag_byte f m =? 0) = negb (Z.land f m =? 0)).
  { intros m. unfold flag_byte. destruct (Z.land f m =? 0); reflexivity. }
  destruct (currentBatchingLayer w) as [[|]|]; simpl; try discriminate;
    destruct (append_positions c (arena w) (_aabb (layer w))) as [[[ps ab] lab]|]; simpl;
    try discriminate; intros _; rewrite Hf; simpl; rewrite !Hb; repeat split.
Qed.

(** [setFlags] writes no counter. *)
Lemma setFlags_keeps_counters (rf : RenderFlags) (portionId : nat) (flags' : Z) (w : World) :
  counters (layer (snd (setFlags rf portionId flags' w))) = counters (layer w).
Proof.
  unfold setFlags, not_finalized_guard, bind, get, throw, put, ret; simpl.
  destruct (_finalized (layer w)); simpl; [|reflexivity].
  destruct (portion (layer w) portionId) as [vb n]; simpl.
  destruct (flagsBuf (_state (layer w))); reflexivity.
Qed.

(** Neither does [setColor], although it can change the alpha that
    [numTransparentObjects] counts. *)
Lemma setColor_keeps_counters (portionId : nat) (color : list Z) (w : World) :
  counters (layer (snd (setColor portionId color w))) = counters (layer w).
Proof.
  unfold setColor, not_finalized_guard, bind, get, throw, put, ret; simpl.
  destruct (_finalized (layer w)); simpl; [|reflexivity].
  destruct (portion (layer w) portionId) as [vb n]; simpl.
  destruct (colorsBuf (_state (layer w))); reflexivity.
Qed.

(** ** What [setFlags] and [setColor] upload *)

Lemma inserts4 {A : Type} (i : nat) (a b c d : A) (l : list A) :
  <[(i + 3)%nat := d]> (<[(i + 2)%nat := c]> (<[(i + 1)%nat := b]> (<[i := a]> l)))
  = list_inserts i [a; b; c; d] l.
Proof.
  rewrite inserts3. simpl.
  replace (i + 3)%nat with (S (S (S i))) by lia.
  rewrite (list_insert_insert_ne _ (S (S (S i))) i) by lia.
  rewrite (list_insert_insert_ne _ (S (S (S i))) (S i)) by lia.
  rewrite (list_insert_insert_ne _ (S (S (S i))) (S (S i))) by lia.
  reflexivity.
Qed.

(** After the loop, the first [n * 4] bytes of the scratch array repeat
    the four bytes, as far as the array reaches. *)
Lemma fill_vec4_lookup (n : nat) (v0 v1 v2 v3 : Z) (temp : list Z) (j : nat) :
  (j < n * 4)%nat -> (j < length temp)%nat ->
  fill_vec4 0 (n * 4) v0 v1 v2 v3 temp !! j
  = [ToUint8 v0; ToUint8 v1; ToUint8 v2; ToUint8 v3] !! (j mod 4)%nat.
Proof.
  intros Hj Hlen. unfold fill_vec4.
  rewrite (for_loop_as_blocks 0 (n * 4) 4 _
             (fun _ => [ToUint8 v0; ToUint8 v1; ToUint8 v2; ToUint8 v3])).
  - rewrite blocks_lookup by (auto; lia).
    destruct (decide _) as [_|H].
    + rewrite Nat.sub_0_r. reflexivity.
    + exfalso. apply H. split; [|exact Hlen]. split; [lia|].
      replace (n * 4 - 0 + (4 - 1))%nat with (3 + n * 4)%nat by lia.
      rewrite Nat.div_add by lia. simpl. lia.
  - intros k acc. rewrite inserts4. reflexivity.
Qed.

Lemma fill_vec4_length (lo hi : nat) (v0 v1 v2 v3 : Z) (temp : list Z) :
  length (fill_vec4 lo hi v0 v1 v2 v3 temp) = length temp.
Proof.
  unfold fill_vec4.
  rewrite (for_loop_as_blocks lo hi 4 _
             (fun _ => [ToUint8 v0; ToUint8 v1; ToUint8 v2; ToUint8 v3])).
  - apply blocks_length.
  - intros k acc. rewrite inserts4. reflexivity.
Qed.

(** A partial update from such a scratch array gives every vertex of the
    range the same four bytes. *)
Lemma setData_broadcast (data : list Z) (v0 v1 v2 v3 : Z) (temp : list Z) (vb n v k : nat) :
  (n * 4 <= length temp)%nat ->
  ((vb + n) * 4 <= length data)%nat ->
  (v < n)%nat -> (k < 4)%nat ->
  list_inserts (vb * 4) (take (n * 4) (fill_vec4 0 (n * 4) v0 v1 v2 v3 temp)) data
    !! ((vb + v) * 4 + k)%nat
  = [ToUint8 v0; ToUint8 v1; ToUint8 v2; ToUint8 v3] !! k.
Proof.
  intros Ht Hb Hv Hk.
  rewrite list_lookup_inserts.
  - rewrite lookup_take_lt by lia.
    rewrite fill_vec4_lookup by lia.
    replace ((vb + v) * 4 + k - vb * 4)%nat with (k + v * 4)%nat by lia.
    rewrite Nat.Div0.mod_add. rewrite Nat.mod_small by exact Hk. reflexivity.
  - rewrite length_take, fill_vec4_length. lia.
  - lia.
Qed.

(** The part of C3 that holds: on a finalized layer, [setColor] returns
    and gives each vertex of the portion the four colour bytes, over
    exactly [vertexCount * 4] bytes from [vertexBase * 4]; [setFlags] does
    the same with the four flag bytes. *)
Lemma setColor_broadcast (w : World) (buf : ArrayBuf) (a va na : nat) (color : list Z) :
  _finalized (layer w) = true ->
  portion_of (layer w) a = Some (va, na) ->
  colorsBuf (_state (layer w)) = Some buf ->
  (na * 4 <= length (uint8Vec4Temp w))%nat ->
  ((va + na) * 4 <= length (ab_data buf))%nat ->
  fst (setColor a color w) = Normal tt /\
  forall v k, (v < na)%nat -> (k < 4)%nat ->
    buf_byte (colorsBuf (_state (layer (snd (setColor a color w))))) ((va + v) * 4 + k)
    = Some (ToUint8 (color_byte color k)).
Proof.
  intros HF Hp Hb Ht Hl. apply portion_of_portion in Hp.
  unfold setColor, not_finalized_guard, bind, get, throw, put, ret; simpl.
  rewrite HF; simpl. rewrite Hp; simpl. rewrite Hb; simpl.
  split; [reflexivity|]. intros v k Hv Hk.
  unfold setColor_scratch. rewrite setData_broadcast by assumption.
  destruct k as [|[|[|[|k]]]]; try lia; reflexivity.
Qed.

Lemma setFlags_broadcast (rf : RenderFlags) (w : World) (buf : ArrayBuf) (a va na : nat) (flags' : Z) :
  _finalized (layer w) = true ->
  portion_of (layer w) a = Some (va, na) ->
  flagsBuf (_state (layer w)) = Some buf ->
  (na * 4 <= length (uint8Vec4Temp w))%nat ->
  ((va + na) * 4 <= length (ab_data buf))%nat ->
  fst (setFlags rf a flags' w) = Normal tt /\
  forall v k, (v < na)%nat -> (k < 4)%nat ->
    buf_byte (flagsBuf (_state (layer (snd (setFlags rf a flags' w))))) ((va + v) * 4 + k)
    = [ flag_byte flags' (VISIBLE rf); flag_byte flags' (GHOSTED rf);
        flag_byte flags' (HIGHLIGHTED rf); flag_byte flags' (CLIPPABLE rf) ] !! k.
Proof.
  intros HF Hp Hb Ht Hl. apply portion_of_portion in Hp.
  unfold setFlags, not_finalized_guard, bind, get, throw, put, ret; simpl.
  rewrite HF; simpl. rewrite Hp; simpl. rewrite Hb; simpl.
  split; [reflexivity|]. intros v k Hv Hk.
  unfold setFlags_scratch. rewrite setData_broadcast by assumption.
  assert (Hfb : forall m, ToUint8 (flag_byte flags' m) = flag_byte flags' m).
  { intros m. unfold flag_byte. destruct (Z.land flags' m =? 0); reflexivity. }
  rewrite !Hfb. reflexivity.
Qed.

(** [setPickID] hands [setData] only [vertexCount * 2] bytes. *)
Lemma setPickID_upload_length (w : World) (a va na : nat) (pickId : Z) :
  portion_of (layer w) a = Some (va, na) ->
  (na * 2 <= length (uint8Vec4Temp w))%nat ->
  length (take (na * 2) (setPickID_scratch na pickId (uint8Vec4Temp w))) = (na * 2)%nat.
Proof.
  intros _ Ht. rewrite length_take. unfold setPickID_scratch.
  rewrite (for_loop_as_blocks 0 (na * 2) 2 _ (fun _ => [ToUint8 pickId])).
  - rewrite blocks_length. lia.
  - intros k acc. reflexivity.
Qed.

(** ** Partial updates *)

(** [setPickID] leaves the second half of the portion's range as it was. *)
Lemma setPickID_second_half_untouched (w : World) (a va na i : nat) (pickId : Z) :
  portion_of (layer w) a = Some (va, na) ->
  (va * 4 + na * 2 <= i)%nat ->
  buf_byte (pickColorsBuf (_state (layer (snd (setPickID a pickId w))))) i
  = buf_byte (pickColorsBuf (_state (layer w))) i.
Proof.
  intros Hp Hi. apply portion_of_portion in Hp.
  unfold setPickID, not_finalized_guard, bind, get, throw, put, ret; simpl.
  destruct (_finalized (layer w)); simpl; [|reflexivity].
  rewrite Hp; simpl.
  destruct (pickColorsBuf (_state (layer w))) as [buf|] eqn:E; simpl; [|rewrite E; reflexivity].
  apply list_lookup_inserts_ge. rewrite length_take. lia.
Qed.

(** C3: the claim fails for [setPickID].  After [setColor (0, blue)] on
    the two-triangle layer, [setPickID (0, 7)] updates only the first six
    of the twelve pick bytes of portion 0, writes the id into every other
    one of them, and uploads in between what the scratch array held from
    the call before. *)
Theorem setPickID_writes_half_the_range (rf : RenderFlags) :
  let w := snd (setColor 0 [0; 0; 255; 255] (world_two rf)) in
  let r := setPickID 0 7 w in
  fst r = Normal tt /\
  option_map ab_data (pickColorsBuf (_state (layer w)))
  = Some [1; 0; 0; 0;  1; 0; 0; 0;  1; 0; 0; 0;  2; 0; 0; 0;  2; 0; 0; 0;  2; 0; 0; 0] /\
  option_map ab_data (pickColorsBuf (_state (layer (snd r))))
  = Some [7; 0; 7; 255;  7; 0; 0; 0;  1; 0; 0; 0;  2; 0; 0; 0;  2; 0; 0; 0;  2; 0; 0; 0].
Proof. vm_compute. auto. Qed.

(** ** Portions of a reachable layer *)

Lemma portion_of_app (P : list nat) (x y a : nat) (L L' : BatchingLayer) :
  Nat.Even (length P) ->
  _portions L = P ->
  _portions L' = P ++ [x; y] ->
  portion_of L' a =
    if (a * 2 <? length P)%nat then portion_of L a
    else if (a * 2 =? length P)%nat then Some (x, y) else None.
Proof.
  intros [m Hm] HL HL'. unfold portion_of. rewrite HL, HL'.
  destruct (Nat.ltb_spec (a * 2) (length P)) as [Hlt|Hge].
  - rewrite !lookup_app_l by lia. reflexivity.
  - destruct (Nat.eqb_spec (a * 2) (length P)) as [Heq|Hne].
    + rewrite !lookup_app_r by lia.
      replace (a * 2 - length P)%nat with 0%nat by lia.
      replace (a * 2 + 1 - length P)%nat with 1%nat by lia.
      reflexivity.
    + rewrite !lookup_app_r by lia.
      assert (2 <= a * 2 - length P)%nat by lia.
      destruct (a * 2 - length P)%nat as [|[|k]] eqn:E; try lia.
      reflexivity.
Qed.

(** What [createPortion] does to the portion list and to the vertex count
    of the arena: nothing when it throws, one pair appended when it
    returns. *)
Lemma createPortion_portions (rf : RenderFlags) (big : bool) (c : PortionCfg) (w : World) :
  let w' := snd (createPortion rf big c w) in
  (layer w' = layer w /\ arena w' = arena w) \/
  (_finalized (layer w) = false /\
   _finalized (layer w') = false /\
   _portions (layer w') =
     _portions (layer w) ++ [(lenPositions (arena w) / 3)%nat; (length (cfg_positions c) / 3)%nat] /\
   lenPositions (arena w') = (lenPositions (arena w) + length (cfg_positions c))%nat).
Proof.
  unfold createPortion, claim_writer, bind, get, throw, put, ret; simpl.
  destruct (_finalized (layer w)) eqn:F; simpl; [left; auto|].
  destruct (currentBatchingLayer w) as [[|]|]; simpl; try (left; auto; fail);
    destruct (append_positions c (arena w) (_aabb (layer w))) as [[[ps ab] lab]|]; simpl;
    try (left; auto; fail); right; auto.
Qed.

Lemma layer_inv_same (w w' : World) :
  _portions (layer w') = _portions (layer w) ->
  _finalized (layer w') = _finalized (layer w) ->
  lenPositions (arena w') = lenPositions (arena w) ->
  layer_inv w -> layer_inv w'.
Proof.
  intros HP HF HL (He & Ho & Hb). unfold layer_inv, portions_ordered, portions_below, portion_of.
  rewrite HP, HF, HL. auto.
Qed.

Lemma layer_inv_finalized (w w' : World) :
  _portions (layer w') = _portions (layer w) ->
  _finalized (layer w') = true ->
  layer_inv w -> layer_inv w'.
Proof.
  intros HP HF (He & Ho & Hb). unfold layer_inv, portions_ordered, portions_below, portion_of.
  rewrite HP, HF. repeat split; auto. intros; discriminate.
Qed.

Lemma layer_inv_createPortion (rf : RenderFlags) (big : bool) (c : PortionCfg) (w : World) :
  layer_inv w -> layer_inv (snd (createPortion rf big c w)).
Proof.
  intros Hinv. destruct (createPortion_portions rf big c w) as [[HL HA]|(F & F' & HP & HLen)].
  - apply (layer_inv_same w); [now rewrite HL|now rewrite HL|now rewrite HA|exact Hinv].
  - destruct Hinv as (He & Ho & Hb).
    set (w' := snd (createPortion rf big c w)) in *.
    set (x := (lenPositions (arena w) / 3)%nat) in *.
    set (y := (length (cfg_positions c) / 3)%nat) in *.
    assert (Hx : (x * 3 <= lenPositions (arena w))%nat).
    { subst x. pose proof (Nat.Div0.mul_div_le (lenPositions (arena w)) 3). lia. }
    assert (Hx' : (lenPositions (arena w) < x * 3 + 3)%nat).
    { subst x. pose proof (Nat.div_mod_eq (lenPositions (arena w)) 3).
      pose proof (Nat.mod_upper_bound (lenPositions (arena w)) 3). lia. }
    assert (Hy : (y * 3 <= length (cfg_positions c))%nat).
    { subst y. pose proof (Nat.Div0.mul_div_le (length (cfg_positions c)) 3). lia. }
    assert (Hpo : forall a, portion_of (layer w') a =
              if (a * 2 <? length (_portions (layer w)))%nat then portion_of (layer w) a
              else if (a * 2 =? length (_portions (layer w)))%nat then Some (x, y) else None).
    { intros a. apply (portion_of_app (_portions (layer w))); auto. }
    assert (Hdom : forall a va na, portion_of (layer w) a = Some (va, na) ->
              (a * 2 + 1 < length (_portions (layer w)))%nat).
    { intros a va na H. unfold portion_of in H.
      destruct (_portions (layer w) !! (a * 2)%nat) eqn:E1; [|discriminate].
      destruct (_portions (layer w) !! (a * 2 + 1)%nat) eqn:E2; [|discriminate].
      apply lookup_lt_Some in E2. exact E2. }
    repeat split.
    + rewrite HP, length_app. simpl. destruct He as [m Hm]. exists (S m). lia.
    + intros a b va na vb nb Hab Ha Hb'. rewrite Hpo in Ha, Hb'.
      destruct (Nat.ltb_spec (b * 2) (length (_portions (layer w)))) as [Hlt|Hge].
      * destruct (Nat.ltb_spec (a * 2) (length (_portions (layer w)))); [|lia].
        exact (Ho a b va na vb nb Hab Ha Hb').
      * destruct (Nat.eqb_spec (b * 2) (length (_portions (layer w)))); [|discriminate].
        inversion Hb'; subst vb nb.
        destruct (Nat.ltb_spec (a * 2) (length (_portions (layer w)))); [|lia].
        specialize (Hb a va na Ha F). lia.
    + intros a va na Ha _. rewrite Hpo in Ha. rewrite HLen.
      destruct (Nat.ltb_spec (a * 2) (length (_portions (layer w)))).
      * specialize (Hb a va na Ha F). lia.
      * destruct (Nat.eqb_spec (a * 2) (length (_portions (layer w)))); [|discriminate].
        inversion Ha; subst va na. lia.
Qed.

Lemma finalize_portions (w : World) :
  _portions (layer (snd (finalize w))) = _portions (layer w).
Proof.
  unfold finalize, bind, get, throw, put; simpl.
  destruct (_finalized (layer w)); reflexivity.
Qed.

(** The three setters leave the portion list, the lifecycle flag and the
    arena as they are. *)
Lemma setColor_frame (portionId : nat) (color : list Z) (w : World) :
  let w' := snd (setColor portionId color w) in
  _portions (layer w') = _portions (layer w) /\
  _finalized (layer w') = _finalized (layer w) /\ arena w' = arena w /\
  flagsBuf (_state (layer w')) = flagsBuf (_state (layer w)).
Proof.
  unfold setColor, not_finalized_guard, bind, get, throw, put, ret; simpl.
  destruct (_finalized (layer w)) eqn:F; simpl; [|repeat split; congruence].
  destruct (portion (layer w) portionId) as [vb n]; simpl.
  destruct (colorsBuf (_state (layer w))); simpl; repeat split; congruence.
Qed.

Lemma setFlags_frame (rf : RenderFlags) (portionId : nat) (flags' : Z) (w : World) :
  let w' := snd (setFlags rf portionId flags' w) in
  _portions (layer w') = _portions (layer w) /\
  _finalized (layer w') = _finalized (layer w) /\ arena w' = arena w /\
  colorsBuf (_state (layer w')) = colorsBuf (_state (layer w)).
Proof.
  unfold setFlags, not_finalized_guard, bind, get, throw, put, ret; simpl.
  destruct (_finalized (layer w)) eqn:F; simpl; [|repeat split; congruence].
  destruct (portion (layer w) portionId) as [vb n]; simpl.
  destruct (flagsBuf (_state (layer w))); simpl; repeat split; congruence.
Qed.

Lemma setPickID_frame (portionId : nat) (pickId : Z) (w : World) :
  let w' := snd (setPickID portionId pickId w) in
  _portions (layer w') = _portions (layer w) /\
  _finalized (layer w') = _finalized (layer w) /\ arena w' = arena w.
Proof.
  unfold setPickID, not_finalized_guard, bind, get, throw, put, ret; simpl.
  destruct (_finalized (layer w)) eqn:F; simpl; [|repeat split; congruence].
  destruct (portion (layer w) portionId) as [vb n]; simpl.
  destruct (pickColorsBuf (_state (layer w))); simpl; repeat split; congruence.
Qed.

(** Every world a layer goes through keeps its portions in order. *)
Lemma reachable_layer_inv (rf : RenderFlags) (big : bool) (w : World) :
  reachable rf big w -> layer_inv w.
Proof.
  induction 1 as [p L buffer current temp HL|w c _ IH|w _ IH|w a f _ IH|w a col _ IH|w a k _ IH].
  - unfold constructor in HL.
    destruct (constructor_primitive (primitive_or_default p)) as [[g n]|]; [|discriminate].
    inversion HL; subst L.
    repeat split; simpl.
    + exists 0%nat. reflexivity.
    + intros a b va na vb nb _ Ha. unfold portion_of in Ha; simpl in Ha.
      try rewrite lookup_nil in Ha. discriminate.
    + intros a va na Ha. unfold portion_of in Ha; simpl in Ha.
      try rewrite lookup_nil in Ha. discriminate.
  - apply layer_inv_createPortion; exact IH.
  - apply (layer_inv_finalized w); [apply finalize_portions|apply finalize_sets_finalized|exact IH].
  - destruct (setFlags_frame rf a f w) as (HP & HF & HA & _).
    apply (layer_inv_same w); auto. now rewrite HA.
  - destruct (setColor_frame a col w) as (HP & HF & HA & _).
    apply (layer_inv_same w); auto. now rewrite HA.
  - destruct (setPickID_frame a k w) as (HP & HF & HA).
    apply (layer_inv_same w); auto. now rewrite HA.
Qed.

(** A partial update writes inside the range it was given. *)
Lemma setData_outside (buf : ArrayBuf) (temp : list Z) (vb n i : nat) :
  ~ in_range vb n i ->
  ab_data (ArrayBuf_setData buf (take (n * 4) temp) (vb * 4)) !! i = ab_data buf !! i.
Proof.
  intros Hout. unfold ArrayBuf_setData; simpl. unfold in_range in Hout.
  destruct (Nat.lt_ge_cases i (vb * 4)) as [Hlt|Hge].
  - apply list_lookup_inserts_lt. exact Hlt.
  - apply list_lookup_inserts_ge. rewrite length_take. lia.
Qed.

Lemma setColor_outside (a va na : nat) (color : list Z) (w : World) :
  portion (layer w) a = (va, na) ->
  same_bytes (fun i => ~ in_range va na i) w (snd (setColor a color w)).
Proof.
  intros Hp i Hout. split.
  - unfold setColor, not_finalized_guard, bind, get, throw, put, ret; simpl.
    destruct (_finalized (layer w)); simpl; [|reflexivity].
    rewrite Hp; simpl.
    destruct (colorsBuf (_state (layer w))) as [buf|] eqn:E; simpl; [|rewrite E; reflexivity].
    apply setData_outside. exact Hout.
  - destruct (setColor_frame a color w) as (_ & _ & _ & H). simpl in H. rewrite H. reflexivity.
Qed.

Lemma setFlags_outside (rf : RenderFlags) (a va na : nat) (flags' : Z) (w : World) :
  portion (layer w) a = (va, na) ->
  same_bytes (fun i => ~ in_range va na i) w (snd (setFlags rf a flags' w)).
Proof.
  intros Hp i Hout. split.
  - destruct (setFlags_frame rf a flags' w) as (_ & _ & _ & H). simpl in H. rewrite H. reflexivity.
  - unfold setFlags, not_finalized_guard, bind, get, throw, put, ret; simpl.
    destruct (_finalized (layer w)); simpl; [|reflexivity].
    rewrite Hp; simpl.
    destruct (flagsBuf (_state (layer w))) as [buf|] eqn:E; simpl; [|rewrite E; reflexivity].
    apply setData_outside. exact Hout.
Qed.

Lemma ordered_disjoint (L : BatchingLayer) (a b va na vb nb i : nat) :
  portions_ordered L -> a <> b ->
  portion_of L a = Some (va, na) -> portion_of L b = Some (vb, nb) ->
  in_range vb nb i -> ~ in_range va na i.
Proof.
  intros Ho Hab Ha Hb. unfold in_range.
  destruct (Nat.lt_total a b) as [Hlt|[Heq|Hgt]]; [|contradiction|].
  - pose proof (Ho a b va na vb nb Hlt Ha Hb). lia.
  - pose proof (Ho b a vb nb va na Hgt Hb Ha). lia.
Qed.

(** C5: on a finalized layer, [setColor] and [setFlags] on portion A
    leave every byte of the colour and flag buffers outside A's range
    [vertexBase_A * 4, (vertexBase_A + vertexCount_A) * 4) as it was, and
    in particular every byte of the range of any other portion B. *)
Theorem portion_isolation (rf : RenderFlags) (big : bool) (w : World)
    (a b va na vb nb : nat) (color : list Z) (flags' : Z) :
  reachable rf big w ->
  _finalized (layer w) = true ->
  a <> b ->
  portion_of (layer w) a = Some (va, na) ->
  portion_of (layer w) b = Some (vb, nb) ->
  same_bytes (fun i => ~ in_range va na i) w (snd (setColor a color w)) /\
  same_bytes (in_range vb nb) w (snd (setColor a color w)) /\
  same_bytes (fun i => ~ in_range va na i) w (snd (setFlags rf a flags' w)) /\
  same_bytes (in_range vb nb) w (snd (setFlags rf a flags' w)).
Proof.
  intros Hr _ Hab Ha Hb.
  destruct (reachable_layer_inv rf big w Hr) as (_ & Ho & _).
  pose proof (portion_of_portion _ _ _ _ Ha) as Hp.
  pose proof (setColor_outside a va na color w Hp) as HC.
  pose proof (setFlags_outside rf a va na flags' w Hp) as HF.
  repeat split; try (apply HC; assumption); try (apply HF; assumption);
    try (apply HC; eapply ordered_disjoint; eauto);
    try (apply HF; eapply ordered_disjoint; eauto).
Qed.

Lemma portion_isolation_witness :
  same_bytes (fun i => ~ in_range 0 3 i) (world_two sample_RENDER_FLAGS) (snd (setColor 0 [0; 0; 255; 255] (world_two sample_RENDER_FLAGS))) /\
  same_bytes (in_range 3 3) (world_two sample_RENDER_FLAGS) (snd (setColor 0 [0; 0; 255; 255] (world_two sample_RENDER_FLAGS))) /\
  same_bytes (fun i => ~ in_range 0 3 i) (world_two sample_RENDER_FLAGS) (snd (setFlags sample_RENDER_FLAGS 0 2 (world_two sample_RENDER_FLAGS))) /\
  same_bytes (in_range 3 3) (world_two sample_RENDER_FLAGS) (snd (setFlags sample_RENDER_FLAGS 0 2 (world_two sample_RENDER_FLAGS))).
Proof.
  apply (portion_isolation sample_RENDER_FLAGS false (world_two sample_RENDER_FLAGS) 0 1 0 3 3 3 [0; 0; 255; 255] 2).
  - unfold world_two.
    apply reach_finalize, reach_createPortion, reach_createPortion.
    apply (reach_new _ _ None). reflexivity.
  - vm_compute. reflexivity.
  - discriminate.
  - vm_compute. reflexivity.
  - vm_compute. reflexivity.
Defined.

(** The end-to-end scenario of section 8: two triangles, red and green;
    [setColor (0, blue)] rewrites the first twelve colour bytes and leaves
    the twelve of the second triangle green. *)
Example end_to_end_setColor :
  numObjects (layer (world_two sample_RENDER_FLAGS)) = 2%nat /\
  option_map ab_data (colorsBuf (_state (layer (world_two sample_RENDER_FLAGS))))
  = Some [255; 0; 0; 255;  255; 0; 0; 255;  255; 0; 0; 255;
          0; 255; 0; 255;  0; 255; 0; 255;  0; 255; 0; 255] /\
  option_map ab_data (colorsBuf (_state (layer (snd (setColor 0 [0; 0; 255; 255] (world_two sample_RENDER_FLAGS))))))
  = Some [0; 0; 255; 255;  0; 0; 255; 255;  0; 0; 255; 255;
          0; 255; 0; 255;  0; 255; 0; 255;  0; 255; 0; 255].
Proof. vm_compute. auto. Qed.

(** ** Counters after a mutation *)

(** C1: the claim fails.  A triangle is created hidden and the layer is
    finalized; then [setFlags (0, VISIBLE)] returns, the flag bytes of
    portion 0 say visible, one portion is visible when counted from the
    per-portion state, and [numVisibleObjects] is still 0. *)
Theorem setFlags_leaves_visible_count_stale (rf : RenderFlags) :
  VISIBLE rf <> 0 ->
  let r := setFlags rf 0 (VISIBLE rf) (world_one_hidden rf) in
  fst r = Normal tt /\
  buf_byte (flagsBuf (_state (layer (snd r)))) 0 = Some 255 /\
  count_flag (snd r) 0 = 1%nat /\
  numVisibleObjects (layer (snd r)) = 0%nat.
Proof.
  intros Hv r.
  set (w := world_one_hidden rf) in *.
  assert (HF : _finalized (layer w) = true) by apply finalize_sets_finalized.
  assert (HP : portion_of (layer w) 0 = Some (0%nat, 3%nat)) by (vm_compute; reflexivity).
  assert (HB : flagsBuf (_state (layer w)) = Some (mkArrayBuf (replicate 12 0) 12 4))
    by (vm_compute; reflexivity).
  assert (HN : numObjects (layer w) = 1%nat /\ numVisibleObjects (layer w) = 0%nat)
    by (vm_compute; auto).
  assert (HT : (3 * 4 <= length (uint8Vec4Temp w))%nat).
  { change (uint8Vec4Temp w) with (replicate (uint8Vec4Temp_length false) 0).
    rewrite length_replicate. unfold uint8Vec4Temp_length. lia. }
  clearbody w.
  destruct (setFlags_broadcast rf w _ 0 0 3 (VISIBLE rf) HF HP HB HT ltac:(simpl; lia))
    as [Hret Hbytes].
  fold r in Hret, Hbytes.
  assert (Hbyte : buf_byte (flagsBuf (_state (layer (snd r)))) 0 = Some 255).
  { pose proof (Hbytes 0%nat 0%nat ltac:(lia) ltac:(lia)) as H00.
    change ((0 + 0) * 4 + 0)%nat with 0%nat in H00. rewrite H00.
    cbn [lookup list_lookup]. unfold flag_byte.
    rewrite Z.land_diag. destruct (Z.eqb_spec (VISIBLE rf) 0); [contradiction|reflexivity]. }
  pose proof (setFlags_keeps_counters rf 0 (VISIBLE rf) w) as Hc. fold r in Hc.
  destruct (setFlags_frame rf 0 (VISIBLE rf) w) as (Hpo & Hfi & _ & _). fold r in Hpo, Hfi.
  assert (Hno : numObjects (layer (snd r)) = numObjects (layer w)).
  { unfold r, setFlags, not_finalized_guard, bind, get, throw, put, ret; simpl.
    rewrite HF; simpl. rewrite (portion_of_portion _ _ _ _ HP); simpl. rewrite HB. reflexivity. }
  repeat split; [exact Hret|exact Hbyte| |].
  - unfold count_flag. rewrite Hno, (proj1 HN). simpl.
    unfold portion_byte, current_flags, portion. rewrite Hfi, HF, Hpo.
    unfold portion_of in HP.
    destruct (_portions (layer w) !! (0 * 2)%nat), (_portions (layer w) !! (0 * 2 + 1)%nat);
      try discriminate.
    inversion HP; subst. simpl.
    unfold buf_byte in Hbyte.
    destruct (flagsBuf (_state (layer (snd r)))) as [b|]; [|discriminate].
    rewrite Hbyte. reflexivity.
  - injection Hc as Hc _. rewrite Hc. exact (proj2 HN).
Qed.

Lemma setFlags_leaves_visible_count_stale_witness :
  let r := setFlags sample_RENDER_FLAGS 0 1 (world_one_hidden sample_RENDER_FLAGS) in
  fst r = Normal tt /\
  buf_byte (flagsBuf (_state (layer (snd r)))) 0 = Some 255 /\
  count_flag (snd r) 0 = 1%nat /\
  numVisibleObjects (layer (snd r)) = 0%nat.
Proof.
  apply (setFlags_leaves_visible_count_stale sample_RENDER_FLAGS). discriminate.
Defined.

(** ** The sign of a rational *)

Lemma Qsign_pos (q : Q) : (0 < q)%Q -> Qsign q = Gt.
Proof. intros H. unfold Qsign. apply Qgt_alt. exact H. Qed.

(** ** What the two quantizers store at an index *)

Lemma stride3_cover (n j : nat) : (j < n)%nat -> (j < 0 + (n - 0 + (3 - 1)) / 3 * 3)%nat.
Proof.
  intros H. replace (n - 0 + (3 - 1))%nat with (n + 2)%nat by lia.
  pose proof (Nat.div_mod_eq (n + 2) 3). pose proof (Nat.mod_upper_bound (n + 2) 3). lia.
Qed.

Lemma stride3_block {A : Type} (g : nat -> nat -> A) (j : nat) :
  [g 0%nat (0 + (j - 0) / 3 * 3)%nat; g 1%nat (0 + (j - 0) / 3 * 3 + 1)%nat;
   g 2%nat (0 + (j - 0) / 3 * 3 + 2)%nat] !! ((j - 0) mod 3)%nat
  = Some (g (j mod 3)%nat j).
Proof.
  rewrite Nat.sub_0_r.
  pose proof (Nat.div_mod_eq j 3) as E. pose proof (Nat.mod_upper_bound j 3) as U.
  destruct (j mod 3)%nat as [|[|[|r]]] eqn:R; try lia;
    cbn [lookup list_lookup]; do 2 f_equal; lia.
Qed.

Lemma quantizeVec3_lookup (array mn mx : list num) (j : nat) :
  (j < length array)%nat ->
  Geometry.compressed (Geometry.quantizeVec3 array mn mx) !! j
  = Some (ToUint16 (Math_floor
            (mul (sub (getnum array j) (getnum mn (j mod 3)))
                 (getnum (Geometry.multiplier mn mx) (j mod 3))))).
Proof.
  intros Hj. unfold Geometry.quantizeVec3. simpl Geometry.compressed.
  set (g := fun (a i : nat) =>
         ToUint16 (Math_floor (mul (sub (getnum array i) (getnum mn a))
                                   (getnum (Geometry.multiplier mn mx) a)))).
  rewrite (for_loop_as_blocks 0 (length array) 3 _
             (fun k => [g 0%nat (0 + k * 3)%nat; g 1%nat (0 + k * 3 + 1)%nat;
                        g 2%nat (0 + k * 3 + 2)%nat])).
  - rewrite blocks_lookup by (auto; lia).
    destruct (decide _) as [_|H].
    + apply (stride3_block g).
    + exfalso. apply H. rewrite length_replicate. split; [|exact Hj].
      split; [lia|apply stride3_cover; exact Hj].
  - intros k acc. rewrite inserts3. reflexivity.
Qed.

Lemma quantizePositions_lookup (positions aabb : list num) (n : nat) (qp : list Z) (j : nat) :
  (j < n)%nat -> (n <= length qp)%nat ->
  fst (BatchingQuantize.quantizePositions positions n aabb qp) !! j
  = Some (ToUint16 (Math_floor
            (mul (sub (getnum positions j) (getnum aabb (j mod 3)))
                 (getnum (BatchingQuantize.multipliers aabb) (j mod 3))))).
Proof.
  intros Hj Hn. unfold BatchingQuantize.quantizePositions. simpl fst.
  set (g := fun (a i : nat) =>
         ToUint16 (Math_floor (mul (sub (getnum positions i) (getnum aabb a))
                                   (getnum (BatchingQuantize.multipliers aabb) a)))).
  rewrite (for_loop_as_blocks 0 n 3 _
             (fun k => [g 0%nat (0 + k * 3)%nat; g 1%nat (0 + k * 3 + 1)%nat;
                        g 2%nat (0 + k * 3 + 2)%nat])).
  - rewrite blocks_lookup by (auto; lia).
    destruct (decide _) as [_|H].
    + apply (stride3_block g).
    + exfalso. apply H. split; [|lia].
      split; [lia|apply stride3_cover; exact Hj].
  - intros k acc. rewrite inserts3. reflexivity.
Qed.

(** ** Quantization as the engine computes it *)

(** The multiplier of [quantizeVec3] is rounded to single precision when
    it is stored: in the box [0, 7]^3 the coordinate 7, the maximum, is
    stored as 65534. *)
Lemma quantizeVec3_rounds_its_multiplier :
  IEEE.Geometry.compressed
    (IEEE.Geometry.quantizeVec3 (map IEEE.of_Z [7; 7; 7; 0; 0; 0])
       (map IEEE.of_Z [0; 0; 0]) (map IEEE.of_Z [7; 7; 7]))
  = [65534; 65534; 65534; 0; 0; 0].
Proof. vm_compute. reflexivity. Qed.

(** The multipliers of [quantizePositions] are numbers, and the product
    is rounded once more: in the box [0, 15]^3 the coordinate 15 is
    stored as 65524, one below [maxInt]. *)
Lemma quantizePositions_rounds_the_product :
  fst (IEEE.BatchingQuantize.quantizePositions (map IEEE.of_Z [15; 15; 15]) 3
         (map IEEE.of_Z [0; 0; 0; 15; 15; 15]) (replicate 3 0))
  = [65524; 65524; 65524].
Proof. vm_compute. reflexivity. Qed.

(** [getBounds] turns what is beyond single precision into an infinity:
    the initial [Number.MAX_VALUE], and a coordinate such as 10^39. *)
Lemma getBounds_overflows_to_infinity :
  IEEE.Geometry.getBounds [] 3
  = (replicate 3 (S754_infinity false), replicate 3 (S754_infinity true)) /\
  snd (IEEE.Geometry.getBounds [IEEE.of_Z (10 ^ 39)] 1) = [S754_infinity false].
Proof. vm_compute. split; reflexivity. Qed.

(** The grid of the layer's quantizer has [maxInt = 65525] steps, not
    65535: in the box [0, 65525] x [0, 1] x [0, 1] the coordinate
    x = 0.9999 is stored as 0 and decoded as 0, an error above
    (65525 - 0) / 65535 and below the step (65525 - 0) / 65525 of the
    grid. *)
Lemma quantizePositions_grid_has_maxInt_steps :
  let r := IEEE.BatchingQuantize.quantizePositions wide_positions 9 wide_aabb (replicate 9 0) in
  fst r !! 0%nat = Some 0 /\
  exists p d : Q,
    IEEE.to_Q (IEEE.getnum wide_positions 0) = Some p /\
    IEEE.to_Q (IEEE.getnum (IEEE.Mat.decompressPositions (snd r) (fst r)) 0) = Some d /\
    ~ (Qabs (d - p) <= (65525 - 0) / 65535)%Q /\
    (Qabs (d - p) <= (65525 - 0) / 65525)%Q.
Proof.
  split; [vm_compute; reflexivity|].
  eexists. eexists. split; [vm_compute; reflexivity|]. split; [vm_compute; reflexivity|].
  split.
  - intros H. apply Qle_bool_iff in H. vm_compute in H. discriminate H.
  - apply Qle_bool_iff. vm_compute. reflexivity.
Qed.

(** C6: the round trip fails on the triangle of the documentation of
    [Geometry].  [getBounds] keeps the bounds in single precision, and the
    single-precision neighbour of -0.9 lies above -0.9; [quantizeVec3]
    subtracts it from the coordinate -0.9, floors the small negative
    product to -1, and the unsigned 16-bit store wraps that to 65535, the
    code of the maximum.  So the corners (-0.9, -0.9, 0) and
    (0.9, -0.9, 0) are stored as the same vertex, the three corners lie on
    one line, and x = -0.9 decodes to about +0.9: an error of more than 1,
    where one step (max - min) / 65535 is less than 0.00003. *)
Theorem quantizeVec3_wraps_the_minimum :
  let bounds := IEEE.Geometry.getBounds documented_triangle 3 in
  let r := IEEE.Geometry.quantizeVec3 documented_triangle (fst bounds) (snd bounds) in
  IEEE.ltb (IEEE.getnum documented_triangle 3) (IEEE.getnum (fst bounds) 0) = true /\
  IEEE.Math_floor
    (IEEE.mul (IEEE.sub (IEEE.getnum documented_triangle 3) (IEEE.getnum (fst bounds) 0))
              (IEEE.getnum (IEEE.Geometry.multiplier (fst bounds) (snd bounds)) 0))
  = IEEE.of_Z (-1) /\
  IEEE.Geometry.compressed r = [32767; 65535; 0;  65535; 65535; 0;  65535; 65535; 0] /\
  exists p d lo hi : Q,
    IEEE.to_Q (IEEE.getnum documented_triangle 3) = Some p /\
    IEEE.to_Q (IEEE.getnum (fst bounds) 0) = Some lo /\
    IEEE.to_Q (IEEE.getnum (snd bounds) 0) = Some hi /\
    IEEE.to_Q (IEEE.getnum (IEEE.Mat.decompressPositions (IEEE.Geometry.decode r)
                              (IEEE.Geometry.compressed r)) 3) = Some d /\
    (lo < hi)%Q /\
    ((hi - lo) / 65535 < 3 # 100000)%Q /\
    (1 < Qabs (d - p))%Q /\
    ~ (Qabs (d - p) <= (hi - lo) / 65535)%Q.
Proof.
  split; [vm_compute; reflexivity|].
  split; [vm_compute; reflexivity|].
  split; [vm_compute; reflexivity|].
  do 4 eexists.
  split; [vm_compute; reflexivity|].
  split; [vm_compute; reflexivity|].
  split; [vm_compute; reflexivity|].
  split; [vm_compute; reflexivity|].
  split; [vm_compute; reflexivity|].
  split; [vm_compute; reflexivity|].
  split; [vm_compute; reflexivity|].
  intros H. apply Qle_bool_iff in H. vm_compute in H. discriminate H.
Qed.

(** ** A degenerate axis *)

Lemma store_of_infinite_scale (x : num) : ToUint16 (Math_floor (mul x PInf)) = 0.
Proof.
  destruct x as [a| | |]; simpl; try reflexivity.
  destruct (Qsign a); reflexivity.
Qed.

Lemma multiplier_of_zero_extent (N : Z) (lo hi : Q) :
  0 < N -> (lo == hi)%Q -> div (of_Z N) (sub (Fin hi) (Fin lo)) = PInf.
Proof.
  intros HN E. unfold sub, neg, add, of_Z, div.
  assert (H0 : Qsign (hi + - lo) = Eq).
  { unfold Qsign. apply Qeq_alt. rewrite E. ring. }
  rewrite H0.
  assert (H1 : Qsign (inject_Z N) = Gt).
  { apply Qsign_pos. change 0%Q with (inject_Z 0). rewrite <- Zlt_Qlt. exact HN. }
  rewrite H1. reflexivity.
Qed.

Lemma getnum_lookup (l : list num) (k : nat) (x : num) : l !! k = Some x -> getnum l k = x.
Proof. intros H. unfold getnum. rewrite H. reflexivity. Qed.

Lemma ToUint16_range (x : num) : 0 <= ToUint16 x < 65536.
Proof.
  destruct x; simpl; try lia. apply Z.mod_pos_bound. lia.
Qed.

Lemma quantizeVec3_length (array mn mx : list num) :
  length (Geometry.compressed (Geometry.quantizeVec3 array mn mx)) = length array.
Proof.
  unfold Geometry.quantizeVec3. simpl Geometry.compressed.
  set (g := fun (a i : nat) =>
         ToUint16 (Math_floor (mul (sub (getnum array i) (getnum mn a))
                                   (getnum (Geometry.multiplier mn mx) a)))).
  rewrite (for_loop_as_blocks 0 (length array) 3 _
             (fun k => [g 0%nat (0 + k * 3)%nat; g 1%nat (0 + k * 3 + 1)%nat;
                        g 2%nat (0 + k * 3 + 2)%nat])).
  - rewrite blocks_length. apply length_replicate.
  - intros k acc. rewrite inserts3. reflexivity.
Qed.

(** C7, as amended: neither quantizer guards the division.  On an axis of
    zero extent the multiplier is [Infinity], not 0; what is floored is
    then [NaN] or an infinity, and it is the unsigned 16-bit store that
    turns it into 0.  So every component on that axis is stored as 0, and
    every stored component is an integer between 0 and 65535. *)
Theorem quantization_of_degenerate_axis (array mn mx aabb : list num) (qp : list Z)
    (k : nat) (lo hi : Q) :
  (k < 3)%nat -> (lo == hi)%Q ->
  mn !! k = Some (Fin lo) -> mx !! k = Some (Fin hi) ->
  aabb !! k = Some (Fin lo) -> aabb !! (3 + k)%nat = Some (Fin hi) ->
  (length array <= length qp)%nat ->
  (getnum (Geometry.multiplier mn mx) k = PInf /\
   (forall j, (j < length array)%nat -> (j mod 3)%nat = k ->
      Geometry.compressed (Geometry.quantizeVec3 array mn mx) !! j = Some 0) /\
   (forall j z, Geometry.compressed (Geometry.quantizeVec3 array mn mx) !! j = Some z ->
      0 <= z < 65536)) /\
  (getnum (BatchingQuantize.multipliers aabb) k = PInf /\
   (forall j, (j < length array)%nat -> (j mod 3)%nat = k ->
      fst (BatchingQuantize.quantizePositions array (length array) aabb qp) !! j = Some 0) /\
   (forall j z, (j < length array)%nat ->
      fst (BatchingQuantize.quantizePositions array (length array) aabb qp) !! j = Some z ->
      0 <= z < 65536)).
Proof.
  intros Hk E Hlo Hhi Hlo' Hhi' Hn. split.
  - assert (Hm : getnum (Geometry.multiplier mn mx) k = PInf).
    { destruct k as [|[|[|k]]]; try lia;
        [ change (getnum (Geometry.multiplier mn mx) 0)
            with (div (of_Z 65535) (sub (getnum mx 0) (getnum mn 0)))
        | change (getnum (Geometry.multiplier mn mx) 1)
            with (div (of_Z 65535) (sub (getnum mx 1) (getnum mn 1)))
        | change (getnum (Geometry.multiplier mn mx) 2)
            with (div (of_Z 65535) (sub (getnum mx 2) (getnum mn 2))) ];
        rewrite (getnum_lookup _ _ _ Hlo), (getnum_lookup _ _ _ Hhi);
        apply multiplier_of_zero_extent; (lia || exact E). }
    split; [exact Hm|split].
    + intros j Hj Hjk. rewrite quantizeVec3_lookup by exact Hj.
      rewrite Hjk, Hm, store_of_infinite_scale. reflexivity.
    + intros j z Hz.
      assert (Hj : (j < length array)%nat).
      { apply lookup_lt_Some in Hz. rewrite quantizeVec3_length in Hz. exact Hz. }
      rewrite quantizeVec3_lookup in Hz by exact Hj. inversion Hz. apply ToUint16_range.
  - assert (Hm : getnum (BatchingQuantize.multipliers aabb) k = PInf).
    { destruct k as [|[|[|k]]]; try lia; cbn [Nat.add] in Hhi';
        [ change (getnum (BatchingQuantize.multipliers aabb) 0)
            with (div (of_Z 65525) (sub (getnum aabb 3) (getnum aabb 0)))
        | change (getnum (BatchingQuantize.multipliers aabb) 1)
            with (div (of_Z 65525) (sub (getnum aabb 4) (getnum aabb 1)))
        | change (getnum (BatchingQuantize.multipliers aabb) 2)
            with (div (of_Z 65525) (sub (getnum aabb 5) (getnum aabb 2))) ];
        rewrite (getnum_lookup _ _ _ Hlo'), (getnum_lookup _ _ _ Hhi');
        apply multiplier_of_zero_extent; (lia || exact E). }
    split; [exact Hm|split].
    + intros j Hj Hjk. rewrite quantizePositions_lookup by assumption.
      rewrite Hjk, Hm, store_of_infinite_scale. reflexivity.
    + intros j z Hj Hz.
      rewrite quantizePositions_lookup in Hz by assumption. inversion Hz. apply ToUint16_range.
Qed.

Lemma quantization_of_degenerate_axis_witness :
  let mn := map of_Z [0; 0; 0] in
  let mx := map of_Z [4; 2; 0] in
  (getnum (Geometry.multiplier mn mx) 2 = PInf /\
   (forall j, (j < length flat_positions)%nat -> (j mod 3)%nat = 2%nat ->
      Geometry.compressed (Geometry.quantizeVec3 flat_positions mn mx) !! j = Some 0) /\
   (forall j z, Geometry.compressed (Geometry.quantizeVec3 flat_positions mn mx) !! j = Some z ->
      0 <= z < 65536)) /\
  (getnum (BatchingQuantize.multipliers (mn ++ mx)) 2 = PInf /\
   (forall j, (j < length flat_positions)%nat -> (j mod 3)%nat = 2%nat ->
      fst (BatchingQuantize.quantizePositions flat_positions (length flat_positions)
             (mn ++ mx) (replicate 9 0)) !! j = Some 0) /\
   (forall j z, (j < length flat_positions)%nat ->
      fst (BatchingQuantize.quantizePositions flat_positions (length flat_positions)
             (mn ++ mx) (replicate 9 0)) !! j = Some z ->
      0 <= z < 65536)).
Proof.
  apply (quantization_of_degenerate_axis flat_positions (map of_Z [0; 0; 0]) (map of_Z [4; 2; 0])
           (map of_Z [0; 0; 0] ++ map of_Z [4; 2; 0]) (replicate 9 0) 2 0%Q 0%Q);
    try reflexivity; simpl; lia.
Defined.

(** C7, the claim as stated, fails: for the triangle in the plane z = 0,
    whose bounds have zero extent along z, the z multiplier of either
    quantizer is the result of dividing by that zero extent, [Infinity]
    and not 0, and the scaled z coordinate is [NaN]. *)
Lemma quantizers_divide_by_zero_extent :
  let mn := fst (Geometry.getBounds flat_positions 3) in
  let mx := snd (Geometry.getBounds flat_positions 3) in
  sub (getnum mx 2) (getnum mn 2) = Fin (0 + - 0) /\
  getnum (Geometry.multiplier mn mx) 2 = PInf /\
  getnum (BatchingQuantize.multipliers (mn ++ mx)) 2 = PInf /\
  PInf <> of_Z 0 /\
  mul (sub (getnum flat_positions 2) (getnum mn 2)) (getnum (Geometry.multiplier mn mx) 2) = NaN.
Proof.
  vm_compute. repeat split; try reflexivity. discriminate.
Qed.

(** ** Oct-encoding *)

Section OctProofs.

Import Oct.
Local Open Scope R_scope.

(** The search returns one of the four candidates, and none of the four
    has a larger dot product with the normal. *)
Lemma octEncode_best_optimal (n : vec3) :
  In (octEncode_best n) (candidates n) /\
  forall c, In c (candidates n) ->
    dot n (octDecodeVec2 c) <= dot n (octDecodeVec2 (octEncode_best n)).
Proof.
  unfold octEncode_best, candidates, consider.
  set (c1 := octEncodeVec3 n floor floor). set (c2 := octEncodeVec3 n ceil floor).
  set (c3 := octEncodeVec3 n floor ceil). set (c4 := octEncodeVec3 n ceil ceil).
  set (d1 := dot n (octDecodeVec2 c1)). set (d2 := dot n (octDecodeVec2 c2)).
  set (d3 := dot n (octDecodeVec2 c3)). set (d4 := dot n (octDecodeVec2 c4)).
  simpl snd.
  destruct (Rgt_dec d2 d1) as [H21|H21]; simpl snd;
    [destruct (Rgt_dec d3 d2) as [H3|H3]|destruct (Rgt_dec d3 d1) as [H3|H3]]; simpl snd;
    match goal with
    | |- context [Rgt_dec d4 ?b] => destruct (Rgt_dec d4 b) as [H4|H4]
    end; simpl fst;
    (split; [simpl; tauto|]);
    intros c [<-|[<-|[<-|[<-|[]]]]]; fold d1 d2 d3 d4; Lra.lra.
Qed.

Lemma Zfloor_127_5 : Zfloor (1 * 127.5 + 0) = 127%Z.
Proof. apply Zfloor_eq. split; Lra.lra. Qed.

Lemma Zceil_127_5 : Zceil (1 * 127.5 + 0) = 128%Z.
Proof. apply Zceil_eq. split; Lra.lra. Qed.

Lemma candidates_down :
  candidates down = [(127, 127); (-128, 127); (127, -128); (-128, -128)]%Z.
Proof.
  unfold candidates, octEncodeVec3, down.
  assert (HA : Rabs (-1) = 1) by (rewrite Rabs_left; Lra.lra).
  rewrite Rabs_R0, HA.
  replace (0 / (0 + 0 + 1)) with 0 by (field; Lra.lra).
  destruct (Rlt_dec (-1) 0) as [_|H]; [|exfalso; Lra.lra].
  rewrite Rabs_R0.
  unfold sign_of. destruct (Rge_dec 0 0) as [_|H]; [|exfalso; Lra.lra].
  replace ((1 - 0) * 1) with 1 by ring.
  unfold bias_of. destruct (Rlt_dec 1 0) as [H|_]; [exfalso; Lra.lra|].
  unfold Math_round. rewrite Zfloor_127_5, Zceil_127_5. reflexivity.
Qed.

Lemma cos_below (x y z S c : R) :
  S = x * x + y * y + z * z -> z < 0 -> 0 < c -> z * z < c * c * S ->
  0 * (x / sqrt S) + 0 * (y / sqrt S) + -1 * (z / sqrt S) < c.
Proof.
  intros HS Hz Hc Hlt.
  assert (HSpos : 0 < S).
  { pose proof (Rle_0_sqr x) as Hx. pose proof (Rle_0_sqr y) as Hy.
    unfold Rsqr in Hx, Hy.
    assert (0 < z * z) by (apply Rmult_neg_neg; exact Hz || Lra.lra).
    rewrite HS. Lra.lra. }
  pose proof (sqrt_lt_R0 S HSpos) as HL.
  pose proof (sqrt_sqrt S (Rlt_le _ _ HSpos)) as HLL.
  set (L := sqrt S) in *.
  assert (Hgap : - z < c * L).
  { destruct (Rlt_le_dec (- z) (c * L)) as [H|H]; [exact H|exfalso].
    assert (HcL : 0 <= c * L) by (apply Rmult_le_pos; Lra.lra).
    pose proof (Rmult_le_compat (c * L) (- z) (c * L) (- z) HcL HcL H H) as Hsq.
    replace (c * L * (c * L)) with (c * c * (L * L)) in Hsq by ring.
    rewrite HLL in Hsq. replace (- z * - z) with (z * z) in Hsq by ring. Lra.lra. }
  replace (0 * (x / L) + 0 * (y / L) + -1 * (z / L)) with (- z / L) by (field; Lra.lra).
  apply (Rmult_lt_reg_r L); [exact HL|].
  replace (- z / L * L) with (- z) by (field; Lra.lra). exact Hgap.
Qed.

Ltac decide_sign :=
  repeat match goal with
  | |- context [Rlt_dec ?a ?b] =>
      first [ destruct (Rlt_dec a b) as [_|?]; [|exfalso; Lra.lra]
            | destruct (Rlt_dec a b) as [?|_]; [exfalso; Lra.lra|] ]
  | |- context [Rge_dec ?a ?b] =>
      first [ destruct (Rge_dec a b) as [_|?]; [|exfalso; Lra.lra]
            | destruct (Rge_dec a b) as [?|_]; [exfalso; Lra.lra|] ]
  end.

Ltac eval_Rabs :=
  repeat match goal with
  | |- context [Rabs ?a] =>
      first [ rewrite (Rabs_pos_eq a) by Lra.lra | rewrite (Rabs_left a) by Lra.lra ]
  end.

Ltac cos_down :=
  unfold octDecodeVec2, dot, down, sign_of; simpl fst; simpl snd;
  repeat (progress (decide_sign; eval_Rabs));
  apply cos_below; [reflexivity|Lra.lra|Lra.lra|Lra.lra].

Lemma cos_down_ff : dot down (octDecodeVec2 (127, 127)%Z) < 0.72.
Proof. cos_down. Qed.

Lemma cos_down_cf : dot down (octDecodeVec2 (-128, 127)%Z) < 0.72.
Proof. cos_down. Qed.

Lemma cos_down_fc : dot down (octDecodeVec2 (127, -128)%Z) < 0.72.
Proof. cos_down. Qed.

Lemma cos_down_cc : dot down (octDecodeVec2 (-128, -128)%Z) < 0.72.
Proof. cos_down. Qed.

(** Whatever the search returns for the normal (0, 0, -1), it decodes to
    a vector far from the normal. *)
Lemma octEncode_best_down :
  In (octEncode_best down) [(127, 127); (-128, 127); (127, -128); (-128, -128)]%Z /\
  dot down (octDecodeVec2 (octEncode_best down)) < 0.72.
Proof.
  destruct (octEncode_best_optimal down) as [Hin _].
  rewrite candidates_down in Hin. split; [exact Hin|].
  destruct Hin as [<-|[<-|[<-|[<-|[]]]]];
    [apply cos_down_ff|apply cos_down_cf|apply cos_down_fc|apply cos_down_cc].
Qed.

(** C8: the claim fails for the unit normal (0, 0, -1).  The two bytes
    that [octEncode ([0, 0, -1])] stores are one of (127, 127),
    (-128, 127), (127, -128) and (-128, -128), and [octDecodeVec2] of them
    has a dot product with the normal below 0.72, far from the 0.98 of the
    claim. *)
Theorem octEncode_down_misses_threshold :
  exists b0 b1 : Z,
    octEncode [0; 0; -1] = [b0; b1; 0%Z] /\
    In (b0, b1) [(127, 127); (-128, 127); (127, -128); (-128, -128)]%Z /\
    dot (0, 0, -1) (octDecodeVec2 (b0, b1)) < 0.72.
Proof.
  exists (fst (octEncode_best down)), (snd (octEncode_best down)).
  split; [reflexivity|].
  rewrite <- surjective_pairing. exact octEncode_best_down.
Qed.

End OctProofs.

(** [octEncode] on an array that holds one normal. *)
Lemma octEncode_single (x y z : R) :
  Oct.octEncode [x; y; z]
  = [fst (Oct.octEncode_best (x, y, z)); snd (Oct.octEncode_best (x, y, z)); 0].
Proof. reflexivity. Qed.

(** * Further properties of the layer *)

(** ** The guards of the layer *)

(** X1: before [finalize] has been called, [setPickID], [setFlags] and
    [setColor] throw "Not finalized", whatever the portion, and leave
    the layer, the arena and the scratch array as they were. *)
Theorem setters_throw_before_finalize (rf : RenderFlags) (w : World)
    (portionId : nat) (v : Z) (color : list Z) :
  _finalized (layer w) = false ->
  setPickID portionId v w = (Abrupt (ThrowString "Not finalized"), w) /\
  setFlags rf portionId v w = (Abrupt (ThrowString "Not finalized"), w) /\
  setColor portionId color w = (Abrupt (ThrowString "Not finalized"), w).
Proof.
  intros H.
  unfold setPickID, setFlags, setColor, not_finalized_guard, bind, get, throw; simpl.
  rewrite H. auto.
Qed.

Lemma setters_throw_before_finalize_witness :
  setPickID 0 7 (new_world 3) = (Abrupt (ThrowString "Not finalized"), new_world 3) /\
  setFlags sample_RENDER_FLAGS 0 7 (new_world 3) = (Abrupt (ThrowString "Not finalized"), new_world 3) /\
  setColor 0 [1; 2; 3; 4] (new_world 3) = (Abrupt (ThrowString "Not finalized"), new_world 3).
Proof.
  apply (setters_throw_before_finalize sample_RENDER_FLAGS (new_world 3) 0 7 [1; 2; 3; 4]).
  reflexivity.
Defined.

(** X2: once [finalize] has been called, and whatever methods have been
    called since, [createPortion] throws "Already finalized" and changes
    nothing. *)
Theorem createPortion_throws_after_finalize (rf : RenderFlags) (big : bool)
    (w : World) (c : PortionCfg) :
  finalize_called rf big w ->
  createPortion rf big c w = (Abrupt (ThrowString "Already finalized"), w).
Proof.
  intros H. apply createPortion_finalized. exact (finalize_called_finalized rf big w H).
Qed.

Lemma createPortion_throws_after_finalize_witness :
  let w := snd (setFlags sample_RENDER_FLAGS 1 0 (world_two sample_RENDER_FLAGS)) in
  createPortion sample_RENDER_FLAGS false segment w
  = (Abrupt (ThrowString "Already finalized"), w).
Proof.
  apply (createPortion_throws_after_finalize sample_RENDER_FLAGS false).
  apply called_setFlags. unfold world_two. apply called_finalize.
Defined.

(** X3: while another layer is packing into the shared arena
    ([currentBatchingLayer] is set to it), [createPortion] on a layer
    that is not finalized throws "Already packing another BatchingLayer"
    and changes nothing. *)
Theorem createPortion_blocked_by_other_layer (rf : RenderFlags) (big : bool)
    (c : PortionCfg) (w : World) :
  _finalized (layer w) = false ->
  currentBatchingLayer w = Some OtherLayer ->
  createPortion rf big c w
  = (Abrupt (ThrowString "Already packing another BatchingLayer"), w).
Proof.
  intros HF Hc.
  unfold createPortion, claim_writer, bind, get, throw, put, ret; simpl.
  rewrite HF; simpl. rewrite Hc. reflexivity.
Qed.

Lemma createPortion_blocked_by_other_layer_witness :
  createPortion sample_RENDER_FLAGS false segment
    (set_currentBatchingLayer (Some OtherLayer) (new_world 2))
  = (Abrupt (ThrowString "Already packing another BatchingLayer"),
     set_currentBatchingLayer (Some OtherLayer) (new_world 2)).
Proof.
  apply (createPortion_blocked_by_other_layer sample_RENDER_FLAGS false segment
           (set_currentBatchingLayer (Some OtherLayer) (new_world 2))); reflexivity.
Defined.

(** ** Portion IDs and counters of a reachable layer *)

Lemma bump_cases (b : bool) (n : nat) : bump b n = n \/ bump b n = S n.
Proof. destruct b; simpl; auto. Qed.

(** What a call of [createPortion] does to the layer object: nothing when
    it throws; otherwise one more object, one more pair in [_portions],
    and each counter kept or incremented. *)
Lemma createPortion_layer (rf : RenderFlags) (big : bool) (c : PortionCfg) (w : World) :
  let w' := snd (createPortion rf big c w) in
  layer w' = layer w \/
  ((exists aabb, fst (createPortion rf big c w)
                 = Normal ((length (_portions (layer w)) / 2)%nat, aabb)) /\
   numObjects (layer w') = S (numObjects (layer w)) /\
   _portions (layer w') =
     _portions (layer w) ++ [(lenPositions (arena w) / 3)%nat; (length (cfg_positions c) / 3)%nat] /\
   Forall2 (fun n' n => n' = n \/ n' = S n) (counters (layer w')) (counters (layer w))).
Proof.
  unfold createPortion, claim_writer, bind, get, throw, put, ret; simpl.
  destruct (_finalized (layer w)); simpl; [left; reflexivity|].
  destruct (currentBatchingLayer w) as [[|]|]; simpl; try (left; reflexivity);
    (destruct (append_positions c (arena w) (_aabb (layer w))) as [[[ps ab] lab]|]; simpl;
     [right|left; reflexivity]);
    (split; [eexists; reflexivity|]); (split; [reflexivity|]); (split; [reflexivity|]);
    unfold counters; simpl; repeat (apply List.Forall2_cons; [apply bump_cases|]); apply List.Forall2_nil.
Qed.

Lemma setters_keep_layer_counts (rf : RenderFlags) (w : World) (a : nat) (f : Z) (color : list Z) :
  (numObjects (layer (snd (setFlags rf a f w))) = numObjects (layer w) /\
   _portions (layer (snd (setFlags rf a f w))) = _portions (layer w) /\
   counters (layer (snd (setFlags rf a f w))) = counters (layer w)) /\
  (numObjects (layer (snd (setColor a color w))) = numObjects (layer w) /\
   _portions (layer (snd (setColor a color w))) = _portions (layer w) /\
   counters (layer (snd (setColor a color w))) = counters (layer w)) /\
  (numObjects (layer (snd (setPickID a f w))) = numObjects (layer w) /\
   _portions (layer (snd (setPickID a f w))) = _portions (layer w) /\
   counters (layer (snd (setPickID a f w))) = counters (layer w)).
Proof.
  repeat split;
    unfold setFlags, setColor, setPickID, not_finalized_guard, bind, get, throw, put, ret; simpl;
    destruct (_finalized (layer w)); simpl; try reflexivity;
    destruct (portion (layer w) a) as [vb n]; simpl;
    try (destruct (flagsBuf (_state (layer w))); reflexivity);
    try (destruct (colorsBuf (_state (layer w))); reflexivity);
    try (destruct (pickColorsBuf (_state (layer w))); reflexivity).
Qed.

Lemma finalize_keeps_layer_counts (w : World) :
  numObjects (layer (snd (finalize w))) = numObjects (layer w) /\
  _portions (layer (snd (finalize w))) = _portions (layer w) /\
  counters (layer (snd (finalize w))) = counters (layer w).
Proof.
  unfold finalize, bind, get, throw, put; simpl.
  destruct (_finalized (layer w)); simpl; repeat split; reflexivity.
Qed.

(** In every state a layer can reach, [_portions] holds one pair per
    object, and no counter exceeds [numObjects]. *)
Lemma reachable_counts (rf : RenderFlags) (big : bool) (w : World) :
  reachable rf big w ->
  length (_portions (layer w)) = (2 * numObjects (layer w))%nat /\
  Forall (fun n => (n <= numObjects (layer w))%nat) (counters (layer w)).
Proof.
  induction 1 as [p L b cur t HL|w c _ IH|w _ IH|w a f _ IH|w a col _ IH|w a k _ IH].
  - unfold constructor in HL.
    destruct (constructor_primitive (primitive_or_default p)) as [[g s]|]; [|discriminate].
    injection HL as <-. simpl. split; [reflexivity|]. repeat constructor.
  - destruct IH as [IHp IHc].
    destruct (createPortion_layer rf big c w) as [E|(_ & Hn & Hp & Hc)].
    + rewrite E. auto.
    + rewrite Hn, Hp, length_app, IHp. simpl. split; [lia|].
      clear - IHc Hc. revert Hc IHc.
      generalize (counters (layer (snd (createPortion rf big c w)))).
      generalize (counters (layer w)). intros l l' H2 HF.
      induction H2 as [|x' x l' l Hx _ IH2]; [constructor|].
      inversion HF as [|? ? Hx0 HF0]; subst. constructor; [lia|auto].
  - destruct (finalize_keeps_layer_counts w) as (Hn & Hp & Hc). rewrite Hn, Hp, Hc. exact IH.
  - destruct (setters_keep_layer_counts rf w a f []) as ((Hn & Hp & Hc) & _ & _).
    rewrite Hn, Hp, Hc. exact IH.
  - destruct (setters_keep_layer_counts rf w a 0 col) as (_ & (Hn & Hp & Hc) & _).
    rewrite Hn, Hp, Hc. exact IH.
  - destruct (setters_keep_layer_counts rf w a k []) as (_ & _ & (Hn & Hp & Hc)).
    rewrite Hn, Hp, Hc. exact IH.
Qed.

Lemma createPortion_ids_sequential_aux (rf : RenderFlags) (big : bool) (w : World)
    (c : PortionCfg) (portionId : nat) (aabb : list num) :
  reachable rf big w ->
  fst (createPortion rf big c w) = Normal (portionId, aabb) ->
  let w' := snd (createPortion rf big c w) in
  portionId = numObjects (layer w) /\
  numObjects (layer w') = S portionId /\
  portion_of (layer w') portionId
  = Some ((lenPositions (arena w) / 3)%nat, (length (cfg_positions c) / 3)%nat) /\
  forall a, (a < portionId)%nat -> portion_of (layer w') a = portion_of (layer w) a.
Proof.
  intros Hr Hret w'.
  destruct (reachable_counts rf big w Hr) as [Hlen _].
  assert (Hev : Nat.Even (length (_portions (layer w)))).
  { exists (numObjects (layer w)). exact Hlen. }
  destruct (createPortion_layer rf big c w) as [E|([ab Hid] & Hn & Hp & _)].
  - exfalso. revert Hret E.
    unfold createPortion, claim_writer, bind, get, throw, put, ret; simpl.
    destruct (_finalized (layer w)); simpl; [discriminate|].
    destruct (currentBatchingLayer w) as [[|]|]; simpl; try discriminate;
      destruct (append_positions c (arena w) (_aabb (layer w))) as [[[ps ab'] lab]|]; simpl;
      try discriminate; intros _ E; apply (f_equal numObjects) in E; simpl in E; lia.
  - assert (Hpid : (length (_portions (layer w)) / 2)%nat = portionId) by congruence.
    assert (Hq : portionId = numObjects (layer w)).
    { rewrite <- Hpid, Hlen. rewrite Nat.mul_comm. apply Nat.div_mul. lia. }
    split; [exact Hq|]. split; [fold w' in Hn; rewrite Hn, Hq; reflexivity|].
    split.
    + rewrite (portion_of_app (_portions (layer w)) _ _ portionId (layer w) (layer w') Hev eq_refl Hp).
      replace (portionId * 2 <? length (_portions (layer w)))%nat with false
        by (symmetry; apply Nat.ltb_ge; lia).
      replace (portionId * 2 =? length (_portions (layer w)))%nat with true
        by (symmetry; apply Nat.eqb_eq; lia).
      reflexivity.
    + intros a Ha.
      rewrite (portion_of_app (_portions (layer w)) _ _ a (layer w) (layer w') Hev eq_refl Hp).
      replace (a * 2 <? length (_portions (layer w)))%nat with true
        by (symmetry; apply Nat.ltb_lt; lia).
      reflexivity.
Qed.

(** X4: portion IDs are handed out in sequence.  A call of
    [createPortion] that returns, on a layer reached through the
    methods, returns the number of objects created so far, counts one
    more object, records for the new ID the vertex base and vertex count
    of the portion, and leaves every earlier ID with its record. *)
Theorem createPortion_ids_are_sequential (rf : RenderFlags) (big : bool) (w : World)
    (c : PortionCfg) (portionId : nat) (aabb : list num) :
  reachable rf big w ->
  fst (createPortion rf big c w) = Normal (portionId, aabb) ->
  let w' := snd (createPortion rf big c w) in
  portionId = numObjects (layer w) /\
  numObjects (layer w') = S portionId /\
  portion_of (layer w') portionId
  = Some ((lenPositions (arena w) / 3)%nat, (length (cfg_positions c) / 3)%nat) /\
  forall a, (a < portionId)%nat -> portion_of (layer w') a = portion_of (layer w) a.
Proof. exact (createPortion_ids_sequential_aux rf big w c portionId aabb). Qed.

Lemma createPortion_ids_are_sequential_witness :
  let w := snd (createPortion sample_RENDER_FLAGS false
                  (triangle 1 [255; 0; 0; 255] [1; 0; 0; 0]) (new_world 6)) in
  let w' := snd (createPortion sample_RENDER_FLAGS false
                   (triangle 1 [0; 255; 0; 255] [2; 0; 0; 0]) w) in
  1%nat = numObjects (layer w) /\
  numObjects (layer w') = 2%nat /\
  portion_of (layer w') 1 = Some (3%nat, 3%nat) /\
  forall a, (a < 1)%nat -> portion_of (layer w') a = portion_of (layer w) a.
Proof.
  apply (createPortion_ids_are_sequential sample_RENDER_FLAGS false
           (snd (createPortion sample_RENDER_FLAGS false
                   (triangle 1 [255; 0; 0; 255] [1; 0; 0; 0]) (new_world 6)))
           (triangle 1 [0; 255; 0; 255] [2; 0; 0; 0]) 1
           (map of_Z [0; 0; 0; 1; 1; 0])).
  - apply reach_createPortion. apply (reach_new _ _ None). reflexivity.
  - vm_compute. reflexivity.
Defined.

(** X5: on a layer reached through the methods none of the six
    counters ([numVisibleObjects] ... [numTransparentObjects]) exceeds
    [numObjects]. *)
Theorem counters_never_exceed_numObjects (rf : RenderFlags) (big : bool) (w : World) :
  reachable rf big w ->
  Forall (fun n => (n <= numObjects (layer w))%nat) (counters (layer w)).
Proof. intros H. exact (proj2 (reachable_counts rf big w H)). Qed.

Lemma counters_never_exceed_numObjects_witness :
  Forall (fun n => (n <= numObjects (layer (world_two sample_RENDER_FLAGS)))%nat)
         (counters (layer (world_two sample_RENDER_FLAGS))).
Proof.
  apply (counters_never_exceed_numObjects sample_RENDER_FLAGS false).
  unfold world_two.
  apply reach_finalize, reach_createPortion, reach_createPortion.
  apply (reach_new _ _ None). reflexivity.
Defined.

(** ** Draw passes *)

Lemma draw_methods_ext (L L' : BatchingLayer) (R : Passes.Renderers) :
  numObjects L' = numObjects L -> counters L' = counters L ->
  Passes.draw_methods L' R = Passes.draw_methods L R.
Proof.
  intros Hn Hc. unfold counters in Hc.
  injection Hc as Hv Hg Hh Hs He Ht.
  unfold Passes.draw_methods, Passes.drawNormalFillOpaque, Passes.drawNormalEdgesOpaque,
    Passes.drawNormalFillTransparent, Passes.drawNormalTransparentEdges,
    Passes.drawGhostedFillOpaque, Passes.drawGhostedEdgesOpaque,
    Passes.drawGhostedFillTransparent, Passes.drawGhostedEdgesTransparent,
    Passes.drawHighlightedFillOpaque, Passes.drawHighlightedEdgesOpaque,
    Passes.drawHighlightedFillTransparent, Passes.drawHighlightedEdgesTransparent,
    Passes.drawSelectedFillOpaque, Passes.drawSelectedEdgesOpaque,
    Passes.drawSelectedFillTransparent, Passes.drawSelectedEdgesTransparent,
    Passes.drawPickMesh.
  rewrite Hn, Hv, Hg, Hh, Hs, He, Ht. reflexivity.
Qed.

(** X6: [setFlags], [setColor] and [setPickID] never change what the
    seventeen draw methods do: whether they return or throw, each draw
    method takes the same decision on the layer afterwards as before. *)
Theorem setters_never_change_what_is_drawn (rf : RenderFlags) (w : World) (R : Passes.Renderers)
    (portionId : nat) (v : Z) (color : list Z) :
  Passes.draw_methods (layer (snd (setFlags rf portionId v w))) R
  = Passes.draw_methods (layer w) R /\
  Passes.draw_methods (layer (snd (setColor portionId color w))) R
  = Passes.draw_methods (layer w) R /\
  Passes.draw_methods (layer (snd (setPickID portionId v w))) R
  = Passes.draw_methods (layer w) R.
Proof.
  destruct (setters_keep_layer_counts rf w portionId v color)
    as ((Hn1 & _ & Hc1) & (Hn2 & _ & Hc2) & (Hn3 & _ & Hc3)).
  repeat split; apply draw_methods_ext; assumption.
Qed.



(** X8: a layer reached through the methods that holds no object is
    drawn by none of the seventeen draw methods. *)
Theorem empty_layer_is_never_drawn (rf : RenderFlags) (big : bool) (w : World)
    (R : Passes.Renderers) :
  reachable rf big w ->
  numObjects (layer w) = 0%nat ->
  Forall (fun d => d = None) (Passes.draw_methods (layer w) R).
Proof.
  intros Hr H0.
  pose proof (proj2 (reachable_counts rf big w Hr)) as Hc.
  rewrite H0 in Hc. unfold counters in Hc.
  repeat match goal with
         | H : Forall _ (_ :: _) |- _ => apply Forall_cons_1 in H; destruct H as [? H]
         end.
  assert (Hv : numVisibleObjects (layer w) = 0%nat) by lia.
  assert (He : numEdgesObjects (layer w) = 0%nat) by lia.
  unfold Passes.draw_methods, Passes.drawNormalFillOpaque, Passes.drawNormalEdgesOpaque,
    Passes.drawNormalFillTransparent, Passes.drawNormalTransparentEdges,
    Passes.drawGhostedFillOpaque, Passes.drawGhostedEdgesOpaque,
    Passes.drawGhostedFillTransparent, Passes.drawGhostedEdgesTransparent,
    Passes.drawHighlightedFillOpaque, Passes.drawHighlightedEdgesOpaque,
    Passes.drawHighlightedFillTransparent, Passes.drawHighlightedEdgesTransparent,
    Passes.drawSelectedFillOpaque, Passes.drawSelectedEdgesOpaque,
    Passes.drawSelectedFillTransparent, Passes.drawSelectedEdgesTransparent,
    Passes.drawPickMesh.
  rewrite Hv, He. simpl. repeat constructor.
Qed.

Lemma empty_layer_is_never_drawn_witness :
  Forall (fun d => d = None)
    (Passes.draw_methods (layer (snd (finalize (new_world 3))))
       (Passes.mkRenderers true true true true)).
Proof.
  apply (empty_layer_is_never_drawn sample_RENDER_FLAGS false).
  - apply reach_finalize. apply (reach_new _ _ None). reflexivity.
  - reflexivity.
Defined.

(** ** What [createPortion] writes into the arena *)

(** A property that the start state has and every iteration keeps holds
    after the loop. *)
Lemma for_loop_invariant {S : Type} (P : S -> Prop) (lo hi step : nat)
    (body : nat -> S -> S) (s : S) :
  (0 < step)%nat ->
  P s ->
  (forall i acc, (lo <= i < hi)%nat -> P acc -> P (body i acc)) ->
  P (for_loop lo hi step body s).
Proof.
  intros Hstep Hs Hbody. unfold for_loop.
  assert (Hin : forall i, In i (for_range lo hi step) -> (lo <= i < hi)%nat).
  { intros i Hi. apply for_range_spec in Hi; [tauto|exact Hstep]. }
  revert s Hs Hin. generalize (for_range lo hi step).
  induction l as [|k l IH]; intros s Hs Hin; simpl; [exact Hs|].
  apply IH.
  - apply Hbody; [apply Hin; left; reflexivity|exact Hs].
  - intros i Hi. apply Hin. right. exact Hi.
Qed.

Lemma fill_vec4_below (lo hi : nat) (v0 v1 v2 v3 : Z) (a : list Z) (j : nat) :
  (j < lo)%nat -> fill_vec4 lo hi v0 v1 v2 v3 a !! j = a !! j.
Proof.
  intros Hj. unfold fill_vec4.
  apply (for_loop_invariant (fun acc => acc !! j = a !! j)); [lia|reflexivity|].
  intros i acc Hi Hacc.
  rewrite !list_lookup_insert_ne by lia. exact Hacc.
Qed.

Lemma append_indices_below (big : bool) (src : list Z) (vertsIndex len : nat) (dst : list Z)
    (j : nat) :
  (j < len)%nat -> append_indices big src vertsIndex len dst !! j = dst !! j.
Proof.
  intros Hj. unfold append_indices.
  apply (for_loop_invariant (fun acc => acc !! j = dst !! j)); [lia|reflexivity|].
  intros i acc Hi Hacc.
  rewrite list_lookup_insert_ne by lia. exact Hacc.
Qed.

Lemma append_positions_below (c : PortionCfg) (b : BatchingBuffer) (laabb : list num)
    (ps ab lab : list num) (j : nat) :
  append_positions c b laabb = Some (ps, ab, lab) ->
  (j < lenPositions b)%nat ->
  ps !! j = positions b !! j.
Proof.
  unfold append_positions, TypedArray_set.
  destruct (lenPositions b + length (cfg_positions c) <=? length (positions b))%nat;
    [|discriminate].
  intros H Hj. injection H as H.
  assert (Hinv : (fun st : list num * list num * list num => st.1.1 !! j = positions b !! j)
                   (ps, ab, lab)).
  { rewrite <- H.
    apply (for_loop_invariant
             (fun st : list num * list num * list num => st.1.1 !! j = positions b !! j)).
    - lia.
    - simpl. apply list_lookup_inserts_lt. exact Hj.
    - intros i [[p a1] a2] Hi Hacc. simpl in Hacc.
      destruct (cfg_matrix c); simpl; [|exact Hacc].
      rewrite !list_lookup_insert_ne by lia. exact Hacc. }
  exact Hinv.
Qed.

(** X9: [createPortion] only appends.  Whether it returns or throws,
    every element of the six arrays of the arena below the fill mark it
    found ([lenPositions], [lenColors], [lenFlags], [lenPickColors],
    [lenIndices], [lenEdgeIndices]) is what it was. *)
Theorem createPortion_keeps_earlier_data (rf : RenderFlags) (big : bool) (c : PortionCfg)
    (w : World) :
  let b := arena w in
  let b' := arena (snd (createPortion rf big c w)) in
  (forall j, (j < lenPositions b)%nat -> positions b' !! j = positions b !! j) /\
  (forall j, (j < lenColors b)%nat -> colors b' !! j = colors b !! j) /\
  (forall j, (j < lenFlags b)%nat -> flags b' !! j = flags b !! j) /\
  (forall j, (j < lenPickColors b)%nat -> pickColors b' !! j = pickColors b !! j) /\
  (forall j, (j < lenIndices b)%nat -> indices b' !! j = indices b !! j) /\
  (forall j, (j < lenEdgeIndices b)%nat -> edgeIndices b' !! j = edgeIndices b !! j).
Proof.
  unfold createPortion, claim_writer, bind, get, throw, put, ret; simpl.
  destruct (_finalized (layer w)); simpl; [repeat split; reflexivity|].
  destruct (currentBatchingLayer w) as [[|]|]; simpl.
  - destruct (append_positions c (arena w) (_aabb (layer w))) as [[[ps ab] lab]|] eqn:Happ;
      simpl; [|repeat split; reflexivity].
    split; [intros j Hj; exact (append_positions_below _ _ _ _ _ _ j Happ Hj)|].
    split; [intros j Hj; destruct (cfg_color c); [apply fill_vec4_below; exact Hj|reflexivity]|].
    split; [intros j Hj; destruct (cfg_flags c); simpl; [apply fill_vec4_below; exact Hj|reflexivity]|].
    split; [intros j Hj; apply fill_vec4_below; exact Hj|].
    split; [intros j Hj; destruct (cfg_indices c); [apply append_indices_below; exact Hj|reflexivity]|].
    intros j Hj; destruct (cfg_edgeIndices c); [apply append_indices_below; exact Hj|reflexivity].
  - repeat split; reflexivity.
  - destruct (append_positions c (arena w) (_aabb (layer w))) as [[[ps ab] lab]|] eqn:Happ;
      simpl; [|repeat split; reflexivity].
    split; [intros j Hj; exact (append_positions_below _ _ _ _ _ _ j Happ Hj)|].
    split; [intros j Hj; destruct (cfg_color c); [apply fill_vec4_below; exact Hj|reflexivity]|].
    split; [intros j Hj; destruct (cfg_flags c); simpl; [apply fill_vec4_below; exact Hj|reflexivity]|].
    split; [intros j Hj; apply fill_vec4_below; exact Hj|].
    split; [intros j Hj; destruct (cfg_indices c); [apply append_indices_below; exact Hj|reflexivity]|].
    intros j Hj; destruct (cfg_edgeIndices c); [apply append_indices_below; exact Hj|reflexivity].
Qed.

(** The arena after a call of [createPortion] that returns. *)
Lemma createPortion_arena (rf : RenderFlags) (big : bool) (c : PortionCfg) (w : World)
    (r : nat * list num) :
  fst (createPortion rf big c w) = Normal r ->
  let b := arena w in
  let b' := arena (snd (createPortion rf big c w)) in
  let n := (length (cfg_positions c) / 3)%nat in
  (colors b' = match cfg_color c with
               | Some color =>
                   fill_vec4 (lenColors b) (lenColors b + n * 4)
                     (color_byte color 0) (color_byte color 1) (color_byte color 2)
                     (color_byte color 3) (colors b)
               | None => colors b
               end /\
   lenColors b' = match cfg_color c with
                  | Some _ => (lenColors b + n * 4)%nat
                  | None => lenColors b
                  end) /\
  (flags b' = match cfg_flags c with
              | Some f =>
                  fill_vec4 (lenFlags b) (lenFlags b + n * 4)
                    (flag_byte f (VISIBLE rf)) (flag_byte f (GHOSTED rf))
                    (flag_byte f (HIGHLIGHTED rf)) (flag_byte f (CLIPPABLE rf)) (flags b)
              | None => flags b
              end /\
   lenFlags b' = match cfg_flags c with
                 | Some _ => (lenFlags b + n * 4)%nat
                 | None => lenFlags b
                 end) /\
  (pickColors b' = fill_vec4 (lenPickColors b) (lenPickColors b + n * 4)
                     (color_byte (cfg_pickColor c) 0) (color_byte (cfg_pickColor c) 1)
                     (color_byte (cfg_pickColor c) 2) (color_byte (cfg_pickColor c) 3)
                     (pickColors b) /\
   lenPickColors b' = (lenPickColors b + n * 4)%nat) /\
  (indices b' = match cfg_indices c with
                | Some idx => append_indices big idx (lenPositions b / 3) (lenIndices b) (indices b)
                | None => indices b
                end /\
   lenIndices b' = match cfg_indices c with
                   | Some idx => (lenIndices b + length idx)%nat
                   | None => lenIndices b
                   end) /\
  (edgeIndices b' = match cfg_edgeIndices c with
                    | Some idx =>
                        append_indices big idx (lenPositions b / 3) (lenEdgeIndices b) (edgeIndices b)
                    | None => edgeIndices b
                    end /\
   lenEdgeIndices b' = match cfg_edgeIndices c with
                       | Some idx => (lenEdgeIndices b + length idx)%nat
                       | None => lenEdgeIndices b
                       end) /\
  lenPositions b' = (lenPositions b + length (cfg_positions c))%nat /\
  _finalized (layer (snd (createPortion rf big c w))) = false.
Proof.
  unfold createPortion, claim_writer, bind, get, throw, put, ret; simpl.
  destruct (_finalized (layer w)) eqn:HF; simpl; [discriminate|].
  destruct (currentBatchingLayer w) as [[|]|]; simpl; try discriminate;
    destruct (append_positions c (arena w) (_aabb (layer w))) as [[[ps ab] lab]|]; simpl;
    try discriminate; intros _;
    destruct (cfg_flags c), (cfg_color c); simpl; repeat split; try reflexivity; exact HF.
Qed.

Lemma fill_vec4_at (lo n : nat) (v0 v1 v2 v3 : Z) (a : list Z) (j : nat) :
  (lo <= j < lo + n * 4)%nat -> (j < length a)%nat ->
  fill_vec4 lo (lo + n * 4) v0 v1 v2 v3 a !! j
  = [ToUint8 v0; ToUint8 v1; ToUint8 v2; ToUint8 v3] !! ((j - lo) mod 4)%nat.
Proof.
  intros Hj Hlen. unfold fill_vec4.
  rewrite (for_loop_as_blocks lo (lo + n * 4) 4 _
             (fun _ => [ToUint8 v0; ToUint8 v1; ToUint8 v2; ToUint8 v3])).
  - rewrite blocks_lookup by (auto; lia).
    destruct (decide _) as [_|H]; [reflexivity|].
    exfalso. apply H. split; [|exact Hlen]. split; [lia|].
    replace (lo + n * 4 - lo + (4 - 1))%nat with (3 + n * 4)%nat by lia.
    rewrite Nat.div_add by lia. simpl. lia.
  - intros k acc. rewrite inserts4. reflexivity.
Qed.

(** After [finalize], a buffer that has just been uploaded holds the
    filled part of the arena's array. *)
Lemma finalize_uploads (w : World) :
  _finalized (layer w) = false ->
  let s := _state (layer (snd (finalize w))) in
  let b := arena w in
  ((0 < lenColors b)%nat -> colorsBuf s = Some (mkArrayBuf (take (lenColors b) (colors b)) (lenColors b) 4)) /\
  ((0 < lenFlags b)%nat -> flagsBuf s = Some (mkArrayBuf (take (lenFlags b) (flags b)) (lenFlags b) 4)) /\
  ((0 < lenPickColors b)%nat ->
     pickColorsBuf s = Some (mkArrayBuf (take (lenPickColors b) (pickColors b)) (lenPickColors b) 4)) /\
  ((0 < lenIndices b)%nat ->
     indicesBuf s = Some (mkArrayBuf (take (lenIndices b) (indices b)) (lenIndices b) 1)) /\
  ((0 < lenEdgeIndices b)%nat ->
     edgeIndicesBuf s
     = Some (mkArrayBuf (take (lenEdgeIndices b) (edgeIndices b)) (lenEdgeIndices b) 1)).
Proof.
  intros HF. unfold finalize, bind, get, throw, put; simpl. rewrite HF; simpl.
  unfold upload, new_ArrayBuf.
  repeat split; intros H; apply Nat.ltb_lt in H; rewrite H; reflexivity.
Qed.

(** X10: the byte arrays stay in step with the positions.  If the
    arena holds whole vertices and four colour, flag and pick-colour
    bytes for each, it still does after a call of [createPortion] that
    returns, given whole vertices, a colour and flags. *)
Theorem arena_stays_in_step (rf : RenderFlags) (big : bool) (c : PortionCfg) (w : World)
    (r : nat * list num) :
  fst (createPortion rf big c w) = Normal r ->
  cfg_color c <> None ->
  cfg_flags c <> None ->
  (length (cfg_positions c) mod 3 = 0)%nat ->
  Layout.in_step (arena w) ->
  Layout.in_step (arena (snd (createPortion rf big c w))).
Proof.
  intros Hr Hcol Hfl Hlen (Hm & Hc & Hf & Hp).
  destruct (createPortion_arena rf big c w r Hr)
    as ((_ & Hc') & (_ & Hf') & (_ & Hp') & _ & _ & Hl' & _).
  destruct (cfg_color c); [|congruence]. destruct (cfg_flags c); [|congruence].
  unfold Layout.in_step. rewrite Hc', Hf', Hp', Hl', Hc, Hf, Hp.
  apply Nat.Div0.div_exact in Hm. apply Nat.Div0.div_exact in Hlen.
  set (x := (lenPositions (arena w) / 3)%nat) in *.
  set (y := (length (cfg_positions c) / 3)%nat) in *.
  assert (Hsum : (lenPositions (arena w) + length (cfg_positions c) = (x + y) * 3)%nat) by lia.
  rewrite Hsum, Nat.Div0.mod_mul, Nat.div_mul by lia.
  repeat split; lia.
Qed.

Lemma arena_stays_in_step_witness :
  Layout.in_step
    (arena (snd (createPortion sample_RENDER_FLAGS false
                   (triangle 1 [255; 0; 0; 255] [1; 0; 0; 0]) (new_world 6)))).
Proof.
  apply (arena_stays_in_step sample_RENDER_FLAGS false
           (triangle 1 [255; 0; 0; 255] [1; 0; 0; 0]) (new_world 6)
           (0%nat, map of_Z [0; 0; 0; 1; 1; 0])).
  - vm_compute. reflexivity.
  - discriminate.
  - discriminate.
  - reflexivity.
  - repeat split.
Defined.

(** X11: what [createPortion] was given is what [finalize] uploads.
    For a portion created with a colour and flags in an arena that is in
    step and has room, the colour, flag and pick-colour buffers made by
    [finalize] hold, at the four bytes of each vertex of the portion,
    the colour, the four flag bytes and the pick colour given. *)
Theorem created_portion_reaches_gpu (rf : RenderFlags) (big : bool) (c : PortionCfg)
    (w : World) (portionId : nat) (aabb : list num) (color : list Z) (f : Z) :
  reachable rf big w ->
  fst (createPortion rf big c w) = Normal (portionId, aabb) ->
  cfg_color c = Some color ->
  cfg_flags c = Some f ->
  Layout.in_step (arena w) ->
  Layout.has_room (arena w) (length (cfg_positions c) / 3) ->
  let w' := snd (finalize (snd (createPortion rf big c w))) in
  exists vertexBase numVerts,
    portion_of (layer w') portionId = Some (vertexBase, numVerts) /\
    numVerts = (length (cfg_positions c) / 3)%nat /\
    forall v k, (v < numVerts)%nat -> (k < 4)%nat ->
      buf_byte (colorsBuf (_state (layer w'))) ((vertexBase + v) * 4 + k)
      = Some (ToUint8 (color_byte color k)) /\
      buf_byte (flagsBuf (_state (layer w'))) ((vertexBase + v) * 4 + k)
      = [ flag_byte f (VISIBLE rf); flag_byte f (GHOSTED rf);
          flag_byte f (HIGHLIGHTED rf); flag_byte f (CLIPPABLE rf) ] !! k /\
      buf_byte (pickColorsBuf (_state (layer w'))) ((vertexBase + v) * 4 + k)
      = Some (ToUint8 (color_byte (cfg_pickColor c) k)).
Proof.
  intros Hreach Hr Hcol Hfl (Hm & Hc & Hf & Hp) (Rc & Rf & Rp) w'.
  set (w1 := snd (createPortion rf big c w)) in *.
  set (vb := (lenPositions (arena w) / 3)%nat) in *.
  set (n := (length (cfg_positions c) / 3)%nat) in *.
  destruct (createPortion_ids_sequential_aux rf big w c portionId aabb Hreach Hr) as (_ & _ & Hpo & _).
  destruct (createPortion_arena rf big c w _ Hr)
    as ((Ec & Lc) & (Ef & Lf) & (Ep & Lp) & _ & _ & _ & HF1).
  fold w1 in Ec, Lc, Ef, Lf, Ep, Lp, HF1, Hpo. fold n in Ec, Lc, Ef, Lf, Ep, Lp. fold vb n in Hpo.
  rewrite Hcol in Ec, Lc. rewrite Hfl in Ef, Lf.
  exists vb, n. split; [|split; [reflexivity|]].
  - unfold w'. unfold portion_of. rewrite finalize_portions. exact Hpo.
  - intros v k Hv Hk.
    destruct (finalize_uploads w1 HF1) as (Uc & Uf & Up & _).
    fold w' in Uc, Uf, Up.
    rewrite Uc, Uf, Up by lia. simpl.
    rewrite Lc, Lf, Lp, !lookup_take_lt by lia.
    rewrite Ec, Ef, Ep, Hc, Hf, Hp.
    rewrite !fill_vec4_at by (fold vb; lia).
    fold vb. replace ((vb + v) * 4 + k - vb * 4)%nat with (k + v * 4)%nat by lia.
    rewrite Nat.Div0.mod_add, Nat.mod_small by exact Hk.
    assert (Hfb : forall m, ToUint8 (flag_byte f m) = flag_byte f m).
    { intros m. unfold flag_byte. destruct (Z.land f m =? 0); reflexivity. }
    rewrite !Hfb.
    destruct k as [|[|[|[|k]]]]; try lia; repeat split; reflexivity.
Qed.

Lemma created_portion_reaches_gpu_witness :
  let c := triangle 1 [255; 0; 0; 255] [1; 0; 0; 0] in
  let w' := snd (finalize (snd (createPortion sample_RENDER_FLAGS false c (new_world 3)))) in
  exists vertexBase numVerts,
    portion_of (layer w') 0 = Some (vertexBase, numVerts) /\
    numVerts = (length (cfg_positions c) / 3)%nat /\
    forall v k, (v < numVerts)%nat -> (k < 4)%nat ->
      buf_byte (colorsBuf (_state (layer w'))) ((vertexBase + v) * 4 + k)
      = Some (ToUint8 (color_byte [255; 0; 0; 255] k)) /\
      buf_byte (flagsBuf (_state (layer w'))) ((vertexBase + v) * 4 + k)
      = [ flag_byte 1 (VISIBLE sample_RENDER_FLAGS); flag_byte 1 (GHOSTED sample_RENDER_FLAGS);
          flag_byte 1 (HIGHLIGHTED sample_RENDER_FLAGS);
          flag_byte 1 (CLIPPABLE sample_RENDER_FLAGS) ] !! k /\
      buf_byte (pickColorsBuf (_state (layer w'))) ((vertexBase + v) * 4 + k)
      = Some (ToUint8 (color_byte (cfg_pickColor c) k)).
Proof.
  apply (created_portion_reaches_gpu sample_RENDER_FLAGS false
           (triangle 1 [255; 0; 0; 255] [1; 0; 0; 0]) (new_world 3) 0
           (map of_Z [0; 0; 0; 1; 1; 0]) [255; 0; 0; 255] 1).
  - apply (reach_new _ _ None). reflexivity.
  - vm_compute. reflexivity.
  - reflexivity.
  - reflexivity.
  - repeat split.
  - repeat split; simpl; lia.
Defined.

(** ** Indices *)

Lemma for_range_unit (m : nat) : for_range 0 m 1 = seq 0 m.
Proof.
  unfold for_range. rewrite Nat.sub_0_r, Nat.add_0_r, Nat.div_1_r.
  rewrite <- (map_id (seq 0 m)) at 2. apply map_ext. intros k. lia.
Qed.

Lemma append_indices_length (big : bool) (src : list Z) (vertsIndex len : nat) (dst : list Z) :
  length (append_indices big src vertsIndex len dst) = length dst.
Proof.
  unfold append_indices.
  apply (for_loop_invariant (fun acc => length acc = length dst)); [lia|reflexivity|].
  intros i acc _ H. rewrite length_insert. exact H.
Qed.

Lemma append_indices_at (big : bool) (src : list Z) (vertsIndex len : nat) (dst : list Z)
    (i : nat) (x : Z) :
  src !! i = Some x ->
  (len + i < length dst)%nat ->
  append_indices big src vertsIndex len dst !! (len + i)%nat
  = Some (ToIndex big (x + Z.of_nat vertsIndex)).
Proof.
  intros Hx Hlen.
  assert (Hi : (i < length src)%nat) by (apply lookup_lt_is_Some; eauto).
  pose proof (append_indices_length big src vertsIndex len dst) as HL.
  revert HL. unfold append_indices, for_loop. rewrite for_range_unit.
  revert Hi. generalize (length src). intros m.
  induction m as [|m IH]; intros Hi HL; [lia|].
  revert HL. rewrite seq_S, foldl_app. simpl. rewrite length_insert. intros HL.
  destruct (Nat.eq_dec i m) as [->|Hne].
  - rewrite Hx. simpl. apply list_lookup_insert_eq. rewrite HL. exact Hlen.
  - rewrite list_lookup_insert_ne by lia. apply IH; [lia|exact HL].
Qed.

(** X12: [createPortion] rebases indices.  A call that returns appends
    the given indices and edge indices to the arena, each increased by
    the number of vertices the arena held before and then stored in the
    index array (taken modulo 2^16 without 32-bit indices); as long as
    the sum is below 2^16 it is stored as it is. *)
Theorem createPortion_rebases_indices (rf : RenderFlags) (big : bool) (c : PortionCfg)
    (w : World) (r : nat * list num) :
  fst (createPortion rf big c w) = Normal r ->
  let b := arena w in
  let b' := arena (snd (createPortion rf big c w)) in
  let vertsIndex := Z.of_nat (lenPositions b / 3) in
  (forall idx, cfg_indices c = Some idx ->
     lenIndices b' = (lenIndices b + length idx)%nat /\
     forall i x, idx !! i = Some x -> (lenIndices b + i < length (indices b))%nat ->
       indices b' !! (lenIndices b + i)%nat = Some (ToIndex big (x + vertsIndex)) /\
       (0 <= x + vertsIndex < 65536 ->
        indices b' !! (lenIndices b + i)%nat = Some (x + vertsIndex))) /\
  (forall idx, cfg_edgeIndices c = Some idx ->
     lenEdgeIndices b' = (lenEdgeIndices b + length idx)%nat /\
     forall i x, idx !! i = Some x -> (lenEdgeIndices b + i < length (edgeIndices b))%nat ->
       edgeIndices b' !! (lenEdgeIndices b + i)%nat = Some (ToIndex big (x + vertsIndex)) /\
       (0 <= x + vertsIndex < 65536 ->
        edgeIndices b' !! (lenEdgeIndices b + i)%nat = Some (x + vertsIndex))).
Proof.
  intros Hr b b' vertsIndex.
  destruct (createPortion_arena rf big c w r Hr) as (_ & _ & _ & (Ei & Li) & (Ee & Le) & _).
  fold b b' in Ei, Li, Ee, Le.
  assert (Hmod : forall z, 0 <= z < 65536 -> ToIndex big z = z).
  { intros z Hz. unfold ToIndex. destruct big; apply Z.mod_small; lia. }
  split; intros idx Hidx.
  - rewrite Hidx in Ei, Li. split; [exact Li|].
    intros i x Hx Hroom. rewrite Ei.
    rewrite (append_indices_at big idx _ _ _ i x Hx Hroom).
    split; [reflexivity|]. intros Hz. unfold vertsIndex in Hz. rewrite (Hmod _ Hz). reflexivity.
  - rewrite Hidx in Ee, Le. split; [exact Le|].
    intros i x Hx Hroom. rewrite Ee.
    rewrite (append_indices_at big idx _ _ _ i x Hx Hroom).
    split; [reflexivity|]. intros Hz. unfold vertsIndex in Hz. rewrite (Hmod _ Hz). reflexivity.
Qed.

Lemma createPortion_rebases_indices_witness :
  let w := snd (createPortion sample_RENDER_FLAGS false
                  (triangle 1 [255; 0; 0; 255] [1; 0; 0; 0]) (new_world 6)) in
  let c := triangle 1 [0; 255; 0; 255] [2; 0; 0; 0] in
  let b := arena w in
  let b' := arena (snd (createPortion sample_RENDER_FLAGS false c w)) in
  let vertsIndex := Z.of_nat (lenPositions b / 3) in
  (forall idx, cfg_indices c = Some idx ->
     lenIndices b' = (lenIndices b + length idx)%nat /\
     forall i x, idx !! i = Some x -> (lenIndices b + i < length (indices b))%nat ->
       indices b' !! (lenIndices b + i)%nat = Some (ToIndex false (x + vertsIndex)) /\
       (0 <= x + vertsIndex < 65536 ->
        indices b' !! (lenIndices b + i)%nat = Some (x + vertsIndex))) /\
  (forall idx, cfg_edgeIndices c = Some idx ->
     lenEdgeIndices b' = (lenEdgeIndices b + length idx)%nat /\
     forall i x, idx !! i = Some x -> (lenEdgeIndices b + i < length (edgeIndices b))%nat ->
       edgeIndices b' !! (lenEdgeIndices b + i)%nat = Some (ToIndex false (x + vertsIndex)) /\
       (0 <= x + vertsIndex < 65536 ->
        edgeIndices b' !! (lenEdgeIndices b + i)%nat = Some (x + vertsIndex))).
Proof.
  apply (createPortion_rebases_indices sample_RENDER_FLAGS false
           (triangle 1 [0; 255; 0; 255] [2; 0; 0; 0])
           (snd (createPortion sample_RENDER_FLAGS false
                   (triangle 1 [255; 0; 0; 255] [1; 0; 0; 0]) (new_world 6)))
           (1%nat, map of_Z [0; 0; 0; 1; 1; 0])).
  vm_compute. reflexivity.
Defined.

(** ** What [canCreatePortion] allows *)

(** X13: what [canCreatePortion] allows, [createPortion] does.  On a
    layer whose arena has room for [maxVerts] vertices, if
    [canCreatePortion (n)] returns [true] and no other layer is packing,
    [createPortion] with [n] position components returns a portion, whose
    ID is the number of portions created so far, and the arena then holds
    [n] more position components. *)
Theorem createPortion_succeeds_when_allowed (rf : RenderFlags) (big : bool) (c : PortionCfg)
    (w : World) :
  fst (canCreatePortion (length (cfg_positions c)) w) = Normal true ->
  currentBatchingLayer w <> Some OtherLayer ->
  length (positions (arena w)) = (maxVerts (arena w) * 3)%nat ->
  (exists aabb,
     fst (createPortion rf big c w)
     = Normal ((length (_portions (layer w)) / 2)%nat, aabb)) /\
  lenPositions (arena (snd (createPortion rf big c w)))
  = (lenPositions (arena w) + length (cfg_positions c))%nat.
Proof.
  intros Hcan Hc Hlen.
  unfold canCreatePortion, bind, get, throw, ret in Hcan. simpl in Hcan.
  destruct (_finalized (layer w)) eqn:HF; [discriminate|].
  simpl in Hcan. injection Hcan as Hcan. apply Nat.ltb_lt in Hcan.
  assert (Hfit : (lenPositions (arena w) + length (cfg_positions c)
                  <= length (positions (arena w)))%nat) by lia.
  destruct (createPortion_returns rf big c w HF Hc Hfit) as [aabb Hr].
  split.
  - exists aabb. exact Hr.
  - exact (createPortion_lenPositions rf big c w _ Hr).
Qed.

Lemma createPortion_succeeds_when_allowed_witness :
  let c := triangle 1 [255; 0; 0; 255] [1; 0; 0; 0] in
  let w := new_world 6 in
  (exists aabb,
     fst (createPortion sample_RENDER_FLAGS false c w)
     = Normal ((length (_portions (layer w)) / 2)%nat, aabb)) /\
  lenPositions (arena (snd (createPortion sample_RENDER_FLAGS false c w)))
  = (lenPositions (arena w) + length (cfg_positions c))%nat.
Proof.
  apply (createPortion_succeeds_when_allowed sample_RENDER_FLAGS false
           (triangle 1 [255; 0; 0; 255] [1; 0; 0; 0]) (new_world 6)).
  - reflexivity.
  - discriminate.
  - reflexivity.
Defined.

(** ** Tearing the layer down *)


(** * Further properties of the quantizers *)

(** ** An axis of zero extent, in IEEE arithmetic *)

(** The extent of an axis whose bounds are the same finite number is
    [+0]. *)
Lemma IEEE_sub_self (x : IEEE.double) :
  IEEE.is_finite x = true -> IEEE.sub x x = S754_zero false.
Proof.
  destruct x as [s|s| |s m e]; try discriminate; intros _.
  - destruct s; reflexivity.
  - unfold IEEE.sub, SFsub. rewrite Z.min_id.
    unfold shl_align. rewrite Z.sub_diag. cbn [fst].
    destruct s; cbn [cond_Zopp negb]; rewrite ?Z.add_opp_diag_r, ?Z.add_opp_diag_l; reflexivity.
Qed.

Lemma IEEE_store_of_infinite_scale (x : IEEE.double) (sg : bool) :
  IEEE.ToUint16 (IEEE.Math_floor (IEEE.mul x (S754_infinity sg))) = 0.
Proof. destruct x; reflexivity. Qed.

Lemma IEEE_quantizeVec3_lookup (array mn mx : list IEEE.double) (j : nat) :
  (j < length array)%nat ->
  IEEE.Geometry.compressed (IEEE.Geometry.quantizeVec3 array mn mx) !! j
  = Some (IEEE.ToUint16 (IEEE.Math_floor
            (IEEE.mul (IEEE.sub (IEEE.getnum array j) (IEEE.getnum mn (j mod 3)))
                      (IEEE.getnum (IEEE.Geometry.multiplier mn mx) (j mod 3))))).
Proof.
  intros Hj. unfold IEEE.Geometry.quantizeVec3. simpl IEEE.Geometry.compressed.
  set (g := fun (a i : nat) =>
         IEEE.ToUint16 (IEEE.Math_floor
           (IEEE.mul (IEEE.sub (IEEE.getnum array i) (IEEE.getnum mn a))
                     (IEEE.getnum (IEEE.Geometry.multiplier mn mx) a)))).
  rewrite (for_loop_as_blocks 0 (length array) 3 _
             (fun k => [g 0%nat (0 + k * 3)%nat; g 1%nat (0 + k * 3 + 1)%nat;
                        g 2%nat (0 + k * 3 + 2)%nat])).
  - rewrite blocks_lookup by (auto; lia).
    destruct (decide _) as [_|H].
    + apply (stride3_block g).
    + exfalso. apply H. rewrite length_replicate. split; [|exact Hj].
      split; [lia|apply stride3_cover; exact Hj].
  - intros k acc. rewrite inserts3. reflexivity.
Qed.

Lemma IEEE_quantizePositions_lookup (positions aabb : list IEEE.double) (n : nat)
    (qp : list Z) (j : nat) :
  (j < n)%nat -> (n <= length qp)%nat ->
  fst (IEEE.BatchingQuantize.quantizePositions positions n aabb qp) !! j
  = Some (IEEE.ToUint16 (IEEE.Math_floor
            (IEEE.mul (IEEE.sub (IEEE.getnum positions j) (IEEE.getnum aabb (j mod 3)))
                      (IEEE.div (IEEE.of_Z IEEE.BatchingQuantize.maxInt)
                         (IEEE.sub (IEEE.getnum aabb (3 + j mod 3)) (IEEE.getnum aabb (j mod 3))))))).
Proof.
  intros Hj Hn. unfold IEEE.BatchingQuantize.quantizePositions. simpl fst.
  set (g := fun (a i : nat) =>
         IEEE.ToUint16 (IEEE.Math_floor
           (IEEE.mul (IEEE.sub (IEEE.getnum positions i) (IEEE.getnum aabb a))
                     (IEEE.div (IEEE.of_Z IEEE.BatchingQuantize.maxInt)
                        (IEEE.sub (IEEE.getnum aabb (3 + a)) (IEEE.getnum aabb a)))))).
  rewrite (for_loop_as_blocks 0 n 3 _
             (fun k => [g 0%nat (0 + k * 3)%nat; g 1%nat (0 + k * 3 + 1)%nat;
                        g 2%nat (0 + k * 3 + 2)%nat])).
  - rewrite blocks_lookup by (auto; lia).
    destruct (decide _) as [_|H].
    + apply (stride3_block g).
    + exfalso. apply H. split; [|lia].
      split; [lia|apply stride3_cover; exact Hj].
  - intros k acc. rewrite inserts3. reflexivity.
Qed.

Lemma IEEE_getnum_lookup (l : list IEEE.double) (k : nat) (x : IEEE.double) :
  l !! k = Some x -> IEEE.getnum l k = x.
Proof. intros H. unfold IEEE.getnum. rewrite H. reflexivity. Qed.

(** X15: what the two quantizers do on an axis of zero extent, in IEEE
    arithmetic.  When [max - min] is a zero on an axis, the multiplier of
    that axis is the infinity of the same sign (65535 / 0 and 65525 / 0
    are not guarded), the scaled coordinate is an infinity or [NaN], and
    every component on that axis is stored as 0, whatever the
    coordinates are. *)
Theorem quantizers_store_zero_on_flat_axis (array mn mx aabb : list IEEE.double)
    (qp : list Z) (k : nat) (lo hi : IEEE.double) (sg : bool) :
  (k < 3)%nat ->
  mn !! k = Some lo -> mx !! k = Some hi ->
  aabb !! k = Some lo -> aabb !! (3 + k)%nat = Some hi ->
  IEEE.sub hi lo = S754_zero sg ->
  (length array <= length qp)%nat ->
  IEEE.getnum (IEEE.Geometry.multiplier mn mx) k = S754_infinity sg /\
  (forall j, (j < length array)%nat -> (j mod 3)%nat = k ->
     IEEE.Geometry.compressed (IEEE.Geometry.quantizeVec3 array mn mx) !! j = Some 0) /\
  (forall j, (j < length array)%nat -> (j mod 3)%nat = k ->
     fst (IEEE.BatchingQuantize.quantizePositions array (length array) aabb qp) !! j = Some 0).
Proof.
  intros Hk Hlo Hhi Hlo' Hhi' E Hn.
  assert (Hm : IEEE.getnum (IEEE.Geometry.multiplier mn mx) k = S754_infinity sg).
  { destruct k as [|[|[|k]]]; try lia;
      [ change (IEEE.getnum (IEEE.Geometry.multiplier mn mx) 0)
          with (IEEE.fround (IEEE.div (IEEE.of_Z 65535)
                               (IEEE.sub (IEEE.getnum mx 0) (IEEE.getnum mn 0))))
      | change (IEEE.getnum (IEEE.Geometry.multiplier mn mx) 1)
          with (IEEE.fround (IEEE.div (IEEE.of_Z 65535)
                               (IEEE.sub (IEEE.getnum mx 1) (IEEE.getnum mn 1))))
      | change (IEEE.getnum (IEEE.Geometry.multiplier mn mx) 2)
          with (IEEE.fround (IEEE.div (IEEE.of_Z 65535)
                               (IEEE.sub (IEEE.getnum mx 2) (IEEE.getnum mn 2)))) ];
      rewrite (IEEE_getnum_lookup _ _ _ Hlo), (IEEE_getnum_lookup _ _ _ Hhi), E;
      destruct sg; reflexivity. }
  split; [exact Hm|split].
  - intros j Hj Hjk. rewrite IEEE_quantizeVec3_lookup by exact Hj.
    rewrite Hjk, Hm. rewrite IEEE_store_of_infinite_scale. reflexivity.
  - intros j Hj Hjk. rewrite IEEE_quantizePositions_lookup by assumption.
    rewrite Hjk, (IEEE_getnum_lookup _ _ _ Hlo'), (IEEE_getnum_lookup _ _ _ Hhi'), E.
    replace (IEEE.div (IEEE.of_Z IEEE.BatchingQuantize.maxInt) (S754_zero sg))
      with (S754_infinity sg) by (destruct sg; reflexivity).
    rewrite IEEE_store_of_infinite_scale. reflexivity.
Qed.

(** A triangle in the plane [z = 0], quantized between the bounds that
    [getBounds] finds for it. *)
Lemma quantizers_store_zero_on_flat_axis_witness :
  let array := map IEEE.of_Z [0; 0; 0;  1; 2; 0;  4; 1; 0] in
  let mn := fst (IEEE.Geometry.getBounds array 3) in
  let mx := snd (IEEE.Geometry.getBounds array 3) in
  IEEE.getnum (IEEE.Geometry.multiplier mn mx) 2 = S754_infinity false /\
  (forall j, (j < length array)%nat -> (j mod 3)%nat = 2%nat ->
     IEEE.Geometry.compressed (IEEE.Geometry.quantizeVec3 array mn mx) !! j = Some 0) /\
  (forall j, (j < length array)%nat -> (j mod 3)%nat = 2%nat ->
     fst (IEEE.BatchingQuantize.quantizePositions array (length array) (mn ++ mx)
            (replicate 9 0)) !! j = Some 0).
Proof.
  apply (quantizers_store_zero_on_flat_axis
           (map IEEE.of_Z [0; 0; 0;  1; 2; 0;  4; 1; 0])
           (fst (IEEE.Geometry.getBounds (map IEEE.of_Z [0; 0; 0;  1; 2; 0;  4; 1; 0]) 3))
           (snd (IEEE.Geometry.getBounds (map IEEE.of_Z [0; 0; 0;  1; 2; 0;  4; 1; 0]) 3))
           (fst (IEEE.Geometry.getBounds (map IEEE.of_Z [0; 0; 0;  1; 2; 0;  4; 1; 0]) 3)
            ++ snd (IEEE.Geometry.getBounds (map IEEE.of_Z [0; 0; 0;  1; 2; 0;  4; 1; 0]) 3))
           (replicate 9 0) 2 (S754_zero false) (S754_zero false) false);
    vm_compute; reflexivity.
Defined.

(** ** What [quantizePositions] leaves alone *)

(** X16: [quantizePositions] writes the filled part of the arena only.
    Given the fill mark [lenPositions], a whole number of vertices, it
    keeps the length of [quantizedPositions] and leaves every element at
    or beyond [lenPositions] as it was. *)
Theorem quantizePositions_writes_filled_part_only (positions aabb : list IEEE.double)
    (n : nat) (qp : list Z) :
  (n mod 3 = 0)%nat ->
  length (fst (IEEE.BatchingQuantize.quantizePositions positions n aabb qp)) = length qp /\
  forall j, (n <= j)%nat ->
    fst (IEEE.BatchingQuantize.quantizePositions positions n aabb qp) !! j = qp !! j.
Proof.
  intros Hn. unfold IEEE.BatchingQuantize.quantizePositions. simpl fst.
  set (g := fun (a i : nat) =>
         IEEE.ToUint16 (IEEE.Math_floor
           (IEEE.mul (IEEE.sub (IEEE.getnum positions i) (IEEE.getnum aabb a))
                     (IEEE.div (IEEE.of_Z IEEE.BatchingQuantize.maxInt)
                        (IEEE.sub (IEEE.getnum aabb (3 + a)) (IEEE.getnum aabb a)))))).
  rewrite (for_loop_as_blocks 0 n 3 _
             (fun k => [g 0%nat (0 + k * 3)%nat; g 1%nat (0 + k * 3 + 1)%nat;
                        g 2%nat (0 + k * 3 + 2)%nat]))
    by (intros k acc; rewrite inserts3; reflexivity).
  split; [apply blocks_length|].
  intros j Hj. rewrite blocks_lookup by (auto; lia).
  destruct (decide _) as [H|_]; [|reflexivity].
  exfalso. destruct H as [[_ H] _].
  replace (n - 0 + (3 - 1))%nat with (n + 2)%nat in H by lia.
  pose proof (Nat.div_mod_eq (n + 2) 3) as E. pose proof (Nat.div_mod_eq n 3) as E'.
  assert (((n + 2) mod 3) = 2)%nat.
  { rewrite <- Nat.Div0.add_mod_idemp_l, Hn. reflexivity. }
  lia.
Qed.

Lemma quantizePositions_writes_filled_part_only_witness :
  let r := IEEE.BatchingQuantize.quantizePositions
             (map IEEE.of_Z [0; 0; 0;  15; 15; 15]) 3
             (map IEEE.of_Z [0; 0; 0; 15; 15; 15]) [7; 7; 7; 7; 7; 7] in
  length (fst r) = 6%nat /\
  forall j, (3 <= j)%nat -> fst r !! j = [7; 7; 7; 7; 7; 7] !! j.
Proof.
  apply (quantizePositions_writes_filled_part_only
           (map IEEE.of_Z [0; 0; 0;  15; 15; 15]) (map IEEE.of_Z [0; 0; 0; 15; 15; 15])
           3 [7; 7; 7; 7; 7; 7]).
  reflexivity.
Defined.

(** ** Below the minimum *)

(** A number from -1 up to, but not including, 0 is floored to -1, which
    an unsigned 16-bit element holds as 65535. *)
Lemma IEEE_store_of_small_negative (x : IEEE.double) (q : Q) :
  IEEE.to_Q x = Some q -> (-1 <= q)%Q -> (q < 0)%Q ->
  IEEE.ToUint16 (IEEE.Math_floor x) = 65535.
Proof.
  intros Hx Hlo Hhi.
  destruct x as [s|s| |s m e]; try discriminate.
  - injection Hx as <-. exfalso. revert Hhi. unfold Qlt. simpl. lia.
  - assert (Hf : IEEE.floor_of s m e = -1).
    { unfold IEEE.to_Q in Hx. unfold IEEE.floor_of.
      destruct e as [|p|p]; injection Hx as <-;
        unfold Qle, Qlt, inject_Z in Hlo, Hhi; cbn [Qnum Qden] in Hlo, Hhi;
        rewrite ?Z.mul_1_r in Hlo, Hhi.
      - rewrite Z.shiftl_0_r. lia.
      - rewrite Z.shiftl_mul_pow2 by lia.
        assert (0 < 2 ^ Z.pos p) by (apply Z.pow_pos_nonneg; lia).
        destruct s; cbn [cond_Zopp] in *; nia.
      - rewrite Z.shiftr_div_pow2 by lia.
        assert (P : Z.pos (2 ^ p) = 2 ^ Z.pos p) by (rewrite Pos2Z.inj_pow; reflexivity).
        rewrite P in Hlo.
        assert (0 < 2 ^ Z.pos p) by (apply Z.pow_pos_nonneg; lia).
        destruct s; cbn [cond_Zopp] in *; [|lia].
        symmetry. apply (Z.div_unique _ _ _ (2 ^ Z.pos p - Z.pos m)); lia. }
    unfold IEEE.Math_floor. rewrite Hf. destruct s; reflexivity.
Qed.

(** X17: [quantizeVec3] wraps what lies below the minimum it is given.
    Whenever the scaled offset of a coordinate, computed as the engine
    computes it, is a number from -1 up to but not including 0 - the
    coordinate is just below [min] - the component is stored as 65535,
    the code of the maximum, and not as 0. *)
Theorem quantizeVec3_wraps_below_min (array mn mx : list IEEE.double) (j : nat) (q : Q) :
  (j < length array)%nat ->
  IEEE.to_Q (IEEE.mul (IEEE.sub (IEEE.getnum array j) (IEEE.getnum mn (j mod 3)))
                      (IEEE.getnum (IEEE.Geometry.multiplier mn mx) (j mod 3))) = Some q ->
  (-1 <= q)%Q -> (q < 0)%Q ->
  IEEE.Geometry.compressed (IEEE.Geometry.quantizeVec3 array mn mx) !! j = Some 65535.
Proof.
  intros Hj Hq Hlo Hhi. rewrite IEEE_quantizeVec3_lookup by exact Hj.
  rewrite (IEEE_store_of_small_negative _ q Hq Hlo Hhi). reflexivity.
Qed.

Lemma quantizeVec3_wraps_below_min_witness :
  let bounds := IEEE.Geometry.getBounds documented_triangle 3 in
  IEEE.Geometry.compressed
    (IEEE.Geometry.quantizeVec3 documented_triangle (fst bounds) (snd bounds)) !! 3%nat
  = Some 65535.
Proof.
  apply (quantizeVec3_wraps_below_min documented_triangle
           (fst (IEEE.Geometry.getBounds documented_triangle 3))
           (snd (IEEE.Geometry.getBounds documented_triangle 3)) 3
           (-8006277749707640 # 9223372036854775808)).
  - vm_compute. lia.
  - vm_compute. reflexivity.
  - vm_compute. discriminate.
  - vm_compute. reflexivity.
Defined.

(** * Properties of the class [Geometry] *)

Section GeometryProofs.

Import GeometryClass.

Variable bigIndicesSupported : bool.
Variable identityMat3 : list IEEE.double.
Variable translationMat3v : list IEEE.double -> list IEEE.double -> list IEEE.double.
Variable scalingMat3v : list IEEE.double -> list IEEE.double -> list IEEE.double.
Variable mulMat3 : list IEEE.double -> list IEEE.double -> list IEEE.double.
Variable decompressPositions : TypedArray -> option (list IEEE.double) -> list IEEE.double.
Variable AABB3 : list IEEE.double.
Variable positions3ToAABB3 : option TypedArray -> list IEEE.double -> option (list IEEE.double) -> list IEEE.double.
Variable OBB3 : list IEEE.double.
Variable AABB3ToOBB3 : list IEEE.double -> list IEEE.double -> list IEEE.double.

Local Abbreviation constructor :=
  (constructor bigIndicesSupported identityMat3 translationMat3v scalingMat3v mulMat3 AABB3).
Local Abbreviation call := (call decompressPositions AABB3 positions3ToAABB3 OBB3 AABB3ToOBB3).
Local Abbreviation get_aabb := (get_aabb AABB3 positions3ToAABB3).
Local Abbreviation get_obb := (get_obb positions3ToAABB3 OBB3 AABB3ToOBB3).
Local Abbreviation get_positions := (get_positions decompressPositions).

Section Undisturbed.

Variable x : option (list IEEE.double) * bool * option (list IEEE.double) * bool * option (list IEEE.double) * bool * list IEEE.double.

Lemma undisturbed_set_state (s : State) (g : Geometry) :
  undisturbed x g -> undisturbed x (set_state s g).
Proof. intros [P Q]. split; [exact P|exact Q]. Qed.

Lemma undisturbed_log (e : Effect) (g : Geometry) :
  e <> Fire "boundary" -> undisturbed x g -> undisturbed x (log e g).
Proof.
  intros He [P Q]. split; [exact P|]. unfold quiet in *. simpl. intros Hin.
  apply in_app_or in Hin. destruct Hin as [Hin|[Hin|[]]]; [exact (Q Hin)|].
  exact (He Hin).
Qed.

Lemma undisturbed_when (b : bool) (f : Geometry -> Geometry) (g : Geometry) :
  (forall g', undisturbed x g' -> undisturbed x (f g')) ->
  undisturbed x g -> undisturbed x (when b f g).
Proof. intros Hf Hg. unfold when. destruct b; [apply Hf; exact Hg|exact Hg]. Qed.

Lemma undisturbed_errors (errors : list string) (g : Geometry) :
  undisturbed x g -> undisturbed x (fold_left (fun g msg => log (Error msg) g) errors g).
Proof.
  revert g. induction errors as [|m l IH]; intros g Hg; simpl; [exact Hg|].
  apply IH. apply undisturbed_log; [discriminate|exact Hg].
Qed.

Ltac undisturbed_step :=
  match goal with
  | |- undisturbed _ (set_state _ _) => apply undisturbed_set_state
  | |- undisturbed _ (log _ _) => apply undisturbed_log; [discriminate|]
  | |- undisturbed _ (when _ _ _) => apply undisturbed_when; [intros ? ?|]
  | |- undisturbed _ (new_ArrayBuf _ _ _) => unfold new_ArrayBuf
  | |- undisturbed _ (fold_left _ _ _) => apply undisturbed_errors
  | |- undisturbed _ (match ?c with _ => _ end) => destruct c
  | |- undisturbed _ _ => assumption
  end.

Lemma undisturbed_buildHash (g : Geometry) :
  undisturbed x g -> undisturbed x (_buildHash g).
Proof. intros H. unfold _buildHash. cbv zeta. repeat undisturbed_step. Qed.

Lemma undisturbed_buildVBOs (g : Geometry) :
  undisturbed x g -> undisturbed x (_buildVBOs g).
Proof. intros H. unfold _buildVBOs. cbv zeta. repeat undisturbed_step. Qed.

Lemma undisturbed_constructor_tail (g : Geometry) :
  undisturbed x g -> undisturbed x (constructor_tail g).
Proof.
  intros H. unfold constructor_tail. cbv zeta.
  apply undisturbed_log; [discriminate|].
  apply undisturbed_buildVBOs.
  apply undisturbed_when; [intros g' Hg'; apply undisturbed_log; [discriminate|exact Hg']|].
  apply undisturbed_buildHash.
  repeat undisturbed_step.
Qed.

End Undisturbed.

(** What the constructor leaves in the private fields, whatever [cfg]
    holds: everything is dirty, nothing is cached, and no "boundary"
    event has been fired. *)
Lemma constructor_private (cfg : Cfg) :
  undisturbed (None, true, None, true, None, true, AABB3) (constructor cfg).
Proof.
  unfold GeometryClass.constructor.
  assert (H0 : undisturbed (None, true, None, true, None, true, AABB3) (new_Geometry AABB3 cfg)).
  { split; [reflexivity|]. intros []. }
  revert H0. generalize (new_Geometry AABB3 cfg). intros g Hg.
  assert (H1 : undisturbed (None, true, None, true, None, true, AABB3) (init_primitive cfg g)).
  { unfold init_primitive.
    destruct (Geometry.init_primitive (cfg_primitive cfg)) as [[prim name] errors].
    apply undisturbed_set_state, undisturbed_errors, Hg. }
  clear Hg. revert H1. generalize (init_primitive cfg g). clear g. intros g Hg.
  assert (H1 : undisturbed (None, true, None, true, None, true, AABB3) (init_positions cfg g)).
  { unfold init_positions. destruct (cfg_positions cfg); [|exact Hg].
    destruct (compressGeometry (_state g)); apply undisturbed_set_state, Hg. }
  clear Hg. revert H1. generalize (init_positions cfg g). clear g. intros g Hg.
  assert (H1 : undisturbed (None, true, None, true, None, true, AABB3) (init_colors cfg g)).
  { unfold init_colors. destruct (cfg_colors cfg); [|exact Hg].
    apply undisturbed_set_state, Hg. }
  clear Hg. revert H1. generalize (init_colors cfg g). clear g. intros g Hg.
  assert (H1 : undisturbed (None, true, None, true, None, true, AABB3)
                 (init_uv identityMat3 translationMat3v scalingMat3v mulMat3 cfg g)).
  { unfold init_uv. destruct (cfg_uv cfg); [|exact Hg].
    destruct (compressGeometry (_state g)); apply undisturbed_set_state, Hg. }
  clear Hg. revert H1.
  generalize (init_uv identityMat3 translationMat3v scalingMat3v mulMat3 cfg g). clear g.
  intros g Hg.
  assert (H1 : undisturbed (None, true, None, true, None, true, AABB3) (init_normals cfg g)).
  { unfold init_normals. destruct (cfg_normals cfg); [|exact Hg].
    apply undisturbed_set_state, Hg. }
  clear Hg. revert H1. generalize (init_normals cfg g). clear g. intros g Hg.
  unfold init_indices.
  destruct (cfg_indices cfg) as [[a|a|a]|].
  - destruct (negb bigIndicesSupported).
    + apply undisturbed_log; [discriminate|exact Hg].
    + apply undisturbed_constructor_tail, undisturbed_set_state, Hg.
  - apply undisturbed_constructor_tail, undisturbed_set_state, Hg.
  - apply undisturbed_constructor_tail, undisturbed_set_state, Hg.
  - apply undisturbed_constructor_tail, Hg.
Qed.

Lemma quiet_log (e : Effect) (g : Geometry) :
  e <> Fire "boundary" -> quiet g -> quiet (log e g).
Proof.
  intros He Q. unfold quiet in *. simpl. intros Hin.
  apply in_app_or in Hin. destruct Hin as [Hin|[Hin|[]]]; [exact (Q Hin)|exact (He Hin)].
Qed.

Lemma frozen_log (box : list IEEE.double) (e : Effect) (g : Geometry) :
  e <> Fire "boundary" -> frozen box g -> frozen box (log e g).
Proof.
  intros He (B & D & A & Q). repeat split; try assumption. apply quiet_log; assumption.
Qed.

Lemma frozen_set_state (box : list IEEE.double) (s : State) (g : Geometry) :
  frozen box g -> frozen box (set_state s g).
Proof. intros (B & D & A & Q). repeat split; assumption. Qed.

Lemma frozen_when (box : list IEEE.double) (b : bool) (e : Effect) (g : Geometry) :
  e <> Fire "boundary" -> frozen box g -> frozen box (when b (log e) g).
Proof. intros He H. destruct b; [apply frozen_log; assumption|exact H]. Qed.

Lemma frozen_setBoundaryDirty (box : list IEEE.double) (g : Geometry) :
  frozen box g -> _setBoundaryDirty g = g.
Proof. intros (B & _). unfold _setBoundaryDirty. rewrite B. reflexivity. Qed.

(** Once the box is cached, no call of the class makes it dirty again. *)
Lemma frozen_call (box : list IEEE.double) (g : Geometry) (c : Call) :
  frozen box g -> frozen box (call g c).
Proof.
  intros H. destruct c as [|p|n|u|cs| | |]; simpl.
  - unfold GeometryClass.get_positions.
    destruct (positions (_state g)); [|exact H].
    destruct (negb (compressGeometry (_state g))); [exact H|].
    destruct (_decompressedPositions g); [exact H|].
    destruct H as (B & D & A & Q). repeat split; assumption.
  - unfold set_positions. cbv zeta.
    destruct (positions (_state g)) as [ps|]; [|apply frozen_log; [discriminate|exact H]].
    destruct (negb (TypedArray_length ps =? length p)%nat);
      [apply frozen_log; [discriminate|exact H]|].
    destruct (compressGeometry (_state g)); cbv iota beta;
      apply frozen_log; try discriminate;
      match goal with
      | |- frozen box (_setBoundaryDirty ?t) =>
          assert (Ht : frozen box t)
            by (apply frozen_when; [discriminate|];
                apply frozen_when; [discriminate|];
                apply frozen_set_state; exact H);
          rewrite (frozen_setBoundaryDirty box _ Ht); exact Ht
      end.
  - unfold set_normals. cbv zeta.
    destruct (compressGeometry (_state g)); [apply frozen_log; [discriminate|exact H]|].
    destruct (normals (_state g)) as [ns|]; [|apply frozen_log; [discriminate|exact H]].
    destruct (negb (NormalsArray_length ns =? length n)%nat);
      [apply frozen_log; [discriminate|exact H]|].
    apply frozen_log; [discriminate|].
    apply frozen_when; [discriminate|]. apply frozen_when; [discriminate|].
    apply frozen_set_state; exact H.
  - unfold set_uv. cbv zeta.
    destruct (compressGeometry (_state g)); [apply frozen_log; [discriminate|exact H]|].
    destruct (uv (_state g)) as [us|]; [|apply frozen_log; [discriminate|exact H]].
    destruct (negb (TypedArray_length us =? length u)%nat);
      [apply frozen_log; [discriminate|exact H]|].
    apply frozen_log; [discriminate|].
    apply frozen_when; [discriminate|]. apply frozen_when; [discriminate|].
    apply frozen_set_state; exact H.
  - unfold set_colors. cbv zeta.
    destruct (compressGeometry (_state g)); [apply frozen_log; [discriminate|exact H]|].
    destruct (colors (_state g)) as [c0|]; [|apply frozen_log; [discriminate|exact H]].
    destruct (negb (TypedArray_length c0 =? length cs)%nat);
      [apply frozen_log; [discriminate|exact H]|].
    apply frozen_log; [discriminate|].
    apply frozen_when; [discriminate|]. apply frozen_when; [discriminate|].
    apply frozen_set_state; exact H.
  - unfold GeometryClass.get_aabb. destruct H as (B & D & A & Q). rewrite D. simpl.
    repeat split; assumption.
  - unfold GeometryClass.get_obb. destruct (_obbDirty g); [|exact H].
    destruct H as (B & D & A & Q). repeat split; assumption.
  - rewrite (frozen_setBoundaryDirty box g H). exact H.
Qed.

Lemma frozen_calls (box : list IEEE.double) (calls : list Call) (g : Geometry) :
  frozen box g -> frozen box (foldl call g calls).
Proof.
  revert g. induction calls as [|c l IH]; intros g H; simpl; [exact H|].
  apply IH. apply frozen_call. exact H.
Qed.

(** X18: the box that [get aabb] returns is computed once.  The
    constructor leaves [_boundaryDirty] set and nothing resets it, so
    [_setBoundaryDirty] always returns early.  After the first
    [get aabb], whatever positions, normals, UVs and colours are set and
    whatever is read in between, [get aabb] returns the box of the
    positions the constructor was given, [_boundaryDirty] is still set,
    and no "boundary" event has been fired. *)
Theorem aabb_is_never_refreshed (cfg : Cfg) (calls : list Call) :
  let g0 := constructor cfg in
  let g := foldl call (snd (get_aabb g0)) calls in
  fst (get_aabb g) = fst (get_aabb g0) /\
  fst (get_aabb g0)
  = Some (positions3ToAABB3 (positions (_state g0)) AABB3 (positionsDecodeMatrix (_state g0))) /\
  _boundaryDirty g = true /\
  ~ In (Fire "boundary") (trace g).
Proof.
  intros g0 g.
  destruct (constructor_private cfg) as [P Q]. fold g0 in P, Q.
  unfold private_fields in P. injection P as _ B A D _ _ _.
  set (box := positions3ToAABB3 (positions (_state g0)) AABB3 (positionsDecodeMatrix (_state g0))).
  assert (E0 : get_aabb g0
               = (Some box,
                  mkGeometry (_state g0) (_decompressedPositions g0) (_boundaryDirty g0)
                    (Some box) false (_obb g0) (_obbDirty g0) (tempAABB g0) (trace g0))).
  { unfold GeometryClass.get_aabb. rewrite D, A. reflexivity. }
  assert (F : frozen box g).
  { apply frozen_calls. rewrite E0. simpl. repeat split; assumption. }
  destruct F as (B' & D' & A' & Q').
  split; [|split; [|split]].
  - rewrite E0. unfold GeometryClass.get_aabb. rewrite D'. simpl. exact A'.
  - rewrite E0. reflexivity.
  - exact B'.
  - exact Q'.
Qed.

(** ** The accessors of [positions] *)

Lemma state_setBoundaryDirty (g : Geometry) : _state (_setBoundaryDirty g) = _state g.
Proof. unfold _setBoundaryDirty. destruct (_boundaryDirty g); reflexivity. Qed.

Lemma cache_setBoundaryDirty (g : Geometry) :
  _decompressedPositions (_setBoundaryDirty g) = _decompressedPositions g.
Proof. unfold _setBoundaryDirty. destruct (_boundaryDirty g); reflexivity. Qed.

Lemma state_when_log (b : bool) (e : Effect) (g : Geometry) :
  _state (when b (log e) g) = _state g /\
  _decompressedPositions (when b (log e) g) = _decompressedPositions g.
Proof. destruct b; split; reflexivity. Qed.

(** What a call of [set positions] that passes the two checks leaves in
    the state and in the cache. *)
Lemma set_positions_accepted (g : Geometry) (ps : TypedArray) (newPositions : list IEEE.double) :
  positions (_state g) = Some ps ->
  TypedArray_length ps = length newPositions ->
  _decompressedPositions (set_positions newPositions g) = _decompressedPositions g /\
  compressGeometry (_state (set_positions newPositions g)) = compressGeometry (_state g) /\
  positions (_state (set_positions newPositions g))
  = Some (if compressGeometry (_state g)
          then
            let bounds := IEEE.Geometry.getBounds newPositions 3 in
            TypedArray_set_all ps
              (Quantized
                 (IEEE.Geometry.compressed
                    (IEEE.Geometry.quantizeVec3 newPositions (fst bounds) (snd bounds))))
          else TypedArray_set_all ps (Numbers newPositions)).
Proof.
  intros Hp Hl. unfold set_positions. cbv zeta. rewrite Hp.
  replace (TypedArray_length ps =? length newPositions)%nat with true
    by (symmetry; apply Nat.eqb_eq; exact Hl).
  simpl negb. cbv iota.
  destruct (compressGeometry (_state g)) eqn:C; cbv iota beta;
    match goal with
    | |- context [_setBoundaryDirty (when ?b1 ?f1 (when ?b2 ?f2 ?t))] =>
        simpl _decompressedPositions; simpl _state;
        rewrite state_setBoundaryDirty, cache_setBoundaryDirty;
        destruct b1, b2; simpl; rewrite ?C; repeat split; reflexivity
    end.
Qed.

(** X19: on a geometry that is not compressed, [get positions] after
    [set positions] returns the new positions, each rounded to single
    precision, when they are as many as the old; otherwise the setter
    reports "new positions are wrong length", does nothing else, and the
    getter returns the old positions. *)
Theorem set_positions_then_get (g : Geometry) (old newPositions : list IEEE.double) :
  compressGeometry (_state g) = false ->
  positions (_state g) = Some (Float32Array old) ->
  (length newPositions = length old ->
     fst (get_positions (set_positions newPositions g))
     = Some (Float32Array (map IEEE.fround newPositions))) /\
  (length newPositions <> length old ->
     set_positions newPositions g
     = log (Error "can't update geometry positions - new positions are wrong length") g /\
     fst (get_positions (set_positions newPositions g)) = Some (Float32Array old)).
Proof.
  intros C Hp. split; intros Hl.
  - destruct (set_positions_accepted g (Float32Array old) newPositions Hp (eq_sym Hl))
      as (_ & C' & P').
    unfold GeometryClass.get_positions. rewrite P', C', C. reflexivity.
  - assert (E : set_positions newPositions g
                = log (Error "can't update geometry positions - new positions are wrong length") g).
    { unfold set_positions. cbv zeta. rewrite Hp. simpl TypedArray_length.
      replace (length old =? length newPositions)%nat with false
        by (symmetry; apply Nat.eqb_neq; congruence).
      reflexivity. }
    split; [exact E|]. rewrite E.
    unfold GeometryClass.get_positions. simpl _state. rewrite Hp, C. reflexivity.
Qed.

(** X20: on a compressed geometry the positions getter goes stale.
    [get positions] caches what it decompresses and [set positions] does
    not clear the cache: after a first [get positions], setting new
    positions stores their quantized form in the state, but
    [get positions] still returns what it returned before. *)
Theorem compressed_positions_getter_is_stale (g : Geometry) (q : list Z)
    (newPositions : list IEEE.double) :
  compressGeometry (_state g) = true ->
  positions (_state g) = Some (Uint16Array q) ->
  length newPositions = length q ->
  let first := get_positions g in
  let g' := set_positions newPositions (snd first) in
  let bounds := IEEE.Geometry.getBounds newPositions 3 in
  positions (_state g')
  = Some (Uint16Array
            (IEEE.Geometry.compressed
               (IEEE.Geometry.quantizeVec3 newPositions (fst bounds) (snd bounds)))) /\
  fst (get_positions g') = fst first.
Proof.
  intros C Hp Hl first g' bounds.
  assert (Hfirst : exists d, fst first = Some (Float32Array d) /\
                             _decompressedPositions (snd first) = Some d /\
                             _state (snd first) = _state g).
  { unfold first, GeometryClass.get_positions. rewrite Hp, C. simpl negb. cbv iota.
    destruct (_decompressedPositions g) as [d|] eqn:D; eexists; simpl; eauto. }
  destruct Hfirst as (d & E1 & E2 & E3).
  assert (Hp1 : positions (_state (snd first)) = Some (Uint16Array q)) by (rewrite E3; exact Hp).
  destruct (set_positions_accepted (snd first) (Uint16Array q) newPositions Hp1 (eq_sym Hl))
    as (D' & C' & P').
  fold g' in D', C', P'. rewrite E3, C in C', P'. simpl in P'.
  split; [exact P'|].
  unfold GeometryClass.get_positions. rewrite P', C', D', E2. simpl. symmetry. exact E1.
Qed.

(** ** The constructor and the hash *)

Lemma state_errors (errors : list string) (g : Geometry) :
  _state (fold_left (fun g msg => log (Error msg) g) errors g) = _state g.
Proof.
  revert g. induction errors as [|m l IH]; intros g; simpl; [reflexivity|].
  rewrite IH. reflexivity.
Qed.

(** ** The constructor and the UVs *)

(** The stages before [if (cfg.uv)] leave [state.uv] and
    [state.compressGeometry] as they are. *)
Lemma early_stages_keep_uv (cfg : Cfg) (g : Geometry) :
  let g' := init_colors cfg (init_positions cfg (init_primitive cfg g)) in
  uv (_state g') = uv (_state g) /\
  compressGeometry (_state g') = compressGeometry (_state g) /\
  uvBuf (_state g') = uvBuf (_state g).
Proof.
  unfold init_colors, init_positions, init_primitive.
  destruct (Geometry.init_primitive (cfg_primitive cfg)) as [[p name] errors].
  set (g1 := fold_left _ errors g).
  assert (E : _state g1 = _state g) by apply state_errors.
  rewrite <- E. clearbody g1. clear E.
  destruct (cfg_colors cfg), (cfg_positions cfg); cbn [_state set_state];
    try destruct (compressGeometry (_state g1)) eqn:C; cbn [_state set_state];
    repeat split; try reflexivity; cbn; rewrite ?C; reflexivity.
Qed.

(** The stages after [if (cfg.uv)] neither read nor write
    [state.uvDecodeMatrix]. *)
Lemma when_with_uvDecodeMatrix (m : option (list IEEE.double)) (b : bool)
    (f : Geometry -> Geometry) (g : Geometry) :
  (forall x, f (with_uvDecodeMatrix m x) = with_uvDecodeMatrix m (f x)) ->
  when b f (with_uvDecodeMatrix m g) = with_uvDecodeMatrix m (when b f g).
Proof. intros H. destruct b; [apply H|reflexivity]. Qed.

Lemma buildVBOs_with_uvDecodeMatrix (m : option (list IEEE.double)) (g : Geometry) :
  _buildVBOs (with_uvDecodeMatrix m g) = with_uvDecodeMatrix m (_buildVBOs g).
Proof.
  unfold _buildVBOs. cbv zeta.
  change (_state (with_uvDecodeMatrix m g))
    with (set_uv_field (uv (_state g)) m (_state g)).
  cbn [set_uv_field indices combineGeometry positions normals colors uv].
  rewrite !when_with_uvDecodeMatrix by (intros x; reflexivity).
  destruct (combineGeometry (_state g)); reflexivity.
Qed.

Lemma constructor_tail_with_uvDecodeMatrix (m : option (list IEEE.double)) (g : Geometry) :
  constructor_tail (with_uvDecodeMatrix m g) = with_uvDecodeMatrix m (constructor_tail g).
Proof.
  unfold constructor_tail. cbv zeta.
  change (indices (_state (with_uvDecodeMatrix m g))) with (indices (_state g)).
  rewrite when_with_uvDecodeMatrix by (intros x; reflexivity).
  generalize (when (truthy (indices (_state g))) (new_ArrayBuf "indicesBuf" set_indicesBuf) g).
  intros g1.
  change (_buildHash (with_uvDecodeMatrix m g1)) with (with_uvDecodeMatrix m (_buildHash g1)).
  generalize (_buildHash g1). intros g2.
  change (combineGeometry (_state (with_uvDecodeMatrix m g2)))
    with (combineGeometry (_state g2)).
  rewrite when_with_uvDecodeMatrix by (intros x; reflexivity).
  rewrite buildVBOs_with_uvDecodeMatrix. reflexivity.
Qed.

Lemma later_stages_with_uvDecodeMatrix (cfg : Cfg) (m : option (list IEEE.double))
    (g : Geometry) :
  init_indices bigIndicesSupported cfg (init_normals cfg (with_uvDecodeMatrix m g))
  = with_uvDecodeMatrix m (init_indices bigIndicesSupported cfg (init_normals cfg g)).
Proof.
  assert (N : init_normals cfg (with_uvDecodeMatrix m g)
              = with_uvDecodeMatrix m (init_normals cfg g)).
  { unfold init_normals. destruct (cfg_normals cfg); reflexivity. }
  rewrite N. generalize (init_normals cfg g). intros g1.
  unfold GeometryClass.init_indices.
  assert (T : forall i,
            constructor_tail
              (set_state (set_indices_field i (_state (with_uvDecodeMatrix m g1)))
                 (with_uvDecodeMatrix m g1))
            = with_uvDecodeMatrix m
                (constructor_tail (set_state (set_indices_field i (_state g1)) g1))).
  { intros i.
    change (set_state (set_indices_field i (_state (with_uvDecodeMatrix m g1)))
              (with_uvDecodeMatrix m g1))
      with (with_uvDecodeMatrix m (set_state (set_indices_field i (_state g1)) g1)).
    apply constructor_tail_with_uvDecodeMatrix. }
  destruct (cfg_indices cfg) as [[a|a|a]|].
  - destruct (negb bigIndicesSupported); [reflexivity|apply T].
  - apply T.
  - apply T.
  - apply constructor_tail_with_uvDecodeMatrix.
Qed.

(** The same stages leave [state.uv] as it is, and make no [uvBuf] when
    there is no [state.uv]. *)
Lemma when_keeps_uv (b : bool) (f : Geometry -> Geometry) (g : Geometry) :
  (forall x, uv (_state (f x)) = uv (_state x) /\ uvBuf (_state (f x)) = uvBuf (_state x)) ->
  uv (_state (when b f g)) = uv (_state g) /\ uvBuf (_state (when b f g)) = uvBuf (_state g).
Proof. intros H. destruct b; [apply H|split; reflexivity]. Qed.

Lemma buildVBOs_keeps_uv (g : Geometry) :
  uv (_state (_buildVBOs g)) = uv (_state g) /\
  (uv (_state g) = None -> uvBuf (_state (_buildVBOs g)) = uvBuf (_state g)).
Proof.
  unfold _buildVBOs. cbv zeta.
  set (g1 := when (truthy (indices (_state g))) (new_ArrayBuf "indicesBuf" set_indicesBuf) g).
  assert (H1 : uv (_state g1) = uv (_state g) /\ uvBuf (_state g1) = uvBuf (_state g))
    by (apply when_keeps_uv; intros x; split; reflexivity).
  destruct (combineGeometry (_state g)); [split; [apply H1|intros _; apply H1]|].
  set (g2 := when (truthy (positions (_state g))) (new_ArrayBuf "positionsBuf" set_positionsBuf) g1).
  assert (H2 : uv (_state g2) = uv (_state g1) /\ uvBuf (_state g2) = uvBuf (_state g1))
    by (apply when_keeps_uv; intros x; split; reflexivity).
  set (g3 := when (truthy (normals (_state g))) (new_ArrayBuf "normalsBuf" set_normalsBuf) g2).
  assert (H3 : uv (_state g3) = uv (_state g2) /\ uvBuf (_state g3) = uvBuf (_state g2))
    by (apply when_keeps_uv; intros x; split; reflexivity).
  set (g4 := when (truthy (colors (_state g))) (new_ArrayBuf "colorsBuf" set_colorsBuf) g3).
  assert (H4 : uv (_state g4) = uv (_state g3) /\ uvBuf (_state g4) = uvBuf (_state g3))
    by (apply when_keeps_uv; intros x; split; reflexivity).
  destruct H1 as [U1 B1], H2 as [U2 B2], H3 as [U3 B3], H4 as [U4 B4].
  split.
  - destruct (truthy (uv (_state g))); cbn [when]; [change (uv (_state g4) = uv (_state g))|];
      congruence.
  - intros Hu. rewrite Hu. cbn [truthy when]. congruence.
Qed.

Lemma constructor_tail_keeps_uv (g : Geometry) :
  uv (_state (constructor_tail g)) = uv (_state g) /\
  (uv (_state g) = None -> uvBuf (_state (constructor_tail g)) = uvBuf (_state g)).
Proof.
  unfold constructor_tail. cbv zeta.
  set (g1 := when (truthy (indices (_state g))) (new_ArrayBuf "indicesBuf" set_indicesBuf) g).
  assert (H1 : uv (_state g1) = uv (_state g) /\ uvBuf (_state g1) = uvBuf (_state g))
    by (apply when_keeps_uv; intros x; split; reflexivity).
  set (g2 := _buildHash g1).
  assert (H2 : uv (_state g2) = uv (_state g1) /\ uvBuf (_state g2) = uvBuf (_state g1))
    by (split; reflexivity).
  set (g3 := when (combineGeometry (_state g2)) (log (SceneVertexBufs "addGeometry")) g2).
  assert (H3 : uv (_state g3) = uv (_state g2) /\ uvBuf (_state g3) = uvBuf (_state g2))
    by (apply when_keeps_uv; intros x; split; reflexivity).
  destruct (buildVBOs_keeps_uv g3) as [U4 B4].
  destruct H1 as [U1 B1], H2 as [U2 B2], H3 as [U3 B3].
  cbn [log _state]. split; [congruence|].
  intros Hu. rewrite B4 by congruence. congruence.
Qed.

Lemma later_stages_keep_uv (cfg : Cfg) (g : Geometry) :
  let g' := init_indices bigIndicesSupported cfg (init_normals cfg g) in
  uv (_state g') = uv (_state g) /\
  (uv (_state g) = None -> uvBuf (_state g') = uvBuf (_state g)).
Proof.
  cbv zeta. unfold GeometryClass.init_indices.
  assert (N : uv (_state (init_normals cfg g)) = uv (_state g) /\
              uvBuf (_state (init_normals cfg g)) = uvBuf (_state g)).
  { unfold init_normals. destruct (cfg_normals cfg); split; reflexivity. }
  destruct N as [N1 N2]. revert N1 N2. generalize (init_normals cfg g). intros g1 N1 N2.
  assert (T : forall x : Geometry,
            uv (_state x) = uv (_state g1) -> uvBuf (_state x) = uvBuf (_state g1) ->
            uv (_state (constructor_tail x)) = uv (_state g) /\
            (uv (_state g) = None -> uvBuf (_state (constructor_tail x)) = uvBuf (_state g))).
  { intros x Hx1 Hx2. destruct (constructor_tail_keeps_uv x) as [T1 T2].
    split; [congruence|intros Hu; rewrite T2 by congruence; congruence]. }
  destruct (cfg_indices cfg) as [[a|a|a]|].
  - destruct (negb bigIndicesSupported); [|apply T; reflexivity].
    cbn [_state log]. split; [exact N1|intros _; exact N2].
  - apply T; reflexivity.
  - apply T; reflexivity.
  - apply T; reflexivity.
Qed.

(** X21: the UVs given to the constructor are kept without compression
    and dropped with it.  [quantizeVec2] returns its array under the name
    [quantized], the constructor reads [compressed.compressed]: with
    [compressGeometry] the state has no [uv], no [uvBuf] is made, and the
    hash is that of the same geometry without UVs. *)
Theorem compressed_uv_is_dropped (cfg : Cfg) (uvs : list IEEE.double) :
  cfg_uv cfg = Some uvs ->
  let g := constructor cfg in
  (cfg_compressGeometry cfg = false -> uv (_state g) = Some (new_Float32Array uvs)) /\
  (cfg_compressGeometry cfg = true ->
     uv (_state g) = None /\
     uvBuf (_state g) = false /\
     hash (_state g) = hash (_state (constructor (without_uv cfg)))).
Proof.
  intros Huv g. subst g.
  unfold GeometryClass.constructor.
  set (g2 := init_colors cfg (init_positions cfg (init_primitive cfg (new_Geometry AABB3 cfg)))).
  assert (G2 : init_colors (without_uv cfg)
                 (init_positions (without_uv cfg)
                    (init_primitive (without_uv cfg) (new_Geometry AABB3 (without_uv cfg)))) = g2).
  { destruct cfg; reflexivity. }
  assert (F : forall x, init_indices bigIndicesSupported (without_uv cfg)
                          (init_normals (without_uv cfg) x)
                        = init_indices bigIndicesSupported cfg (init_normals cfg x)).
  { intros x. destruct cfg; reflexivity. }
  destruct (early_stages_keep_uv cfg (new_Geometry AABB3 cfg)) as (U2 & C2 & B2).
  fold g2 in U2, C2, B2.
  change (uv (_state (new_Geometry AABB3 cfg))) with (@None TypedArray) in U2.
  change (compressGeometry (_state (new_Geometry AABB3 cfg))) with (cfg_compressGeometry cfg) in C2.
  split; intros C; rewrite C in C2.
  - destruct (later_stages_keep_uv cfg
                (init_uv identityMat3 translationMat3v scalingMat3v mulMat3 cfg g2)) as [K _].
    rewrite K. unfold init_uv. rewrite Huv, C2. reflexivity.
  - rewrite G2.
    assert (I : init_uv identityMat3 translationMat3v scalingMat3v mulMat3 (without_uv cfg) g2 = g2).
    { destruct cfg; reflexivity. }
    rewrite I, F.
    assert (J : exists m, init_uv identityMat3 translationMat3v scalingMat3v mulMat3 cfg g2
                          = with_uvDecodeMatrix m g2).
    { unfold init_uv. rewrite Huv, C2. eexists. unfold with_uvDecodeMatrix. rewrite U2.
      reflexivity. }
    destruct J as [m J]. rewrite J, later_stages_with_uvDecodeMatrix.
    destruct (later_stages_keep_uv cfg g2) as [K1 K2].
    cbn [with_uvDecodeMatrix _state set_state uv uvBuf hash set_uv_field].
    rewrite K1, U2. repeat split. rewrite K2 by exact U2. exact B2.
Qed.

End GeometryProofs.

Lemma set_positions_then_get_witness :
  let decompressPositions :=
    fun (_ : GeometryClass.TypedArray) (_ : option (list IEEE.double)) => @nil IEEE.double in
  let g :=
    GeometryClass.constructor false [] (fun _ d => d) (fun _ d => d) (fun _ d => d) []
      (GeometryClass.mkCfg false false false None (Some documented_triangle) None None None
         None) in
  let newPositions := map IEEE.of_Z [0; 0; 0;  1; 0; 0;  0; 1; 0] in
  (length newPositions = length (map IEEE.fround documented_triangle) ->
     fst (GeometryClass.get_positions decompressPositions
            (GeometryClass.set_positions newPositions g))
     = Some (GeometryClass.Float32Array (map IEEE.fround newPositions))) /\
  (length newPositions <> length (map IEEE.fround documented_triangle) ->
     GeometryClass.set_positions newPositions g
     = GeometryClass.log
         (GeometryClass.Error "can't update geometry positions - new positions are wrong length")
         g /\
     fst (GeometryClass.get_positions decompressPositions
            (GeometryClass.set_positions newPositions g))
     = Some (GeometryClass.Float32Array (map IEEE.fround documented_triangle))).
Proof.
  apply set_positions_then_get; reflexivity.
Defined.

Lemma compressed_positions_getter_is_stale_witness :
  let decompressPositions :=
    fun (t : GeometryClass.TypedArray) (m : option (list IEEE.double)) =>
      match t with
      | GeometryClass.Uint16Array q => IEEE.Mat.decompressPositions (default [] m) q
      | GeometryClass.Float32Array a => a
      end in
  let g :=
    GeometryClass.constructor false [] (fun _ d => d) (fun _ d => d) (fun _ d => d) []
      (GeometryClass.mkCfg false true false None
         (Some (map IEEE.of_Z [0; 0; 0;  4; 0; 0;  0; 4; 4])) None None None None) in
  let newPositions := map IEEE.of_Z [0; 0; 0;  1; 0; 0;  0; 1; 1] in
  let first := GeometryClass.get_positions decompressPositions g in
  let g' := GeometryClass.set_positions newPositions (snd first) in
  let bounds := IEEE.Geometry.getBounds newPositions 3 in
  GeometryClass.positions (GeometryClass._state g')
  = Some (GeometryClass.Uint16Array
            (IEEE.Geometry.compressed
               (IEEE.Geometry.quantizeVec3 newPositions (fst bounds) (snd bounds)))) /\
  fst (GeometryClass.get_positions decompressPositions g') = fst first.
Proof.
  apply (compressed_positions_getter_is_stale _ _
           [0; 0; 0;  65535; 0; 0;  0; 65535; 65535]); vm_compute; reflexivity.
Defined.

Lemma compressed_uv_is_dropped_witness :
  let cfg :=
    GeometryClass.mkCfg false true false (Some "triangles"%string)
      (Some documented_triangle) None
      (Some [IEEE.of_Z 0; IEEE.of_Z 0; IEEE.decimal 5 10; IEEE.of_Z 0; IEEE.of_Z 1; IEEE.of_Z 0])
      None (Some (GeometryClass.FromArray [0; 1; 2])) in
  let g :=
    GeometryClass.constructor false [] (fun _ d => d) (fun _ d => d) (fun _ d => d) [] cfg in
  (GeometryClass.cfg_compressGeometry cfg = false ->
     GeometryClass.uv (GeometryClass._state g)
     = Some (GeometryClass.new_Float32Array
               [IEEE.of_Z 0; IEEE.of_Z 0; IEEE.decimal 5 10; IEEE.of_Z 0; IEEE.of_Z 1; IEEE.of_Z 0])) /\
  (GeometryClass.cfg_compressGeometry cfg = true ->
     GeometryClass.uv (GeometryClass._state g) = None /\
     GeometryClass.uvBuf (GeometryClass._state g) = false /\
     GeometryClass.hash (GeometryClass._state g)
     = GeometryClass.hash
         (GeometryClass._state
            (GeometryClass.constructor false [] (fun _ d => d) (fun _ d => d) (fun _ d => d) []
               (GeometryClass.without_uv cfg)))).
Proof.
  apply compressed_uv_is_dropped. reflexivity.
Defined.
